(** * Rule-based safety classifier and caregiver-training analyzer

    Shallow embedding of
    - [SafetyAssessmentTool._run]  (backend/app/agents/tools.py)
    - [CarePhilosophy], [ConversationAnalyzer]
      (backend/app/services/caregiver_training.py)

    Conventions.
    - A Python [str] is a [string] whose characters are the code points
      0..255; [lower], [strip], [split], [count] and the class [\w] of
      regular expressions follow Python on that range.  The fixed prose of
      the recommendations holds a few characters beyond it, kept as their
      UTF-8 bytes; no function looks inside these fields.
    - A Python [float] score is an exact rational ([Q]): the decimal
      literals of the source are the corresponding fractions, [min] and
      [max] are [Qmin] and [Qmax], and [round(x, 2)] is the nearest
      hundredth, ties to the even one.  Binary64 differs from this by
      rounding errors of one unit in the last place, which show only where
      a sum meets a threshold exactly (0.7 + 0.2 - 0.3 against 0.6) or
      where the weighted sum sits on a rounding tie; module [Binary64]
      evaluates one path of the source in binary64 itself.  Where such a
      meeting decides the result (the overall score, the grade, the test
      [score < 0.6] of the recommendations), the properties are stated
      over module [Float64], the same analyzer on binary64 values with
      the operations of the source.
    - A [dict] iterated in insertion order is an association list; the
      values of its string-typed entries stay strings.
    - A function that can raise returns an [option]. *)

From Stdlib Require Import Bool Arith List String Ascii ZArith QArith Qround Qminmax Lia Lqa.
From Stdlib Require Import PrimFloat FloatOps SpecFloat FloatAxioms Uint63.
From Stdlib Require Import Sorted Permutation DecimalString.

Set Warnings "-inexact-float".
Import ListNotations.

Open Scope string_scope.
Open Scope nat_scope.

(** ** Python string primitives *)

Module PyStr.

Definition code (c : ascii) : nat := nat_of_ascii c.

Definition between (lo hi n : nat) : bool := (lo <=? n) && (n <=? hi).

(** [str.isspace] on one character. *)
Definition is_space (c : ascii) : bool :=
  let n := code c in
  between 9 13 n || between 28 32 n || (n =? 133) || (n =? 160).

(** [str.lower] on one character: A-Z and the accented capitals
    0xC0-0xDE (without the multiplication sign 0xD7) move up by 32. *)
Definition lower_char (c : ascii) : ascii :=
  let n := code c in
  if between 65 90 n || (between 192 222 n && negb (n =? 215))
  then ascii_of_nat (n + 32) else c.

Fixpoint lower (s : string) : string :=
  match s with
  | EmptyString => EmptyString
  | String c s' => String (lower_char c) (lower s')
  end.

Definition is_empty (s : string) : bool :=
  match s with EmptyString => true | _ => false end.

Fixpoint lstrip (s : string) : string :=
  match s with
  | EmptyString => EmptyString
  | String c s' => if is_space c then lstrip s' else s
  end.

Fixpoint rstrip (s : string) : string :=
  match s with
  | EmptyString => EmptyString
  | String c s' =>
      let r := rstrip s' in
      if is_empty r && is_space c then EmptyString else String c r
  end.

(** [s.strip()] *)
Definition strip (s : string) : string := lstrip (rstrip s).

(** [s.startswith(p)] *)
Fixpoint startswith (p s : string) : bool :=
  match p, s with
  | EmptyString, _ => true
  | String a p', String b s' => Ascii.eqb a b && startswith p' s'
  | String _ _, EmptyString => false
  end.

(** [sub in s] *)
Fixpoint contains (sub s : string) : bool :=
  startswith sub s ||
  match s with
  | EmptyString => false
  | String _ s' => contains sub s'
  end.

(** [any(w in s for w in words)] *)
Definition any_in (words : list string) (s : string) : bool :=
  existsb (fun w => contains w s) words.

(** [s.count(sub)]: occurrences that do not overlap, scanning from the
    left; [skip] is the number of characters of the last match still to
    pass. *)
Fixpoint count_from (sub : string) (skip : nat) (s : string) : nat :=
  match s with
  | EmptyString => if is_empty sub then 1 else 0
  | String _ s' =>
      match skip with
      | S k => count_from sub k s'
      | O => if startswith sub s
             then S (count_from sub (Nat.pred (length sub)) s')
             else count_from sub 0 s'
      end
  end.

Definition count (sub s : string) : nat := count_from sub 0 s.

(** [s[n:]] and [s[:n]] *)
Fixpoint drop (n : nat) (s : string) : string :=
  match n, s with
  | O, _ => s
  | S k, String _ s' => drop k s'
  | S _, EmptyString => EmptyString
  end.

Fixpoint take (n : nat) (s : string) : string :=
  match n, s with
  | S k, String c s' => String c (take k s')
  | _, _ => EmptyString
  end.

(** [s.split(sep)] for a one-character separator. *)
Fixpoint split_on (sep : ascii) (s : string) : list string :=
  match s with
  | EmptyString => [EmptyString]
  | String c s' =>
      let r := split_on sep s' in
      if Ascii.eqb c sep then EmptyString :: r
      else match r with
           | h :: t => String c h :: t
           | [] => [String c EmptyString]
           end
  end.

(** [s.split(sep, 1)]: the part before the first [sep] and the part
    after it; [None] when [sep] does not occur (Python then returns the
    one-element list [[s]]). *)
Fixpoint split_first (sep : ascii) (s : string) : option (string * string) :=
  match s with
  | EmptyString => None
  | String c s' =>
      if Ascii.eqb c sep then Some (EmptyString, s')
      else match split_first sep s' with
           | Some (a, b) => Some (String c a, b)
           | None => None
           end
  end.

(** [s.split()]: the maximal runs of non-space characters. *)
Fixpoint split_ws (s : string) : list string :=
  match s with
  | EmptyString => []
  | String c s' =>
      let r := split_ws s' in
      if is_space c then r
      else match s' with
           | EmptyString => [String c EmptyString]
           | String d _ =>
               if is_space d then String c EmptyString :: r
               else match r with
                    | h :: t => String c h :: t
                    | [] => [String c EmptyString]
                    end
           end
  end.

(** The class [\w] of [re] on str patterns: [str.isalnum] or underscore. *)
Definition is_word (c : ascii) : bool :=
  let n := code c in
  between 48 57 n || between 65 90 n || (n =? 95) || between 97 122 n
  || (n =? 170) || (n =? 178) || (n =? 179) || (n =? 181) || (n =? 185)
  || (n =? 186) || between 188 190 n || between 192 214 n
  || between 216 246 n || between 248 255 n.

Definition is_word_opt (c : option ascii) : bool :=
  match c with Some a => is_word a | None => false end.

(** [\b] between the character before a position and the one after. *)
Definition boundary (prev next : option ascii) : bool :=
  xorb (is_word_opt prev) (is_word_opt next).

Definition head (s : string) : option ascii :=
  match s with EmptyString => None | String c _ => Some c end.

Fixpoint last_char (prev : option ascii) (s : string) : option ascii :=
  match s with
  | EmptyString => prev
  | String c s' => last_char (Some c) s'
  end.

(** [re.search(r'\b' + lit + r'\b', s)] for a literal [lit]; [prev] is
    the character before the current position. *)
Fixpoint search_word_from (lit : string) (prev : option ascii) (s : string) : bool :=
  (boundary prev (head s)
   && startswith lit s
   && boundary (last_char prev lit) (head (drop (length lit) s)))
  || match s with
     | EmptyString => false
     | String c s' => search_word_from lit (Some c) s'
     end.

Definition search_word (lit s : string) : bool := search_word_from lit None s.

Definition nl : ascii := ascii_of_nat 10.
Definition colon : ascii := ":"%char.
Definition dq : string := String (ascii_of_nat 34) EmptyString.

(** Lines of a text block joined by newlines. *)
Definition unlines (ls : list string) : string :=
  fold_right (fun l acc => l ++ String nl acc) EmptyString ls.

End PyStr.

(** ** agents/tools.py: SafetyAssessmentTool *)

Module Safety.
Import PyStr.

Definition crisis_keywords : list string :=
  ["kill"; "die"; "suicide"; "harm myself"; "hurt myself";
   "end it all"; "want to die"; "better off dead"].

Definition distress_keywords : list string :=
  ["help me"; "scared"; "terrified"; "can't breathe";
   "chest pain"; "can't move"; "falling"; "emergency"].

Definition agitation_keywords : list string :=
  ["angry"; "frustrated"; "leave me alone"; "go away";
   "stop"; "hate this"; "get out"].

(** The four triple-quoted reports; each starts with a newline. *)
Definition CRITICAL_REPORT : string :=
  String nl (unlines
    ["SAFETY ASSESSMENT: CRITICAL";
     "Risk Level: HIGH - IMMEDIATE INTERVENTION REQUIRED";
     "";
     "Indicators: Crisis language detected (self-harm/suicidal ideation)";
     "";
     "REQUIRED ACTIONS:";
     "1. Immediately notify emergency contacts";
     "2. Engage crisis protocol";
     "3. Do NOT continue normal conversation";
     "4. Provide crisis hotline: 988 (Suicide & Crisis Lifeline)";
     "5. Stay with patient, use calming presence";
     "6. Say: " ++ dq ++ "I hear that you're in pain. Your safety is important. Help is available." ++ dq]).

Definition ELEVATED_REPORT : string :=
  String nl (unlines
    ["SAFETY ASSESSMENT: ELEVATED";
     "Risk Level: MODERATE - REQUIRES ATTENTION";
     "";
     "Indicators: Severe distress or potential medical emergency";
     "";
     "RECOMMENDED ACTIONS:";
     "1. Alert caregiver immediately";
     "2. Ask gentle clarifying questions";
     "3. Provide reassurance: " ++ dq ++ "You're safe. Help is here." ++ dq;
     "4. If medical symptoms (chest pain, breathing issues), call 911";
     "5. Remain calm and present"]).

Definition MONITOR_REPORT : string :=
  String nl (unlines
    ["SAFETY ASSESSMENT: MONITOR";
     "Risk Level: LOW-MODERATE - De-escalation needed";
     "";
     "Indicators: Agitation or frustration";
     "";
     "RECOMMENDED ACTIONS:";
     "1. Validate feelings: " ++ dq ++ "I understand you're feeling frustrated" ++ dq;
     "2. Offer to end session: " ++ dq ++ "Would you like to take a break?" ++ dq;
     "3. Switch to calming content (music, nature sounds)";
     "4. Give space, reduce stimulation";
     "5. Note in session log for caregiver review"]).

Definition CLEAR_REPORT : string :=
  String nl (unlines
    ["SAFETY ASSESSMENT: CLEAR";
     "Risk Level: NONE - Continue normal interaction";
     "";
     "No safety concerns detected. Proceed with compassionate, validating conversation."]).

(** [SafetyAssessmentTool._run]; [context] is accepted and not read. *)
Definition _run (patient_message : string) (context : string) : string :=
  let message_lower := lower patient_message in
  if any_in crisis_keywords message_lower then CRITICAL_REPORT
  else if any_in distress_keywords message_lower then ELEVATED_REPORT
  else if any_in agitation_keywords message_lower then MONITOR_REPORT
  else CLEAR_REPORT.

(** The tier and the risk level a report announces, read off its two
    header lines. *)
Inductive Tier := critical | elevated | monitor | clear.
Inductive Risk := HIGH | MODERATE | LOW_MODERATE | NONE.

Definition tier_of (report : string) : option Tier :=
  if contains "SAFETY ASSESSMENT: CRITICAL" report then Some critical
  else if contains "SAFETY ASSESSMENT: ELEVATED" report then Some elevated
  else if contains "SAFETY ASSESSMENT: MONITOR" report then Some monitor
  else if contains "SAFETY ASSESSMENT: CLEAR" report then Some clear
  else None.

Definition risk_of (report : string) : option Risk :=
  if contains "Risk Level: HIGH" report then Some HIGH
  else if contains "Risk Level: MODERATE" report then Some MODERATE
  else if contains "Risk Level: LOW-MODERATE" report then Some LOW_MODERATE
  else if contains "Risk Level: NONE" report then Some NONE
  else None.

End Safety.

(** ** services/caregiver_training.py *)

Module Training.
Import PyStr.

(** *** CarePhilosophy *)

Record Principle := mkPrinciple {
  p_title : string;
  p_description : string;
  weight : Q }.

Definition PRINCIPLES : list (string * Principle) :=
  [("ritual_over_stimulation",
    mkPrinciple "Ritual Over Stimulation"
      "Novelty creates anxiety. Familiarity creates safety." 0.25);
   ("emotion_over_accuracy",
    mkPrinciple "Emotion Over Accuracy"
      "Respond to feelings, not facts. Correctness is optional. Comfort is not." 0.30);
   ("presence_over_performance",
    mkPrinciple "Presence Over Performance"
      "No one is asked to remember, improve, or succeed." 0.25);
   ("short_steady_repeatable",
    mkPrinciple "Short, Steady, Repeatable"
      "Better to return tomorrow than overwhelm today." 0.20)].

Record Phase := mkPhase {
  name : string;
  duration : string;
  purpose : string;
  example : string;
  key_points : list string }.

Record IdealSession := mkIdealSession {
  duration_minutes : nat;
  phases : list Phase }.

Definition IDEAL_SESSION : IdealSession :=
  mkIdealSession 7
    [mkPhase "Arrival" "0-1 min" "Predictability & Safety"
       "Good morning, [Name]. It's time for our visit. I'm here with you."
       ["Use their name"; "Say 'visit' not 'session'";
        "State presence before purpose"; "Pause - don't rush"];
     mkPhase "Gentle Orientation" "1-2 min" "Orientation Without Testing"
       "It's a calm morning. You're at home, and things are okay right now."
       ["Never ask 'Do you know...?'"; "Never wait for confirmation";
        "Orientation is offered, not requested"; "No testing"];
     mkPhase "Familiar Thread" "2-4 min" "Memory Without Recall Pressure"
       "I was thinking about your garden today. You always seemed to enjoy being around plants."
       ["No 'when', 'who', or 'what year'";
        "Use 'Tell me', 'How did it feel', 'What did you like'";
        "Repetition is success"; "Follow emotion, not facts"];
     mkPhase "Emotional Reflection" "4-5 min" "Identity Support"
       "When you talk about that, you sound calm. That seems like something you cared about."
       ["Reflect who they are, not what they remember";
        "Acknowledge emotions"; "Let them respond or sit quietly";
        "This minute is crucial"];
     mkPhase "Gentle Presence" "5-6 min" "No Performance Required"
       "We can stay here with that feeling for a moment. It's okay to rest."
       ["Silence is allowed"; "No pressure to speak";
        "If tired, validate that"; "Presence over conversation"];
     mkPhase "Consistent Closing" "6-7 min" "Trust & Continuity"
       "Thank you for spending this time with me. I'll visit you again tomorrow."
       ["Always the same closing"; "No recap"; "No instruction";
        "No 'goodbye forever'"; "Promise return"]].

(** [d.get(key)] / [d[key]] on a dict with string keys; [None] is the
    missing key. *)
Fixpoint lookup {A : Type} (key : string) (d : list (string * A)) : option A :=
  match d with
  | [] => None
  | (k, v) :: rest => if String.eqb key k then Some v else lookup key rest
  end.

(** *** ConversationAnalyzer: turns *)

Record Turn := mkTurn {
  speaker : string;
  text : string;
  text_lower : string }.

(** The body of the parsing loop for one stripped, non-empty line. *)
Definition parse_line (caregiver_name patient_name line : string) : Turn :=
  let '(speaker, text) :=
    if startswith (lower caregiver_name ++ ":") (lower line) then
      ("caregiver", strip (drop (length caregiver_name + 1) line))
    else if startswith (lower patient_name ++ ":") (lower line) then
      ("patient", strip (drop (length patient_name + 1) line))
    else
      match split_first colon line with
      | Some (part0, part1) =>
          let speaker_text := lower (strip part0) in
          let speaker :=
            if contains "caregiver" speaker_text || contains "family" speaker_text
            then "caregiver"
            else if contains "patient" speaker_text || contains "elder" speaker_text
            then "patient"
            else "unknown" in
          (speaker, strip part1)
      | None => ("unknown", line)
      end in
  mkTurn speaker text (lower text).

(** The loop [for line in lines], with [turns] the list built so far. *)
Fixpoint parse_lines (caregiver_name patient_name : string)
    (lines : list string) (turns : list Turn) : list Turn :=
  match lines with
  | [] => turns
  | line :: rest =>
      let line := strip line in
      if is_empty line then parse_lines caregiver_name patient_name rest turns
      else parse_lines caregiver_name patient_name rest
             (turns ++ [parse_line caregiver_name patient_name line])%list
  end.

Definition _parse_conversation
    (conversation_text caregiver_name patient_name : string) : list Turn :=
  let lines := split_on nl (strip conversation_text) in
  parse_lines caregiver_name patient_name lines [].

(** [[t for t in turns if t["speaker"] == "caregiver"]] *)
Definition caregiver_turns_of (turns : list Turn) : list Turn :=
  filter (fun t => String.eqb (speaker t) "caregiver") turns.

(** [sum(1 for turn in turns if p(turn))] *)
Definition count_turns (p : Turn -> bool) (turns : list Turn) : nat :=
  List.length (filter p turns).

Definition word_count (t : Turn) : nat := List.length (split_ws (text t)).

Definition Qnat (n : nat) : Q := inject_Z (Z.of_nat n).

Definition Qltb (x y : Q) : bool := negb (Qle_bool y x).

(** *** ConversationAnalyzer: principle scores *)

(** The evidence strings, one constructor per message; the numbers are
    the ones the f-strings print. *)
Inductive Evidence :=
| NoCaregiverStatements
| StartedWithGreeting
| MissingGreeting
| UsedStructureWords
| ProperClosing
| MissingClosing
| UsedValidation (validation_count : nat)
| NoValidation
| CorrectedOrTested (correction_count : nat)
| NoCorrection
| AskedTesting (testing_count : nat)
| NoTesting
| GentleInvitations (invitation_count : nat)
| AverageIdeal (avg_words : Q)
| AverageAcceptable (avg_words : Q)
| AverageTooLong (avg_words : Q)
| LongStatements (n : nat)
| AllSized.

Record PrincipleScore := mkScore {
  score : Q;
  evidence : list Evidence }.

Definition clamp (score : Q) : Q := Qmin 1.0 (Qmax 0.0 score).

Definition _score_ritual_consistency (caregiver_turns : list Turn) : PrincipleScore :=
  match caregiver_turns with
  | [] => mkScore 0 [NoCaregiverStatements]
  | first :: _ =>
      let score := 0.7%Q in
      let first_turn := text_lower first in
      let '(score, evidence) :=
        if any_in ["good morning"; "good afternoon"; "hello"; "hi"] first_turn
        then (score + 0.1, [StartedWithGreeting])%Q
        else (score - 0.1, [MissingGreeting])%Q in
      let structure_words := ["today"; "time for"; "visit"; "together"] in
      let '(score, evidence) :=
        if existsb (fun turn => any_in structure_words (text_lower turn))
             (firstn 3 caregiver_turns)
        then (score + 0.1, evidence ++ [UsedStructureWords])%Q%list
        else (score, evidence) in
      let last_turn := text_lower (last caregiver_turns first) in
      let '(score, evidence) :=
        if any_in ["thank you"; "see you"; "tomorrow"; "next time"] last_turn
        then (score + 0.1, evidence ++ [ProperClosing])%Q%list
        else (score - 0.1, evidence ++ [MissingClosing])%Q%list in
      mkScore (clamp score) evidence
  end.

Definition validation_phrases : list string :=
  ["i understand"; "that sounds"; "i hear you"; "that must";
   "it seems"; "you feel"; "that's important"; "i can see"].

Definition correction_phrases : list string :=
  ["no, actually"; "that's not right"; "remember when"; "don't you remember";
   "try to remember"; "you forgot"; "that's wrong"; "no, it was"].

Definition _score_emotional_validation
    (caregiver_turns all_turns : list Turn) : PrincipleScore :=
  let score := 0.7%Q in
  let validation_count :=
    count_turns (fun turn => any_in validation_phrases (text_lower turn))
      caregiver_turns in
  let '(score, evidence) :=
    if 0 <? validation_count
    then (score + Qmin 0.2 (Qnat validation_count * 0.1),
          [UsedValidation validation_count])%Q
    else (score - 0.15, [NoValidation])%Q in
  let correction_count :=
    count_turns (fun turn => any_in correction_phrases (text_lower turn))
      caregiver_turns in
  let '(score, evidence) :=
    if 0 <? correction_count
    then (score - Qmin 0.3 (Qnat correction_count * 0.15),
          evidence ++ [CorrectedOrTested correction_count])%Q%list
    else (score + 0.1, evidence ++ [NoCorrection])%Q%list in
  mkScore (clamp score) evidence.

(** The literals between [\b] and [\b] of [testing_patterns]. *)
Definition testing_patterns : list string :=
  ["do you remember"; "what year"; "who was"; "when did"; "try to";
   "can you recall"].

Definition invitation_phrases : list string :=
  ["if you'd like"; "would you like"; "we can"; "it's okay";
   "no need to"; "take your time"; "when you're ready"].

(** One caregiver turn counts once, whichever pattern matches first. *)
Definition is_testing (turn : Turn) : bool :=
  existsb (fun pattern => search_word pattern (text_lower turn)) testing_patterns.

Definition _score_no_pressure (caregiver_turns : list Turn) : PrincipleScore :=
  let score := 0.8%Q in
  let testing_count := count_turns is_testing caregiver_turns in
  let '(score, evidence) :=
    if 0 <? testing_count
    then (score - Qmin 0.4 (Qnat testing_count * 0.15),
          [AskedTesting testing_count])%Q
    else (score + 0.1, [NoTesting])%Q in
  let invitation_count :=
    count_turns (fun turn => any_in invitation_phrases (text_lower turn))
      caregiver_turns in
  let '(score, evidence) :=
    if 0 <? invitation_count
    then (score + Qmin 0.15 (Qnat invitation_count * 0.05),
          evidence ++ [GentleInvitations invitation_count])%Q%list
    else (score, evidence) in
  mkScore (clamp score) evidence.

Definition _score_brevity_structure (caregiver_turns : list Turn) : PrincipleScore :=
  match caregiver_turns with
  | [] => mkScore 0 []
  | _ :: _ =>
      let score := 0.7%Q in
      let total_words := list_sum (map word_count caregiver_turns) in
      let avg_words := (Qnat total_words / Qnat (List.length caregiver_turns))%Q in
      let '(score, evidence) :=
        if Qle_bool avg_words 12 then (score + 0.2, [AverageIdeal avg_words])%Q
        else if Qle_bool avg_words 18 then (score + 0.1, [AverageAcceptable avg_words])%Q
        else (score - 0.1, [AverageTooLong avg_words])%Q in
      let long_statements := filter (fun t => 25 <? word_count t) caregiver_turns in
      let '(score, evidence) :=
        match long_statements with
        | _ :: _ =>
            (score - Qmin 0.2 (Qnat (List.length long_statements) * 0.05),
             evidence ++ [LongStatements (List.length long_statements)])%Q%list
        | [] => (score + 0.1, evidence ++ [AllSized])%Q%list
        end in
      mkScore (clamp score) evidence
  end.

Definition _score_principle (turns : list Turn) (principle stage : string)
    : PrincipleScore :=
  let caregiver_turns := caregiver_turns_of turns in
  if String.eqb principle "ritual_over_stimulation" then
    _score_ritual_consistency caregiver_turns
  else if String.eqb principle "emotion_over_accuracy" then
    _score_emotional_validation caregiver_turns turns
  else if String.eqb principle "presence_over_performance" then
    _score_no_pressure caregiver_turns
  else if String.eqb principle "short_steady_repeatable" then
    _score_brevity_structure caregiver_turns
  else mkScore 0.5 [].

(** *** ConversationAnalyzer: violations *)

Record Violation := mkViolation {
  severity : string;
  type : string;
  turn_number : nat;
  v_text : string;
  issue : string;
  correction : string }.

(** The four checks of the loop body for the caregiver turn of index [i];
    they are independent and append in this order. *)
Definition turn_violations (i : nat) (turn : Turn) : list Violation :=
  let text_lower := text_lower turn in
  ((if any_in ["do you remember"; "try to remember"; "don't you remember"] text_lower
    then [mkViolation "high" "memory_testing" (i + 1) (take 100 (text turn))
            "Testing memory creates anxiety and shame"
            "Instead ask: 'What did you like about that?' or 'Tell me more about that'"]
    else [])
   ++
   (if any_in ["no, actually"; "that's not right"; "that's wrong"] text_lower
    then [mkViolation "high" "correction" (i + 1) (take 100 (text turn))
            "Correcting creates conflict and distress"
            "Validate their emotion: 'That sounds important to you' or 'I can see why you'd think that'"]
    else [])
   ++
   (if 2 <=? count "or" text_lower
    then [mkViolation "medium" "too_many_choices" (i + 1) (take 100 (text turn))
            "Multiple choices increase confusion"
            "Simplify to one option or no choice: 'It's time for lunch' vs 'Do you want lunch now or later?'"]
    else [])
   ++
   (if 3 <=? count "?" text_lower
    then [mkViolation "medium" "too_many_questions" (i + 1) (take 100 (text turn))
            "Multiple questions create pressure"
            "One question at a time, or statements instead: 'I'm curious about your garden' vs asking multiple garden questions"]
    else []))%list.

(** [for i, turn in enumerate(caregiver_turns)] from index [i] on. *)
Fixpoint scan_violations (i : nat) (caregiver_turns : list Turn)
    (violations : list Violation) : list Violation :=
  match caregiver_turns with
  | [] => violations
  | turn :: rest =>
      scan_violations (S i) rest (violations ++ turn_violations i turn)%list
  end.

Definition _detect_violations (turns : list Turn) (stage : string) : list Violation :=
  let caregiver_turns := caregiver_turns_of turns in
  scan_violations 0 caregiver_turns [].

(** *** ConversationAnalyzer: strengths *)

(** The source returns [list(set(strengths))]: every message is appended
    at most once, so the set has the elements of this list, in an order
    Python does not fix. *)
Definition _identify_strengths (turns : list Turn) (stage : string) : list string :=
  let caregiver_turns := caregiver_turns_of turns in
  let strengths := [] in
  let strengths :=
    if existsb (fun turn => any_in ["that sounds"; "i understand"; "i hear you"]
                              (text_lower turn)) caregiver_turns
    then (strengths ++ ["Used emotional validation"])%list else strengths in
  let strengths :=
    if existsb (fun t => contains "take your time" (text_lower t)) caregiver_turns
    then (strengths ++ ["Gave permission to go slow"])%list else strengths in
  let testing_found :=
    existsb (fun t => contains "remember" (text_lower t) && contains "?" (text t))
      caregiver_turns in
  let strengths :=
    if negb testing_found
    then (strengths ++ ["Avoided testing memory"])%list else strengths in
  let short_statements := filter (fun t => word_count t <=? 12) caregiver_turns in
  let strengths :=
    if match caregiver_turns with
       | _ :: _ => Qltb 0.7 (Qnat (List.length short_statements)
                              / Qnat (List.length caregiver_turns))
       | [] => false
       end
    then (strengths ++ ["Kept statements short and clear"])%list else strengths in
  let strengths :=
    if existsb (fun t => any_in ["i'm here"; "together"; "with you"] (text_lower t))
         caregiver_turns
    then (strengths ++ ["Emphasized presence and togetherness"])%list else strengths in
  strengths.

(** *** ConversationAnalyzer: recommendations *)

Record Recommendation := mkRecommendation {
  priority : string;
  category : string;
  title : string;
  description : string;
  action : string;
  r_example : string }.

Definition recommendations_map : list (string * Recommendation) :=
  [("ritual_over_stimulation",
    mkRecommendation "high" "structure" "Create Predictable Ritual"
      "Novelty increases anxiety in dementia. Use the same words, same time, same structure every visit."
      "Write a script for your opening and closing. Use it every time, word-for-word."
      "Opening: 'Good morning, [Name]. It's time for our visit. I'm here with you.' Closing: 'Thank you for this time. I'll see you tomorrow.'");
   ("emotion_over_accuracy",
    mkRecommendation "immediate" "communication" "Validate Feelings, Not Facts"
      "Correcting their reality creates conflict. Their emotions are always valid, even if facts aren't."
      "When they say something incorrect, respond to the feeling behind it instead of correcting."
      "If they say 'I need to pick up the kids' (who are grown), say: 'You're a caring parent' not 'Your kids are adults now.'");
   ("presence_over_performance",
    mkRecommendation "high" "approach" "Remove All Pressure"
      "Never ask them to remember, perform, or succeed. Your presence is the gift."
      "Replace questions with statements. Give permission to rest. Accept silence."
      "'We can just sit together' not 'Can you tell me about...?' Silence is companionship.");
   ("short_steady_repeatable",
    mkRecommendation "medium" "structure" "Keep It Brief"
      "Short visits prevent fatigue. Better to return daily than overwhelm today."
      "Aim for 5-7 minutes. Use short sentences (10-12 words max). One idea per sentence."
      "'I'm here with you.' (pause) 'Today is calm.' (pause) Not: 'I'm here with you today and wanted to see how you're doing and talk about the garden...'")].

Definition _get_principle_recommendation (principle stage : string)
    : option Recommendation :=
  lookup principle recommendations_map.

Definition stop_testing_memory : Recommendation :=
  mkRecommendation "immediate" "critical" "Stop Testing Memory"
    "Asking 'Do you remember?' creates anxiety. Memory loss is the core symptom—testing it causes shame."
    "Replace memory questions with feeling questions: 'What did you enjoy about that?' or 'How did that make you feel?'"
    "Instead of 'Do you remember our trip?' say 'I was thinking about our trip. You seemed happy then.'".

Definition early_stage : Recommendation :=
  mkRecommendation "high" "stage_specific" "Early Stage: Affirm Competence"
    "In early dementia, the person is very aware of their losses. Avoid any framing around 'memory improvement' or 'cognitive exercises.'"
    "Frame interactions as social visits, not therapy. Normalize difficulty: 'Everyone has trouble with names sometimes.'"
    "'This is just a quiet visit' not 'Let's work on your memory today'".

Definition moderate_stage : Recommendation :=
  mkRecommendation "high" "stage_specific" "Moderate Stage: Rhythm & Repetition"
    "At this stage, ritual matters more than conversation quality. Same time, same words, same structure."
    "Use the exact same opening and closing every visit. Repeat favorite topics often—repetition is success."
    "Same greeting daily: 'Good morning, [Name]. It's time for our visit. I'm here with you.'".

Definition late_stage : Recommendation :=
  mkRecommendation "high" "stage_specific" "Late Stage: Presence Over Words"
    "Language may be minimal. Your tone and presence matter more than words. Very short sessions (3-5 min)."
    "Reduce questions. Use more statements. Accept long silences. Focus on calming the nervous system."
    "'You're not alone. I'm here.' Then sit quietly together.".

Definition structure_your_visit : Recommendation :=
  mkRecommendation "medium" "improvement" "Structure Your Visit"
    "Follow the ideal 7-minute structure: Arrival → Orientation → Familiar Thread → Reflection → Presence → Closing"
    "Each phase has a purpose. Don't rush. Silence is okay. Repetition tomorrow is expected."
    "See the full 7-minute ideal session script for details.".

(** [for principle, score_data in scores.items()] *)
Fixpoint low_score_recommendations (scores : list (string * PrincipleScore))
    (stage : string) (recommendations : list Recommendation)
    : list Recommendation :=
  match scores with
  | [] => recommendations
  | (principle, score_data) :: rest =>
      let recommendations :=
        if Qltb (score score_data) 0.6 then
          match _get_principle_recommendation principle stage with
          | Some rec => (recommendations ++ [rec])%list
          | None => recommendations
          end
        else recommendations in
      low_score_recommendations rest stage recommendations
  end.

Definition is_nil {A : Type} (l : list A) : bool :=
  match l with [] => true | _ => false end.

Definition _generate_recommendations (turns : list Turn)
    (scores : list (string * PrincipleScore)) (violations : list Violation)
    (stage : string) : list Recommendation :=
  let recommendations := low_score_recommendations scores stage [] in
  let recommendations :=
    if negb (is_nil violations) then
      let high_severity :=
        filter (fun v => String.eqb (severity v) "high") violations in
      if negb (is_nil high_severity)
      then stop_testing_memory :: recommendations
      else recommendations
    else recommendations in
  let recommendations :=
    if String.eqb stage "early" then (recommendations ++ [early_stage])%list
    else if String.eqb stage "moderate" then (recommendations ++ [moderate_stage])%list
    else if String.eqb stage "late" then (recommendations ++ [late_stage])%list
    else recommendations in
  let recommendations :=
    if is_nil recommendations
    then (recommendations ++ [structure_your_visit])%list
    else recommendations in
  recommendations.

(** *** ConversationAnalyzer: overall score and grade *)

(** Nearest integer, ties to the even one. *)
Definition round_half_even (q : Q) : Z :=
  let f := Qfloor q in
  match (q - inject_Z f ?= 1 # 2)%Q with
  | Lt => f
  | Gt => (f + 1)%Z
  | Eq => if Z.even f then f else (f + 1)%Z
  end.

(** [round(x, ndigits)] of an exact rational; [Binary64.round2] is the
    one of a binary64 value. *)
Definition py_round (x : Q) (ndigits : nat) : Q :=
  let scale := inject_Z (10 ^ Z.of_nat ndigits) in
  (inject_Z (round_half_even (x * scale)) / scale)%Q.

(** The loop of [_calculate_overall_score]; [None] is the [KeyError] of
    [PRINCIPLES[principle_key]].  The sum is the exact one here and the
    binary64 one in [Float64.weighted_total]. *)
Fixpoint weighted_total (principle_scores : list (string * PrincipleScore))
    (total : Q) : option Q :=
  match principle_scores with
  | [] => Some total
  | (principle_key, score_data) :: rest =>
      match lookup principle_key PRINCIPLES with
      | Some principle =>
          weighted_total rest (total + score score_data * weight principle)%Q
      | None => None
      end
  end.

Definition _calculate_overall_score
    (principle_scores : list (string * PrincipleScore)) : option Q :=
  match weighted_total principle_scores 0 with
  | Some total => Some (py_round total 2)
  | None => None
  end.

Definition _score_to_grade (score : Q) : string :=
  if Qle_bool 0.90 score then "A"
  else if Qle_bool 0.80 score then "B"
  else if Qle_bool 0.70 score then "C"
  else if Qle_bool 0.60 score then "D"
  else "F".

(** *** ConversationAnalyzer: phases *)

(** An element of [missing_phases]: the list holds phase names on one
    path and the phase dicts of [IDEAL_SESSION] on the other. *)
Inductive PhaseEntry :=
| PhaseName (n : string)
| PhaseDict (p : Phase).

Record PhaseAnalysis := mkPhaseAnalysis {
  follows_structure : bool;
  detected_phases : list string;
  missing_phases : list PhaseEntry;
  phase_count : option nat }.

Definition _analyze_phases (turns : list Turn) : PhaseAnalysis :=
  let caregiver_turns := caregiver_turns_of turns in
  match caregiver_turns with
  | [] =>
      mkPhaseAnalysis false [] (map PhaseDict (phases IDEAL_SESSION)) None
  | first :: _ =>
      let detected_phases := [] in
      let first_text := text_lower first in
      let detected_phases :=
        if any_in ["good morning"; "good afternoon"; "hello"; "time for"] first_text
        then (detected_phases ++ ["Arrival"])%list else detected_phases in
      let detected_phases :=
        if existsb (fun turn => any_in ["today"; "at home"; "okay"; "calm"]
                                  (text_lower turn)) (firstn 3 caregiver_turns)
        then (detected_phases ++ ["Gentle Orientation"])%list else detected_phases in
      let detected_phases :=
        if existsb (fun turn => contains "you" (text_lower turn)
                                && any_in ["like"; "enjoy"; "loved"; "always"]
                                     (text_lower turn)) caregiver_turns
        then (detected_phases ++ ["Familiar Thread"])%list else detected_phases in
      let detected_phases :=
        if existsb (fun turn => any_in ["sound"; "seem"; "feel"; "care"]
                                  (text_lower turn)) caregiver_turns
        then (detected_phases ++ ["Emotional Reflection"])%list else detected_phases in
      let last_text := text_lower (last caregiver_turns first) in
      let detected_phases :=
        if any_in ["thank you"; "tomorrow"; "next time"; "see you"] last_text
        then (detected_phases ++ ["Consistent Closing"])%list else detected_phases in
      let all_phase_names := map name (phases IDEAL_SESSION) in
      let missing_phases :=
        filter (fun p => negb (existsb (String.eqb p) detected_phases))
          all_phase_names in
      mkPhaseAnalysis (4 <=? List.length detected_phases) detected_phases
        (map PhaseName missing_phases) (Some (List.length detected_phases))
  end.

(** *** ConversationAnalyzer.analyze_conversation *)

Record Report := mkReport {
  overall_score : Q;
  grade : string;
  principle_scores : list (string * PrincipleScore);
  violations : list Violation;
  strengths : list string;
  recommendations : list Recommendation;
  phase_analysis : PhaseAnalysis;
  turn_count : nat;
  conversation_length : nat;
  dementia_stage : string }.

(** The result is [None] where the source would raise. *)
Definition analyze_conversation
    (conversation_text caregiver_name patient_name dementia_stage : string)
    : option Report :=
  let turns := _parse_conversation conversation_text caregiver_name patient_name in
  let principle_scores :=
    map (fun kv => (fst kv, _score_principle turns (fst kv) dementia_stage))
      PRINCIPLES in
  let violations := _detect_violations turns dementia_stage in
  let strengths := _identify_strengths turns dementia_stage in
  let recommendations :=
    _generate_recommendations turns principle_scores violations dementia_stage in
  match _calculate_overall_score principle_scores with
  | None => None
  | Some overall_score =>
      let phase_analysis := _analyze_phases turns in
      Some (mkReport overall_score (_score_to_grade overall_score)
              principle_scores violations strengths recommendations
              phase_analysis (List.length turns) (length conversation_text)
              dementia_stage)
  end.

End Training.

(** ** Binary64 arithmetic of the scores *)

Module Binary64.

(** The rational a finite float stands for. *)
Definition exact (x : float) : Q :=
  match Prim2SF x with
  | S754_finite s m e =>
      let v := if s then Zneg m else Zpos m in
      if (0 <=? e)%Z then inject_Z (v * 2 ^ e)
      else (inject_Z v / inject_Z (2 ^ (- e)))%Q
  | _ => 0%Q
  end.

(** [min(a, b)] and [max(a, b)] of Python: the first argument unless the
    second is strictly smaller (larger). *)
Definition py_min (a b : float) : float := if PrimFloat.ltb b a then b else a.
Definition py_max (a b : float) : float := if PrimFloat.ltb a b then b else a.

(** [min(1.0, max(0.0, score))] *)
Definition clamp (score : float) : float := py_min 1.0 (py_max 0.0 score)%float.

(** [round(x, 2)] on a float between 0 and 1: the decimal nearest to the
    exact value, then the float nearest to that decimal. *)
Definition round2 (x : float) : float :=
  let k := Training.round_half_even (exact x * 100) in
  (PrimFloat.of_uint63 (Uint63.of_Z k) / 100)%float.

(** The scores and the total of a transcript without caregiver turns, as
    the source computes them. *)
Definition emotion_without_caregiver : float := clamp (0.7 - 0.15 + 0.1)%float.

Definition presence_without_caregiver : float := clamp (0.8 + 0.1)%float.

Definition total_without_caregiver : float :=
  (0 + 0 * 0.25 + emotion_without_caregiver * 0.30
   + presence_without_caregiver * 0.25 + 0 * 0.20)%float.

End Binary64.

(** ** Vocabulary of the properties *)

Module Spec.
Import PyStr Training.

(** The score a list of principle scores holds for a key; 0 when the key
    is missing. *)
Definition score_of (key : string) (scores : list (string * PrincipleScore)) : Q :=
  match lookup key scores with
  | Some s => score s
  | None => 0
  end.

(** The weighted sum of the four principle scores. *)
Definition weighted_sum (scores : list (string * PrincipleScore)) : Q :=
  (score_of "ritual_over_stimulation" scores * 0.25
   + score_of "emotion_over_accuracy" scores * 0.30
   + score_of "presence_over_performance" scores * 0.25
   + score_of "short_steady_repeatable" scores * 0.20)%Q.

(** [x] is [y] rounded to two decimals: a whole number of hundredths at
    distance at most half a hundredth. *)
Definition rounded_to_hundredths (x y : Q) : Prop :=
  (exists k : Z, x == inject_Z k / 100)%Q /\ (y - (1 # 200) <= x <= y + (1 # 200))%Q.

(** Each sub-scorer returns either the constant 0 or a clamped sum. *)
Definition clamped (s : PrincipleScore) : Prop :=
  score s = 0%Q \/ exists x, score s = clamp x.

(** *** Lines and turns *)

Definition nonempty (s : string) : bool := negb (is_empty s).

(** The lines of a transcript that are not blank, stripped, in order. *)
Definition nonblank_lines (transcript : string) : list string :=
  filter nonempty (map strip (split_on nl (strip transcript))).

(** [p] is a prefix of [s] up to case. *)
Definition ci_prefix (p s : string) : Prop :=
  exists rest, lower s = lower p ++ rest.

(** The speaker a generic label stands for. *)
Definition label_speaker (label : string) : string :=
  if contains "caregiver" label || contains "family" label then "caregiver"
  else if contains "patient" label || contains "elder" label then "patient"
  else "unknown".

(** The turn a line stands for: (a) the line starts with the caregiver's
    or the patient's name and a colon, up to case; (b) otherwise the line
    holds a colon and the label before the first one decides; (c) otherwise
    the whole line is text of an unknown speaker. *)
Inductive turn_of_line (cg pt line : string) (t : Turn) : Prop :=
| caregiver_name_prefix :
    ci_prefix (cg ++ ":") line ->
    speaker t = "caregiver" ->
    text t = strip (drop (length (cg ++ ":")) line) ->
    turn_of_line cg pt line t
| patient_name_prefix :
    ~ ci_prefix (cg ++ ":") line ->
    ci_prefix (pt ++ ":") line ->
    speaker t = "patient" ->
    text t = strip (drop (length (pt ++ ":")) line) ->
    turn_of_line cg pt line t
| generic_label (label rest : string) :
    ~ ci_prefix (cg ++ ":") line ->
    ~ ci_prefix (pt ++ ":") line ->
    line = label ++ ":" ++ rest ->
    contains ":" label = false ->
    speaker t = label_speaker (lower (strip label)) ->
    text t = strip rest ->
    turn_of_line cg pt line t
| whole_line :
    contains ":" line = false ->
    speaker t = "unknown" ->
    text t = line ->
    turn_of_line cg pt line t.

(** *** Sample texts *)

Definition fishing : string := "Do you remember when we went fishing?".

Definition ideal_arrival : string :=
  "Caregiver: Good morning, Mom. It's time for our visit.".

(** *** Words *)

(** The occurrences of [w] in [s] that stand between two word
    boundaries. *)
Fixpoint count_word_from (w : string) (prev : option ascii) (s : string) : nat :=
  (if boundary prev (head s) && startswith w s
      && boundary (last_char prev w) (head (drop (length w) s))
   then 1 else 0)
  + match s with
    | EmptyString => 0
    | String c s' => count_word_from w (Some c) s'
    end.

Definition count_word (w s : string) : nat := count_word_from w None s.

(** *** Recommendations *)

Definition has_high (violations : list Violation) : bool :=
  existsb (fun v => String.eqb (severity v) "high") violations.

Definition count_category (c : string) (recs : list Recommendation) : nat :=
  List.length (filter (fun r => String.eqb (category r) c) recs).

Definition known_stage (stage : string) : bool :=
  String.eqb stage "early" || String.eqb stage "moderate" || String.eqb stage "late".

Definition canned (r : Recommendation) : Prop :=
  In r (map snd recommendations_map).

(** What the stage appends. *)
Definition stage_recommendation (stage : string) : list Recommendation :=
  if String.eqb stage "early" then [early_stage]
  else if String.eqb stage "moderate" then [moderate_stage]
  else if String.eqb stage "late" then [late_stage]
  else [].

(** *** Phases *)

Definition canonical_phases : list string :=
  ["Arrival"; "Gentle Orientation"; "Familiar Thread"; "Emotional Reflection";
   "Gentle Presence"; "Consistent Closing"].

(** [l] is [m] with some elements left out. *)
Fixpoint sublist (l m : list string) : bool :=
  match l, m with
  | [], _ => true
  | _ :: _, [] => false
  | a :: l', b :: m' => if String.eqb a b then sublist l' m' else sublist l m'
  end.

Definition complement (detected : list string) : list string :=
  filter (fun p => negb (existsb (String.eqb p) detected)) canonical_phases.

End Spec.

(** ** Further vocabulary *)

Module Notions.
Import PyStr Training Spec.

(** *** Violations *)

(** The condition of each of the four checks of the violation detector. *)
Definition is_memory_testing (t : Turn) : bool :=
  any_in ["do you remember"; "try to remember"; "don't you remember"] (text_lower t).

Definition is_correction (t : Turn) : bool :=
  any_in ["no, actually"; "that's not right"; "that's wrong"] (text_lower t).

Definition has_two_or (t : Turn) : bool := 2 <=? count "or" (text_lower t).

Definition has_three_questions (t : Turn) : bool := 3 <=? count "?" (text_lower t).

Definition count_type (ty : string) (vs : list Violation) : nat :=
  List.length (filter (fun v => String.eqb (type v) ty) vs).

(** *** Scores *)

Definition validation_count (cts : list Turn) : nat :=
  count_turns (fun turn => any_in validation_phrases (text_lower turn)) cts.

Definition correction_count (cts : list Turn) : nat :=
  count_turns (fun turn => any_in correction_phrases (text_lower turn)) cts.

Definition has_greeting (t : Turn) : bool :=
  any_in ["good morning"; "good afternoon"; "hello"; "hi"] (text_lower t).

Definition has_closing (t : Turn) : bool :=
  any_in ["thank you"; "see you"; "tomorrow"; "next time"] (text_lower t).

(** The place of a grade on the scale F < D < C < B < A. *)
Definition grade_rank (g : string) : nat :=
  if String.eqb g "A" then 4
  else if String.eqb g "B" then 3
  else if String.eqb g "C" then 2
  else if String.eqb g "D" then 1
  else 0.

(** *** Strengths *)

Definition strength_messages : list string :=
  ["Used emotional validation"; "Gave permission to go slow";
   "Avoided testing memory"; "Kept statements short and clear";
   "Emphasized presence and togetherness"].

Definition asks_to_remember (t : Turn) : bool :=
  contains "remember" (text_lower t) && contains "?" (text t).

(** *** Lines *)

(** Every character is white space. *)
Fixpoint all_space (s : string) : bool :=
  match s with
  | EmptyString => true
  | String c s' => is_space c && all_space s'
  end.

(** The non-blank lines without the strip of the whole text. *)
Definition raw_nonblank_lines (transcript : string) : list string :=
  filter nonempty (map strip (split_on nl transcript)).

(** *** Tiers *)

Definition tier_rank (t : option Safety.Tier) : nat :=
  match t with
  | Some Safety.critical => 3
  | Some Safety.elevated => 2
  | Some Safety.monitor => 1
  | _ => 0
  end.

End Notions.

(** ** services/caregiver_training.py: CaregiverTrainingService *)

Module Service.
Import PyStr Training.

(** models.py: [DementiaStage] and the columns of [User] and [Patient]
    the service reads; a nullable column is an [option]. *)
Inductive DementiaStage := MILD | MODERATE | SEVERE.

Definition stage_value (s : DementiaStage) : string :=
  match s with
  | MILD => "mild"
  | MODERATE => "moderate"
  | SEVERE => "severe"
  end.

Record User := mkUser {
  user_id : Z;
  full_name : option string }.

Record Patient := mkPatient {
  patient_id : Z;
  user : option User;
  dementia_stage : option DementiaStage }.

Record Db := mkDb {
  users : list User;
  patients : list Patient }.

(** [db.query(T).filter(T.id == id).first()] *)
Definition first_patient (db : Db) (id : Z) : option Patient :=
  find (fun p => Z.eqb (patient_id p) id) (patients db).

Definition first_user (db : Db) (id : Z) : option User :=
  find (fun u => Z.eqb (user_id u) id) (users db).

Inductive Error :=
| ValueError (message : string)
| AttributeError
| IndexError
| KeyError.

(** [name.split()[0]] on a nullable column. *)
Definition first_word (name : option string) : Error + string :=
  match name with
  | None => inl AttributeError
  | Some n =>
      match split_ws n with
      | w :: _ => inr w
      | [] => inl IndexError
      end
  end.

(** The analysis with the three entries the service adds. *)
Record TrainingAnalysis := mkTrainingAnalysis {
  analysis : Report;
  patient_name : option string;
  caregiver_name : option string;
  analyzed_at : string }.

(** [analyze_training_session]; [now] is the text of
    [datetime.utcnow().isoformat()]. *)
Definition analyze_training_session (db : Db) (now : string)
    (conversation_text : string) (caregiver_id patient_id : Z)
    : Error + TrainingAnalysis :=
  match first_patient db patient_id with
  | None => inl (ValueError "Patient not found")
  | Some patient =>
      match first_user db caregiver_id with
      | None => inl (ValueError "Caregiver not found")
      | Some caregiver =>
          let dementia_stage :=
            match dementia_stage patient with
            | Some stage => stage_value stage
            | None => "moderate"
            end in
          match first_word (full_name caregiver) with
          | inl e => inl e
          | inr caregiver_first =>
              match user patient with
              | None => inl AttributeError
              | Some patient_user =>
                  match first_word (full_name patient_user) with
                  | inl e => inl e
                  | inr patient_first =>
                      match analyze_conversation conversation_text
                              caregiver_first patient_first dementia_stage with
                      | None => inl KeyError
                      | Some analysis =>
                          inr (mkTrainingAnalysis analysis
                                 (full_name patient_user) (full_name caregiver) now)
                      end
                  end
              end
          end
      end
  end.

(** [get_ideal_script]: the stage is accepted and not read. *)
Definition get_ideal_script (dementia_stage : string) : IdealSession :=
  IDEAL_SESSION.

End Service.

(** ** routes/training_routes.py *)

Module Routes.
Import PyStr Training.

Definition valid_stages : list string := ["early"; "moderate"; "late"].

(** [GET /ideal-script]: the [inl] is the [HTTPException] with its status
    code. *)
Definition get_ideal_script (dementia_stage : string) : nat + IdealSession :=
  if negb (existsb (String.eqb dementia_stage) valid_stages) then inl 400
  else inr (Service.get_ideal_script dementia_stage).

End Routes.

(** ** Regular expressions of the safety monitor *)

Module Regex.
Import PyStr.

(** The constructs the patterns of [_detect_confusion_patterns] use:
    literal characters, [\s], concatenation, [|], [?] and [+]; [Nul]
    matches nothing and [Eps] the empty text. *)
Inductive regex :=
| Nul
| Eps
| Chr (c : ascii)
| Space
| Cat (r1 r2 : regex)
| Alt (r1 r2 : regex)
| Opt (r : regex)
| Plus (r : regex).

Fixpoint lit (s : string) : regex :=
  match s with
  | EmptyString => Eps
  | String c s' => Cat (Chr c) (lit s')
  end.

Fixpoint nullable (r : regex) : bool :=
  match r with
  | Nul => false
  | Eps => true
  | Chr _ => false
  | Space => false
  | Cat a b => nullable a && nullable b
  | Alt a b => nullable a || nullable b
  | Opt _ => true
  | Plus a => nullable a
  end.

(** What is left of [r] after the character [c]. *)
Fixpoint deriv (c : ascii) (r : regex) : regex :=
  match r with
  | Nul => Nul
  | Eps => Nul
  | Chr d => if Ascii.eqb c d then Eps else Nul
  | Space => if is_space c then Eps else Nul
  | Cat a b =>
      if nullable a then Alt (Cat (deriv c a) b) (deriv c b)
      else Cat (deriv c a) b
  | Alt a b => Alt (deriv c a) (deriv c b)
  | Opt a => deriv c a
  | Plus a => Cat (deriv c a) (Opt (Plus a))
  end.

(** [re.match(r, s)]: some prefix of [s] matches. *)
Fixpoint match_prefix (r : regex) (s : string) : bool :=
  nullable r
  || match s with
     | EmptyString => false
     | String c s' => match_prefix (deriv c r) s'
     end.

(** [re.search(r, s)]: some part of [s] matches. *)
Fixpoint search (r : regex) (s : string) : bool :=
  match_prefix r s
  || match s with
     | EmptyString => false
     | String _ s' => search r s'
     end.

(** The texts a pattern matches. *)
Inductive matches : regex -> string -> Prop :=
| matches_eps : matches Eps ""
| matches_chr (c : ascii) : matches (Chr c) (String c "")
| matches_space (c : ascii) : is_space c = true -> matches Space (String c "")
| matches_cat (a b : regex) (s t : string) :
    matches a s -> matches b t -> matches (Cat a b) (s ++ t)
| matches_alt_l (a b : regex) (s : string) : matches a s -> matches (Alt a b) s
| matches_alt_r (a b : regex) (s : string) : matches b s -> matches (Alt a b) s
| matches_opt_none (a : regex) : matches (Opt a) ""
| matches_opt_some (a : regex) (s : string) : matches a s -> matches (Opt a) s
| matches_plus_one (a : regex) (s : string) : matches a s -> matches (Plus a) s
| matches_plus_more (a : regex) (s t : string) :
    matches a s -> matches (Plus a) t -> matches (Plus a) (s ++ t).

End Regex.

(** ** config.py and services/safety_monitor.py: detection *)

Module Monitor.
Import PyStr Regex.

(** The settings the monitor reads, with the JSON text of the two keyword
    settings decoded. *)
Record Settings := mkSettings {
  crisis_keywords_list : list string;
  distress_keywords_list : list string;
  MAX_INACTIVITY_HOURS : Z }.

Definition default_settings : Settings :=
  mkSettings
    ["suicide"; "kill myself"; "end it all"; "want to die"; "hurt myself"]
    ["fell"; "can't breathe"; "lost"; "pain"; "help me"; "scared"]
    12.

(** The loop [for keyword in keywords] of both detectors. *)
Fixpoint collect_keywords (keywords : list string) (message_lower : string)
    (found_keywords : list string) : list string :=
  match keywords with
  | [] => found_keywords
  | keyword :: rest =>
      if contains (lower keyword) message_lower
      then collect_keywords rest message_lower (found_keywords ++ [keyword])%list
      else collect_keywords rest message_lower found_keywords
  end.

Definition _detect_crisis (settings : Settings) (message : string)
    : bool * list string :=
  let message_lower := lower message in
  let found_keywords :=
    collect_keywords (crisis_keywords_list settings) message_lower [] in
  (0 <? List.length found_keywords, found_keywords).

Definition _detect_distress (settings : Settings) (message : string)
    : bool * list string :=
  let message_lower := lower message in
  let found_keywords :=
    collect_keywords (distress_keywords_list settings) message_lower [] in
  (0 <? List.length found_keywords, found_keywords).

Definition spaces : regex := Plus Space.

(** [(?:a|b|c)] *)
Definition one_of (words : list string) : regex :=
  fold_right (fun w r => Alt (lit w) r) Nul words.

Definition confusion_patterns : list regex :=
  [ (* people\s+in\s+my\s+house *)
    Cat (lit "people") (Cat spaces (Cat (lit "in") (Cat spaces
      (Cat (lit "my") (Cat spaces (lit "house"))))));
    (* stealing\s+(?:my|from\s+me) *)
    Cat (lit "stealing") (Cat spaces
      (Alt (lit "my") (Cat (lit "from") (Cat spaces (lit "me")))));
    (* (?:mother|father|spouse)\s+(?:is\s+)?(?:alive|here|waiting) *)
    Cat (one_of ["mother"; "father"; "spouse"]) (Cat spaces
      (Cat (Opt (Cat (lit "is") spaces)) (one_of ["alive"; "here"; "waiting"])));
    (* need\s+to\s+(?:go\s+)?(?:work|job|office) *)
    Cat (lit "need") (Cat spaces (Cat (lit "to") (Cat spaces
      (Cat (Opt (Cat (lit "go") spaces)) (one_of ["work"; "job"; "office"])))));
    (* where\s+(?:am\s+i|is\s+this) *)
    Cat (lit "where") (Cat spaces
      (Alt (Cat (lit "am") (Cat spaces (lit "i")))
           (Cat (lit "is") (Cat spaces (lit "this")))));
    (* who\s+are\s+you *)
    Cat (lit "who") (Cat spaces (Cat (lit "are") (Cat spaces (lit "you")))) ].

Definition _detect_confusion_patterns (message : string) : bool :=
  let message_lower := lower message in
  existsb (fun pattern => search pattern message_lower) confusion_patterns.

End Monitor.

(** ** services/safety_monitor.py: alerts and notifications *)

Module Alerts.
Import PyStr Monitor.

(** A [datetime], in microseconds. *)
Definition Time := Z.

Inductive AlertSeverity := INFO | WARNING | CRITICAL.

(** [alert.severity.value.upper()] *)
Definition severity_upper (s : AlertSeverity) : string :=
  match s with
  | INFO => "INFO"
  | WARNING => "WARNING"
  | CRITICAL => "CRITICAL"
  end.

(** A record of [notifications_sent]. *)
Record Notification := mkNotification {
  n_type : string;
  recipient : string;
  timestamp : string }.

(** The columns of models.py the monitor reads or writes; a nullable
    column is an [option]. *)
Record SafetyAlert := mkAlert {
  patient_id : Z;
  alert_type : string;
  severity : AlertSeverity;
  title : string;
  description : string;
  conversation_id : option Z;
  trigger_text : option string;
  resolved_at : option Time;
  notifications_sent : option (list Notification);
  created_at : Time }.

Record User := mkUser {
  user_id : Z;
  email : string;
  full_name : option string;
  phone_number : option string }.

Record Relationship := mkRelationship {
  caregiver_id : Z;
  r_patient_id : Z;
  emergency_contact : bool }.

Record Conversation := mkConversation {
  c_patient_id : Z;
  start_time : Time }.

Record Db := mkDb {
  users : list User;
  relationships : list Relationship;
  conversations : list Conversation;
  safety_alerts : list SafetyAlert }.

(** What lies outside the program: the two senders of
    [NotificationService], which answer whether the message went out, and
    the two renderings of a [datetime]. *)
Record World := mkWorld {
  send_sms : string -> string -> bool;
  send_email : string -> string -> string -> bool;
  isoformat : Time -> string;
  strftime : Time -> string }.

(** [str(x)] inside an f-string, for a nullable text. *)
Definition str_or_none (x : option string) : string :=
  match x with
  | Some s => s
  | None => "None"
  end.

(** [str(n)] for an [int]. *)
Definition str_of_int (n : Z) : string := NilZero.string_of_int (Z.to_int n).

(** The truth value of a nullable text. *)
Definition truthy (x : option string) : bool :=
  match x with
  | Some s => negb (is_empty s)
  | None => false
  end.

Definition first_user (db : Db) (id : Z) : option User :=
  find (fun u => Z.eqb (user_id u) id) (users db).

Definition relationships_of (db : Db) (pid : Z) : list Relationship :=
  filter (fun rel => Z.eqb (r_patient_id rel) pid) (relationships db).

Definition _format_alert_email (world : World) (alert : SafetyAlert)
    (caregiver_name : option string) : string :=
  unlines
    ["Dear " ++ str_or_none caregiver_name ++ ",";
     "";
     "This is an urgent alert from the Memory Care Companion system.";
     "";
     "ALERT: " ++ title alert;
     "SEVERITY: " ++ severity_upper (severity alert);
     "TIME: " ++ strftime world (created_at alert);
     "";
     "DESCRIPTION:";
     description alert;
     "";
     "WHAT WAS SAID:";
     dq ++ str_or_none (trigger_text alert) ++ dq;
     "";
     "RECOMMENDED ACTION:";
     "Please check on the patient immediately. If this indicates a medical emergency, call 911.";
     "";
     "You can view more details and mark this alert as resolved in the caregiver dashboard.";
     "";
     "---";
     "Memory Care Companion System";
     "This is an automated alert. Please do not reply to this email."].

(** The loop of [_send_emergency_notifications] over the relationships of
    the patient; [now] is the clock. *)
Fixpoint emergency_loop (world : World) (now : Time) (db : Db)
    (alert : SafetyAlert) (rels : list Relationship)
    (notifications_sent : list Notification) : list Notification :=
  match rels with
  | [] => notifications_sent
  | rel :: rest =>
      match first_user db (caregiver_id rel) with
      | None => emergency_loop world now db alert rest notifications_sent
      | Some caregiver =>
          let notifications_sent :=
            if emergency_contact rel && truthy (phone_number caregiver) then
              let sms_sent :=
                send_sms world (str_or_none (phone_number caregiver))
                  ("URGENT: " ++ title alert ++ " - "
                   ++ take 100 (description alert)
                   ++ ". Please check on patient immediately.") in
              if sms_sent
              then (notifications_sent
                    ++ [mkNotification "sms" (email caregiver) (isoformat world now)])%list
              else notifications_sent
            else notifications_sent in
          let email_sent :=
            send_email world (email caregiver)
              ("URGENT ALERT: " ++ title alert)
              (_format_alert_email world alert (full_name caregiver)) in
          let notifications_sent :=
            if email_sent
            then (notifications_sent
                  ++ [mkNotification "email" (email caregiver) (isoformat world now)])%list
            else notifications_sent in
          emergency_loop world now db alert rest notifications_sent
      end
  end.

Definition with_notifications (alert : SafetyAlert) (sent : list Notification)
    : SafetyAlert :=
  mkAlert (patient_id alert) (alert_type alert) (severity alert) (title alert)
    (description alert) (conversation_id alert) (trigger_text alert)
    (resolved_at alert) (Some sent) (created_at alert).

(** [_send_emergency_notifications]: the alert with its
    [notifications_sent] set. *)
Definition _send_emergency_notifications (world : World) (now : Time) (db : Db)
    (pid : Z) (alert : SafetyAlert) : SafetyAlert :=
  with_notifications alert
    (emergency_loop world now db alert (relationships_of db pid) []).

(** [db.add(alert); db.commit()] with the alert as it stands at the last
    commit of the call. *)
Definition db_add (db : Db) (alert : SafetyAlert) : Db :=
  mkDb (users db) (relationships db) (conversations db)
    (safety_alerts db ++ [alert])%list.

(** The row the constructor and the defaults of the table give;
    [created_at] is the clock at the insert. *)
Definition _create_crisis_alert (world : World) (now : Time) (db : Db)
    (pid cid : Z) (trigger : string) (keywords : list string) : SafetyAlert * Db :=
  let alert :=
    mkAlert pid "crisis" CRITICAL "Crisis Language Detected"
      ("Patient used concerning language that may indicate suicide risk or self-harm. Keywords: "
       ++ String.concat ", " keywords)
      (Some cid) (Some (take 500 trigger)) None None now in
  let alert := _send_emergency_notifications world now db pid alert in
  (alert, db_add db alert).

Definition _create_distress_alert (world : World) (now : Time) (db : Db)
    (pid cid : Z) (trigger : string) (keywords : list string) : SafetyAlert * Db :=
  let alert :=
    mkAlert pid "distress" CRITICAL "Distress Detected"
      ("Patient reported distress or potential injury. Keywords: "
       ++ String.concat ", " keywords)
      (Some cid) (Some (take 500 trigger)) None None now in
  let alert := _send_emergency_notifications world now db pid alert in
  (alert, db_add db alert).

(** [analyze_message]: the pair it returns and the database after it. *)
Definition analyze_message (world : World) (now : Time) (settings : Settings)
    (db : Db) (pid : Z) (message : string) (cid : Z)
    : (bool * option SafetyAlert) * Db :=
  let '(crisis_detected, crisis_keywords) := _detect_crisis settings message in
  let '(distress_detected, distress_keywords) := _detect_distress settings message in
  let confusion_detected := _detect_confusion_patterns message in
  if crisis_detected then
    let '(alert, db) :=
      _create_crisis_alert world now db pid cid message crisis_keywords in
    ((true, Some alert), db)
  else if distress_detected then
    let '(alert, db) :=
      _create_distress_alert world now db pid cid message distress_keywords in
    ((true, Some alert), db)
  else ((false, None), db).

(** The [start_time] of the first row of
    [order_by(Conversation.start_time.desc())]. *)
Definition last_start (db : Db) (pid : Z) : option Time :=
  fold_left
    (fun best c =>
       if Z.eqb (c_patient_id c) pid then
         match best with
         | None => Some (start_time c)
         | Some t => Some (Z.max t (start_time c))
         end
       else best)
    (conversations db) None.

(** [(now - start).total_seconds() / 3600] *)
Definition hours_between (now start : Time) : Q :=
  (inject_Z (now - start) / 1000000 / 3600)%Q.

(** [int(hours)] *)
Definition int_hours (now start : Time) : Z := Z.quot (now - start) 3600000000.

Fixpoint inactivity_loop (world : World) (now : Time) (db : Db)
    (alert : SafetyAlert) (hours : Z) (rels : list Relationship)
    (notifications_sent : list Notification) : list Notification :=
  match rels with
  | [] => notifications_sent
  | rel :: rest =>
      match first_user db (caregiver_id rel) with
      | None => inactivity_loop world now db alert hours rest notifications_sent
      | Some caregiver =>
          let email_sent :=
            send_email world (email caregiver)
              ("Inactivity Alert: No interaction for " ++ str_of_int hours ++ " hours")
              (unlines
                 ["Dear " ++ str_or_none (full_name caregiver) ++ ",";
                  "";
                  "The Memory Care Companion system has not detected any interaction with the patient for "
                  ++ str_of_int hours ++ " hours.";
                  "";
                  "This may be normal if the patient is sleeping or away from the device. However, please check to ensure they are safe and the device is functioning properly.";
                  "";
                  "Last interaction: " ++ strftime world (created_at alert);
                  "";
                  "Best regards,";
                  "Memory Care Companion System"]) in
          let notifications_sent :=
            if email_sent
            then (notifications_sent
                  ++ [mkNotification "email" (email caregiver) (isoformat world now)])%list
            else notifications_sent in
          inactivity_loop world now db alert hours rest notifications_sent
      end
  end.

Definition is_open_inactivity (pid : Z) (start : Time) (a : SafetyAlert) : bool :=
  Z.eqb (patient_id a) pid
  && String.eqb (alert_type a) "inactivity"
  && match resolved_at a with None => true | Some _ => false end
  && Z.ltb start (created_at a).

(** [check_inactivity]: the alert it returns, if any, and the database
    after it. *)
Definition check_inactivity (world : World) (now : Time) (settings : Settings)
    (db : Db) (pid : Z) : option SafetyAlert * Db :=
  match last_start db pid with
  | None => (None, db)
  | Some start =>
      let hours_since_last := hours_between now start in
      if Training.Qltb (inject_Z (MAX_INACTIVITY_HOURS settings)) hours_since_last then
        match find (is_open_inactivity pid start) (safety_alerts db) with
        | Some existing_alert => (None, db)
        | None =>
            let alert :=
              mkAlert pid "inactivity" WARNING "Extended Inactivity"
                ("No interaction with system for " ++ str_of_int (int_hours now start)
                 ++ " hours (threshold: "
                 ++ str_of_int (MAX_INACTIVITY_HOURS settings) ++ " hours)")
                None None None None now in
            let alert :=
              with_notifications alert
                (inactivity_loop world now db alert (int_hours now start)
                   (relationships_of db pid) []) in
            (Some alert, db_add db alert)
        end
      else (None, db)
  end.

End Alerts.

(** ** Notions about the alerts *)

Module AlertNotions.
Import PyStr Alerts.

(** A record of an emergency notification that is accounted for: it goes
    to a caregiver who exists and is related to the patient, carries the
    clock, and is either a text message to an emergency contact with a
    phone number whose sending succeeded, or an email whose sending
    succeeded. *)
Definition emergency_record (world : World) (db : Db) (pid : Z) (now : Time)
    (n : Notification) : Prop :=
  exists rel caregiver,
    In rel (relationships db)
    /\ r_patient_id rel = pid
    /\ first_user db (caregiver_id rel) = Some caregiver
    /\ recipient n = email caregiver
    /\ timestamp n = isoformat world now
    /\ ((n_type n = "sms"
         /\ emergency_contact rel = true
         /\ truthy (phone_number caregiver) = true
         /\ exists text,
              send_sms world (str_or_none (phone_number caregiver)) text = true)
        \/ (n_type n = "email"
            /\ exists subject body,
                 send_email world (email caregiver) subject body = true)).

(** A record of an inactivity notification that is accounted for: an
    email to a caregiver who exists and is related to the patient. *)
Definition inactivity_record (world : World) (db : Db) (pid : Z) (now : Time)
    (n : Notification) : Prop :=
  exists rel caregiver,
    In rel (relationships db)
    /\ r_patient_id rel = pid
    /\ first_user db (caregiver_id rel) = Some caregiver
    /\ n = mkNotification "email" (email caregiver) (isoformat world now)
    /\ exists subject body,
         send_email world (email caregiver) subject body = true.

(** One hour, in microseconds. *)
Definition hour : Z := 3600000000.

(** The patient has a conversation on record. *)
Definition has_conversation (db : Db) (pid : Z) : Prop :=
  exists c, In c (conversations db) /\ c_patient_id c = pid.

(** Every conversation of the patient started more than [limit] hours
    before [now]. *)
Definition silent_for (db : Db) (pid : Z) (now : Time) (limit : Z) : Prop :=
  forall c, In c (conversations db) -> c_patient_id c = pid ->
    (limit * hour < now - start_time c)%Z.

(** An unresolved inactivity alert of the patient, made after every
    conversation of the patient. *)
Definition open_alert_since_last (db : Db) (pid : Z) (e : SafetyAlert) : Prop :=
  In e (safety_alerts db)
  /\ patient_id e = pid
  /\ alert_type e = "inactivity"
  /\ resolved_at e = None
  /\ forall c, In c (conversations db) -> c_patient_id c = pid ->
       (start_time c < created_at e)%Z.

End AlertNotions.

(** ** services/caregiver_training.py: the scores as the machine computes them *)

(** The sub-scorers, the recommendation test, the overall score and the
    grade once more, now on binary64 values with the operations of the
    source in the order of the source.  Everything that is not a number
    (turns, violations, strengths, phases, the canned recommendations) is
    shared with [Training]. *)
Module Float64.
Import PyStr Training Binary64.

(** [float(n)] for the count [n] of an [int * float] product or an
    [int / int] quotient.  A list of CPython holds fewer than [2^63]
    items, so a count is a 63-bit integer; the quotient of two counts is
    the correctly rounded one as long as both are below [2^53]. *)
Definition of_count (n : nat) : float :=
  PrimFloat.of_uint63 (Uint63.of_Z (Z.of_nat n)).

Record PrincipleScore := mkScore {
  score : float;
  evidence : list Evidence }.

Definition _score_ritual_consistency (caregiver_turns : list Turn) : PrincipleScore :=
  match caregiver_turns with
  | [] => mkScore 0 [NoCaregiverStatements]
  | first :: _ =>
      let score := 0.7%float in
      let first_turn := text_lower first in
      let '(score, evidence) :=
        if any_in ["good morning"; "good afternoon"; "hello"; "hi"] first_turn
        then ((score + 0.1)%float, [StartedWithGreeting])
        else ((score - 0.1)%float, [MissingGreeting]) in
      let structure_words := ["today"; "time for"; "visit"; "together"] in
      let '(score, evidence) :=
        if existsb (fun turn => any_in structure_words (text_lower turn))
             (firstn 3 caregiver_turns)
        then ((score + 0.1)%float, (evidence ++ [UsedStructureWords])%list)
        else (score, evidence) in
      let last_turn := text_lower (last caregiver_turns first) in
      let '(score, evidence) :=
        if any_in ["thank you"; "see you"; "tomorrow"; "next time"] last_turn
        then ((score + 0.1)%float, (evidence ++ [ProperClosing])%list)
        else ((score - 0.1)%float, (evidence ++ [MissingClosing])%list) in
      mkScore (clamp score) evidence
  end.

Definition _score_emotional_validation
    (caregiver_turns all_turns : list Turn) : PrincipleScore :=
  let score := 0.7%float in
  let validation_count :=
    count_turns (fun turn => any_in validation_phrases (text_lower turn))
      caregiver_turns in
  let '(score, evidence) :=
    if 0 <? validation_count
    then ((score + py_min 0.2 (of_count validation_count * 0.1))%float,
          [UsedValidation validation_count])
    else ((score - 0.15)%float, [NoValidation]) in
  let correction_count :=
    count_turns (fun turn => any_in correction_phrases (text_lower turn))
      caregiver_turns in
  let '(score, evidence) :=
    if 0 <? correction_count
    then ((score - py_min 0.3 (of_count correction_count * 0.15))%float,
          (evidence ++ [CorrectedOrTested correction_count])%list)
    else ((score + 0.1)%float, (evidence ++ [NoCorrection])%list) in
  mkScore (clamp score) evidence.

Definition _score_no_pressure (caregiver_turns : list Turn) : PrincipleScore :=
  let score := 0.8%float in
  let testing_count := count_turns is_testing caregiver_turns in
  let '(score, evidence) :=
    if 0 <? testing_count
    then ((score - py_min 0.4 (of_count testing_count * 0.15))%float,
          [AskedTesting testing_count])
    else ((score + 0.1)%float, [NoTesting]) in
  let invitation_count :=
    count_turns (fun turn => any_in invitation_phrases (text_lower turn))
      caregiver_turns in
  let '(score, evidence) :=
    if 0 <? invitation_count
    then ((score + py_min 0.15 (of_count invitation_count * 0.05))%float,
          (evidence ++ [GentleInvitations invitation_count])%list)
    else (score, evidence) in
  mkScore (clamp score) evidence.

Definition _score_brevity_structure (caregiver_turns : list Turn) : PrincipleScore :=
  match caregiver_turns with
  | [] => mkScore 0 []
  | _ :: _ =>
      let score := 0.7%float in
      let total_words := list_sum (map word_count caregiver_turns) in
      let avg_words :=
        (of_count total_words / of_count (List.length caregiver_turns))%float in
      let '(score, evidence) :=
        if PrimFloat.leb avg_words 12
        then ((score + 0.2)%float, [AverageIdeal (exact avg_words)])
        else if PrimFloat.leb avg_words 18
        then ((score + 0.1)%float, [AverageAcceptable (exact avg_words)])
        else ((score - 0.1)%float, [AverageTooLong (exact avg_words)]) in
      let long_statements := filter (fun t => 25 <? word_count t) caregiver_turns in
      let '(score, evidence) :=
        match long_statements with
        | _ :: _ =>
            ((score - py_min 0.2 (of_count (List.length long_statements) * 0.05))%float,
             (evidence ++ [LongStatements (List.length long_statements)])%list)
        | [] => ((score + 0.1)%float, (evidence ++ [AllSized])%list)
        end in
      mkScore (clamp score) evidence
  end.

Definition _score_principle (turns : list Turn) (principle stage : string)
    : PrincipleScore :=
  let caregiver_turns := caregiver_turns_of turns in
  if String.eqb principle "ritual_over_stimulation" then
    _score_ritual_consistency caregiver_turns
  else if String.eqb principle "emotion_over_accuracy" then
    _score_emotional_validation caregiver_turns turns
  else if String.eqb principle "presence_over_performance" then
    _score_no_pressure caregiver_turns
  else if String.eqb principle "short_steady_repeatable" then
    _score_brevity_structure caregiver_turns
  else mkScore 0.5 [].

(** [for principle, score_data in scores.items()] with
    [score_data["score"] < 0.6] on the binary64 score. *)
Fixpoint low_score_recommendations (scores : list (string * PrincipleScore))
    (stage : string) (recommendations : list Recommendation)
    : list Recommendation :=
  match scores with
  | [] => recommendations
  | (principle, score_data) :: rest =>
      let recommendations :=
        if PrimFloat.ltb (score score_data) 0.6 then
          match _get_principle_recommendation principle stage with
          | Some rec => (recommendations ++ [rec])%list
          | None => recommendations
          end
        else recommendations in
      low_score_recommendations rest stage recommendations
  end.

Definition _generate_recommendations (turns : list Turn)
    (scores : list (string * PrincipleScore)) (violations : list Violation)
    (stage : string) : list Recommendation :=
  let recommendations := low_score_recommendations scores stage [] in
  let recommendations :=
    if negb (is_nil violations) then
      let high_severity :=
        filter (fun v => String.eqb (severity v) "high") violations in
      if negb (is_nil high_severity)
      then stop_testing_memory :: recommendations
      else recommendations
    else recommendations in
  let recommendations :=
    if String.eqb stage "early" then (recommendations ++ [early_stage])%list
    else if String.eqb stage "moderate" then (recommendations ++ [moderate_stage])%list
    else if String.eqb stage "late" then (recommendations ++ [late_stage])%list
    else recommendations in
  let recommendations :=
    if is_nil recommendations
    then (recommendations ++ [structure_your_visit])%list
    else recommendations in
  recommendations.

(** [PRINCIPLES[key]["weight"]]: the literals of the source as binary64
    values, under the keys of [PRINCIPLES]. *)
Definition WEIGHTS : list (string * float) :=
  [("ritual_over_stimulation", 0.25%float);
   ("emotion_over_accuracy", 0.30%float);
   ("presence_over_performance", 0.25%float);
   ("short_steady_repeatable", 0.20%float)].

(** The loop of [_calculate_overall_score]: [total] starts at 0 and each
    product is added in the order of the scores; [None] is the
    [KeyError]. *)
Fixpoint weighted_total (principle_scores : list (string * PrincipleScore))
    (total : float) : option float :=
  match principle_scores with
  | [] => Some total
  | (principle_key, score_data) :: rest =>
      match lookup principle_key WEIGHTS with
      | Some weight => weighted_total rest (total + score score_data * weight)%float
      | None => None
      end
  end.

(** [round(total, 2)] is [round2]: the decimal with two places nearest
    to the exact value of the float, ties to even, then the float nearest
    to that decimal. *)
Definition _calculate_overall_score
    (principle_scores : list (string * PrincipleScore)) : option float :=
  match weighted_total principle_scores 0 with
  | Some total => Some (round2 total)
  | None => None
  end.

Definition _score_to_grade (score : float) : string :=
  if PrimFloat.leb 0.90 score then "A"
  else if PrimFloat.leb 0.80 score then "B"
  else if PrimFloat.leb 0.70 score then "C"
  else if PrimFloat.leb 0.60 score then "D"
  else "F".

Record Report := mkReport {
  overall_score : float;
  grade : string;
  principle_scores : list (string * PrincipleScore);
  violations : list Violation;
  strengths : list string;
  recommendations : list Recommendation;
  phase_analysis : PhaseAnalysis;
  turn_count : nat;
  conversation_length : nat;
  dementia_stage : string }.

(** The result is [None] where the source would raise. *)
Definition analyze_conversation
    (conversation_text caregiver_name patient_name dementia_stage : string)
    : option Report :=
  let turns := _parse_conversation conversation_text caregiver_name patient_name in
  let principle_scores :=
    map (fun kv => (fst kv, _score_principle turns (fst kv) dementia_stage))
      PRINCIPLES in
  let violations := _detect_violations turns dementia_stage in
  let strengths := _identify_strengths turns dementia_stage in
  let recommendations :=
    _generate_recommendations turns principle_scores violations dementia_stage in
  match _calculate_overall_score principle_scores with
  | None => None
  | Some overall_score =>
      let phase_analysis := _analyze_phases turns in
      Some (mkReport overall_score (_score_to_grade overall_score)
              principle_scores violations strengths recommendations
              phase_analysis (List.length turns) (length conversation_text)
              dementia_stage)
  end.

End Float64.

(** ** Vocabulary of the binary64 properties *)

Module Float64Notions.
Import PyStr Training Binary64 Spec.

(** The score a list of principle scores holds for a key; 0 when the key
    is missing. *)
Definition score_of (key : string) (scores : list (string * Float64.PrincipleScore))
    : float :=
  match lookup key scores with
  | Some s => Float64.score s
  | None => 0%float
  end.

(** The sum over the four principles of score times weight, added up
    from 0 in the order of the principles. *)
Definition weighted_sum (scores : list (string * Float64.PrincipleScore)) : float :=
  (0 + score_of "ritual_over_stimulation" scores * 0.25
   + score_of "emotion_over_accuracy" scores * 0.30
   + score_of "presence_over_performance" scores * 0.25
   + score_of "short_steady_repeatable" scores * 0.20)%float.

(** The float nearest to [k] hundredths. *)
Definition hundredths (k : Z) : float :=
  (PrimFloat.of_uint63 (Uint63.of_Z k) / 100)%float.

(** [x] is [total] rounded to two decimals: the float of a whole number
    of hundredths, between 0 and 100 of them, at most half a hundredth
    from the exact value of [total]. *)
Definition rounded_to_hundredths (x total : float) : Prop :=
  exists k : Z,
    (0 <= k <= 100)%Z
    /\ x = hundredths k
    /\ (inject_Z k - (1 # 2) <= exact total * 100 <= inject_Z k + (1 # 2))%Q.

(** The canned recommendation of a principle, if it has one. *)
Definition canned_for (principle : string) : list Recommendation :=
  match lookup principle recommendations_map with
  | Some rec => [rec]
  | None => []
  end.

(** The canned recommendations of the principles scoring below 0.6, in
    the order of the scores. *)
Definition below_06 (scores : list (string * Float64.PrincipleScore))
    : list Recommendation :=
  flat_map
    (fun kv =>
       if PrimFloat.ltb (Float64.score (snd kv)) 0.6 then canned_for (fst kv) else [])
    scores.

(** *** The values a sub-score can take *)

Definition small_counts : list Z := [0; 1; 2; 3; 4; 5; 6; 7]%Z.

(** [min(cap, n * c)]: the cap, or the product for a small count. *)
Definition capped (cap c : float) : list float :=
  cap :: map (fun k => py_min cap (PrimFloat.of_uint63 (Uint63.of_Z k) * c)%float)
           small_counts.

Definition plus (m : float) : float -> float := fun s => (s + m)%float.
Definition minus (m : float) : float -> float := fun s => (s - m)%float.
Definition same : float -> float := fun s => s.

(** The clamped results of a start value under one step of each list,
    in the order of the lists. *)
Definition paths (start : float) (steps : list (list (float -> float))) : list float :=
  map clamp
    (fold_left (fun values step => flat_map (fun v => map (fun f => f v) step) values)
       steps [start]).

Definition ritual_values : list float :=
  0%float :: paths 0.7 [[plus 0.1; minus 0.1]; [plus 0.1; same]; [plus 0.1; minus 0.1]].

Definition emotion_values : list float :=
  paths 0.7 [minus 0.15 :: map plus (capped 0.2 0.1);
             plus 0.1 :: map minus (capped 0.3 0.15)].

Definition presence_values : list float :=
  paths 0.8 [plus 0.1 :: map minus (capped 0.4 0.15);
             same :: map plus (capped 0.15 0.05)].

Definition brevity_values : list float :=
  0%float :: paths 0.7 [[plus 0.2; plus 0.1; minus 0.1];
                        plus 0.1 :: map minus (capped 0.2 0.05)].

(** A list without repeated values. *)
Definition dedup (l : list float) : list float :=
  fold_right
    (fun x acc => if existsb (PrimFloat.Leibniz.eqb x) acc then acc else x :: acc)
    [] l.

(** The test every combination of sub-scores passes: the total rounds to
    a number of hundredths between 0 and 100, and the rounded float lies
    between 0 and 1. *)
Definition total_in_range (ritual emotion presence brevity : float) : bool :=
  let total :=
    (0 + ritual * 0.25 + emotion * 0.30 + presence * 0.25 + brevity * 0.20)%float in
  let k := round_half_even (exact total * 100) in
  (0 <=? k)%Z && (k <=? 100)%Z
  && PrimFloat.leb 0 (round2 total) && PrimFloat.leb (round2 total) 1.

(** The grade is the documented one for the score: A from 0.90, B from
    0.80 and below 0.90, C from 0.70 and below 0.80, D from 0.60 and below
    0.70, F below 0.60. *)
Definition grade_as_documented (score : float) (grade : string) : bool :=
  Bool.eqb (String.eqb grade "A") (PrimFloat.leb 0.90 score)
  && Bool.eqb (String.eqb grade "B")
       (PrimFloat.leb 0.80 score && PrimFloat.ltb score 0.90)
  && Bool.eqb (String.eqb grade "C")
       (PrimFloat.leb 0.70 score && PrimFloat.ltb score 0.80)
  && Bool.eqb (String.eqb grade "D")
       (PrimFloat.leb 0.60 score && PrimFloat.ltb score 0.70)
  && Bool.eqb (String.eqb grade "F") (PrimFloat.ltb score 0.60).

End Float64Notions.

(** * Properties *)

Import PyStr Training Spec.

Ltac split_ifs :=
  repeat match goal with
         | |- context [if ?c then _ else _] => destruct c
         end.

(** ** Python string primitives: examples and lemmas *)

Example ex_count_overlap : PyStr.count "aa" "aaa" = 1.
Proof. reflexivity. Qed.

Example ex_count_empty : PyStr.count "" "abc" = 4.
Proof. reflexivity. Qed.

Example ex_split_ws : PyStr.split_ws "  ab  c d " = ["ab"; "c"; "d"].
Proof. reflexivity. Qed.

Example ex_split_on : PyStr.split_on ":"%char "a:b::c" = ["a"; "b"; ""; "c"].
Proof. reflexivity. Qed.

Example ex_strip : PyStr.strip "  a b  " = "a b".
Proof. reflexivity. Qed.

Example ex_search_word :
  PyStr.search_word "try to" "i try to" = true /\
  PyStr.search_word "try to" "i try tonight" = false /\
  PyStr.search_word "try to" "entry to" = false.
Proof. repeat split; reflexivity. Qed.

(** ** The safety classifier *)

Example ex_tiers :
  Safety.tier_of Safety.CRITICAL_REPORT = Some Safety.critical /\
  Safety.tier_of Safety.ELEVATED_REPORT = Some Safety.elevated /\
  Safety.tier_of Safety.MONITOR_REPORT = Some Safety.monitor /\
  Safety.tier_of Safety.CLEAR_REPORT = Some Safety.clear /\
  Safety.risk_of Safety.CRITICAL_REPORT = Some Safety.HIGH /\
  Safety.risk_of Safety.ELEVATED_REPORT = Some Safety.MODERATE /\
  Safety.risk_of Safety.MONITOR_REPORT = Some Safety.LOW_MODERATE /\
  Safety.risk_of Safety.CLEAR_REPORT = Some Safety.NONE.
Proof. repeat split; vm_compute; reflexivity. Qed.

Lemma run_cases (m ctx : string) :
  Safety._run m ctx = Safety.CRITICAL_REPORT \/
  Safety._run m ctx = Safety.ELEVATED_REPORT \/
  Safety._run m ctx = Safety.MONITOR_REPORT \/
  Safety._run m ctx = Safety.CLEAR_REPORT.
Proof.
  unfold Safety._run.
  destruct (any_in Safety.crisis_keywords (lower m)); [tauto|].
  destruct (any_in Safety.distress_keywords (lower m)); [tauto|].
  destruct (any_in Safety.agitation_keywords (lower m)); tauto.
Qed.

Lemma any_in_true_run_critical (m ctx : string) :
  any_in Safety.crisis_keywords (lower m) = true ->
  Safety._run m ctx = Safety.CRITICAL_REPORT.
Proof. intros H. unfold Safety._run. rewrite H. reflexivity. Qed.

(** C1: the tiers are tried in the order crisis, distress, agitation,
    clear and the first match decides.  A message whose lowercased text
    contains one of the crisis keywords kill, die, suicide, harm myself,
    hurt myself, end it all, want to die, better off dead gets the critical
    report (tier critical, risk HIGH) whatever distress or agitation
    keywords it also contains; distress comes before agitation in the same
    way; "I'm angry and want to die" is critical although "angry" is an
    agitation keyword. *)
Theorem C1_crisis_overrides (m ctx : string) :
  Safety.crisis_keywords
  = ["kill"; "die"; "suicide"; "harm myself"; "hurt myself";
     "end it all"; "want to die"; "better off dead"]
  /\ (forall kw, In kw Safety.crisis_keywords ->
                 contains kw (lower m) = true ->
                 Safety._run m ctx = Safety.CRITICAL_REPORT
                 /\ Safety.tier_of (Safety._run m ctx) = Some Safety.critical
                 /\ Safety.risk_of (Safety._run m ctx) = Some Safety.HIGH)
  /\ (any_in Safety.crisis_keywords (lower m) = false ->
      any_in Safety.distress_keywords (lower m) = true ->
      Safety.tier_of (Safety._run m ctx) = Some Safety.elevated)
  /\ (any_in Safety.crisis_keywords (lower m) = false ->
      any_in Safety.distress_keywords (lower m) = false ->
      any_in Safety.agitation_keywords (lower m) = true ->
      Safety.tier_of (Safety._run m ctx) = Some Safety.monitor)
  /\ (any_in Safety.agitation_keywords (lower "I'm angry and want to die") = true
      /\ Safety.tier_of (Safety._run "I'm angry and want to die" ctx)
         = Some Safety.critical).
Proof.
  split; [reflexivity|]. split.
  { intros kw Hin Hc.
    assert (E : Safety._run m ctx = Safety.CRITICAL_REPORT).
    { apply any_in_true_run_critical. unfold any_in.
      apply existsb_exists. exists kw. split; assumption. }
    rewrite E. repeat split; vm_compute; reflexivity. }
  split.
  { intros H1 H2. unfold Safety._run. rewrite H1, H2. vm_compute. reflexivity. }
  split.
  { intros H1 H2 H3. unfold Safety._run. rewrite H1, H2, H3.
    vm_compute. reflexivity. }
  split; vm_compute; reflexivity.
Qed.

Lemma C1_crisis_overrides_witness :
  any_in Safety.distress_keywords (lower "Help me, I want to die, go away") = true
  /\ any_in Safety.agitation_keywords (lower "Help me, I want to die, go away") = true
  /\ Safety._run "Help me, I want to die, go away" "" = Safety.CRITICAL_REPORT
  /\ Safety.tier_of (Safety._run "Help me, I want to die, go away" "")
     = Some Safety.critical
  /\ Safety.risk_of (Safety._run "Help me, I want to die, go away" "")
     = Some Safety.HIGH.
Proof.
  split; [vm_compute; reflexivity|]. split; [vm_compute; reflexivity|].
  apply (C1_crisis_overrides "Help me, I want to die, go away" "")
    with (kw := "want to die").
  - simpl. tauto.
  - vm_compute. reflexivity.
Defined.

(** C2: the classifier is a total function and every message gets one of
    the four tiers; a message that matches no crisis, distress or agitation
    keyword gets tier clear, risk NONE.  "I want to kill myself" is
    critical, HIGH, and its report names 988; "I'm scared, I can't breathe"
    is elevated; "I'm so angry, leave me alone" is monitor; "What a nice
    day" is clear. *)
Theorem C2_total_with_clear_fallthrough (m ctx : string) :
  (exists t r, Safety.tier_of (Safety._run m ctx) = Some t
               /\ Safety.risk_of (Safety._run m ctx) = Some r)
  /\ (any_in Safety.crisis_keywords (lower m) = false ->
      any_in Safety.distress_keywords (lower m) = false ->
      any_in Safety.agitation_keywords (lower m) = false ->
      Safety._run m ctx = Safety.CLEAR_REPORT
      /\ Safety.tier_of (Safety._run m ctx) = Some Safety.clear
      /\ Safety.risk_of (Safety._run m ctx) = Some Safety.NONE)
  /\ (Safety.tier_of (Safety._run "I want to kill myself" ctx) = Some Safety.critical
      /\ Safety.risk_of (Safety._run "I want to kill myself" ctx) = Some Safety.HIGH
      /\ contains "988" (Safety._run "I want to kill myself" ctx) = true)
  /\ Safety.tier_of (Safety._run "I'm scared, I can't breathe" ctx) = Some Safety.elevated
  /\ Safety.tier_of (Safety._run "I'm so angry, leave me alone" ctx) = Some Safety.monitor
  /\ Safety.tier_of (Safety._run "What a nice day" ctx) = Some Safety.clear.
Proof.
  split.
  { destruct (run_cases m ctx) as [E|[E|[E|E]]]; rewrite E;
      eexists; eexists; split; vm_compute; reflexivity. }
  split.
  { intros H1 H2 H3. unfold Safety._run. rewrite H1, H2, H3.
    repeat split; vm_compute; reflexivity. }
  repeat split; vm_compute; reflexivity.
Qed.

Lemma C2_total_with_clear_fallthrough_witness :
  Safety._run "What a nice day" "" = Safety.CLEAR_REPORT
  /\ Safety.tier_of (Safety._run "What a nice day" "") = Some Safety.clear
  /\ Safety.risk_of (Safety._run "What a nice day" "") = Some Safety.NONE.
Proof.
  apply (C2_total_with_clear_fallthrough "What a nice day" "");
    vm_compute; reflexivity.
Defined.

(** ** The turn parser *)

Lemma parse_lines_acc (cg pt : string) (lines : list string) (acc : list Turn) :
  parse_lines cg pt lines acc
  = (acc ++ map (parse_line cg pt) (filter nonempty (map strip lines)))%list.
Proof.
  revert acc. induction lines as [|line rest IH]; intros acc; cbn [parse_lines map filter].
  - rewrite app_nil_r. reflexivity.
  - unfold nonempty at 1. destruct (is_empty (strip line)); cbn [negb].
    + apply IH.
    + rewrite IH, <- app_assoc. reflexivity.
Qed.

Lemma parse_conversation_map (transcript cg pt : string) :
  _parse_conversation transcript cg pt
  = map (parse_line cg pt)
      (filter nonempty (map strip (split_on nl (strip transcript)))).
Proof. unfold _parse_conversation. apply parse_lines_acc. Qed.

Lemma parse_line_text_lower (cg pt line : string) :
  text_lower (parse_line cg pt line) = lower (text (parse_line cg pt line)).
Proof.
  unfold parse_line.
  destruct (startswith (lower cg ++ ":") (lower line)); [reflexivity|].
  destruct (startswith (lower pt ++ ":") (lower line)); [reflexivity|].
  destruct (split_first colon line) as [[part0 part1]|]; reflexivity.
Qed.

Lemma parsed_text_lower (transcript cg pt : string) (t : Turn) :
  In t (_parse_conversation transcript cg pt) -> text_lower t = lower (text t).
Proof.
  rewrite parse_conversation_map. intros H.
  apply in_map_iff in H. destruct H as (line & <- & _).
  apply parse_line_text_lower.
Qed.

Lemma in_caregiver_turns (turns : list Turn) (t : Turn) :
  In t turns -> speaker t = "caregiver" -> In t (caregiver_turns_of turns).
Proof.
  intros Hin Hs. unfold caregiver_turns_of. apply filter_In.
  split; [exact Hin|]. rewrite Hs. reflexivity.
Qed.

Lemma lower_app (a b : string) : lower (a ++ b) = lower a ++ lower b.
Proof.
  induction a as [|c a IH]; cbn [append lower]; [reflexivity|].
  rewrite IH. reflexivity.
Qed.

Lemma string_length_app (a b : string) :
  length (a ++ b) = length a + length b.
Proof.
  induction a as [|c a IH]; cbn [append length plus]; [reflexivity|].
  rewrite IH. reflexivity.
Qed.

Lemma startswith_iff (p s : string) :
  startswith p s = true <-> exists rest, s = p ++ rest.
Proof.
  revert s. induction p as [|a p IH]; intros s; cbn [startswith append].
  - split; [intros _; exists s; reflexivity | reflexivity].
  - destruct s as [|b s].
    + split; [discriminate | intros (rest & E); discriminate E].
    + rewrite andb_true_iff, Ascii.eqb_eq, IH. split.
      * intros (-> & rest & ->). exists rest. reflexivity.
      * intros (rest & E). injection E as -> ->. split; [reflexivity|].
        exists rest. reflexivity.
Qed.

Lemma name_prefix_iff (name line : string) :
  startswith (lower name ++ ":") (lower line) = true
  <-> ci_prefix (name ++ ":") line.
Proof.
  unfold ci_prefix. rewrite startswith_iff, lower_app. reflexivity.
Qed.

Lemma contains_char_cons (c d : ascii) (s : string) :
  contains (String c "") (String d s)
  = Ascii.eqb c d || contains (String c "") s.
Proof. cbn [contains startswith]. rewrite andb_true_r. reflexivity. Qed.

Lemma split_first_some (c : ascii) (s a b : string) :
  split_first c s = Some (a, b) ->
  s = a ++ String c b /\ contains (String c "") a = false.
Proof.
  revert a. induction s as [|d s IH]; intros a; cbn [split_first]; [discriminate|].
  destruct (Ascii.eqb d c) eqn:E.
  - apply Ascii.eqb_eq in E. subst d. intros [= <- <-]. split; reflexivity.
  - destruct (split_first c s) as [[a' b']|]; [|discriminate].
    intros [= <- <-]. destruct (IH a' eq_refl) as (-> & Hc).
    split; [reflexivity|].
    rewrite contains_char_cons, Ascii.eqb_sym, E. exact Hc.
Qed.

Lemma split_first_none (c : ascii) (s : string) :
  split_first c s = None -> contains (String c "") s = false.
Proof.
  induction s as [|d s IH]; cbn [split_first]; [reflexivity|].
  destruct (Ascii.eqb d c) eqn:E; [discriminate|].
  destruct (split_first c s) as [[a b]|]; [discriminate|].
  intros _. rewrite contains_char_cons, Ascii.eqb_sym, E. apply IH. reflexivity.
Qed.

(** The loop body does what (a), (b), (c) say. *)
Lemma parse_line_spec (cg pt line : string) :
  turn_of_line cg pt line (parse_line cg pt line).
Proof.
  unfold parse_line.
  destruct (startswith (lower cg ++ ":") (lower line)) eqn:Ec.
  { apply caregiver_name_prefix.
    - apply name_prefix_iff, Ec.
    - reflexivity.
    - cbn [text]. rewrite string_length_app. reflexivity. }
  assert (Nc : ~ ci_prefix (cg ++ ":") line).
  { intros H. apply name_prefix_iff in H. rewrite H in Ec. discriminate Ec. }
  destruct (startswith (lower pt ++ ":") (lower line)) eqn:Ep.
  { apply patient_name_prefix.
    - exact Nc.
    - apply name_prefix_iff, Ep.
    - reflexivity.
    - cbn [text]. rewrite string_length_app. reflexivity. }
  assert (Np : ~ ci_prefix (pt ++ ":") line).
  { intros H. apply name_prefix_iff in H. rewrite H in Ep. discriminate Ep. }
  destruct (split_first colon line) as [[part0 part1]|] eqn:Es.
  - destruct (split_first_some _ _ _ _ Es) as (El & Hl).
    apply (generic_label cg pt line _ part0 part1);
      [exact Nc | exact Np | exact El | exact Hl | reflexivity | reflexivity].
  - apply whole_line; [apply (split_first_none _ _ Es) | reflexivity | reflexivity].
Qed.

Lemma parse_line_speaker (cg pt line : string) :
  In (speaker (parse_line cg pt line)) ["caregiver"; "patient"; "unknown"].
Proof.
  unfold parse_line. cbn [In].
  destruct (startswith (lower cg ++ ":") (lower line)); [tauto|].
  destruct (startswith (lower pt ++ ":") (lower line)); [tauto|].
  destruct (split_first colon line) as [[part0 part1]|]; [|tauto].
  split_ifs; cbn [speaker]; tauto.
Qed.

Lemma Forall2_map_r {A B : Type} (R : A -> B -> Prop) (f : A -> B) (l : list A) :
  (forall x, R x (f x)) -> Forall2 R l (map f l).
Proof. intros H. induction l; cbn [map]; constructor; auto. Qed.

(** C5: the parser yields one turn per non-blank line, in the order of
    the lines; each turn is classified by (a) the caregiver's or the
    patient's name and a colon as a prefix up to case, (b) otherwise the
    label before the first colon, caregiver for "caregiver" or "family",
    patient for "patient" or "elder", else unknown, (c) otherwise the whole
    line as text of an unknown speaker.  It is a total function, every
    speaker is one of the three, and the empty transcript has no turn. *)
Theorem C5_turn_parser (transcript cg pt : string) :
  Forall2 (turn_of_line cg pt) (nonblank_lines transcript)
    (_parse_conversation transcript cg pt)
  /\ Forall (fun t => In (speaker t) ["caregiver"; "patient"; "unknown"]
                      /\ text_lower t = lower (text t))
       (_parse_conversation transcript cg pt)
  /\ _parse_conversation "" cg pt = [].
Proof.
  rewrite parse_conversation_map. fold (nonblank_lines transcript).
  split; [apply Forall2_map_r, parse_line_spec|].
  split; [|reflexivity].
  apply Forall_forall. intros t Ht. apply in_map_iff in Ht.
  destruct Ht as (line & <- & _).
  split; [apply parse_line_speaker | apply parse_line_text_lower].
Qed.

Example ex_parse :
  map (fun t => (speaker t, text t))
    (_parse_conversation
       ("ann: Hello  " ++ String nl "" ++ String nl
        "DAD: who: you?" ++ String nl
        "Family member : hi" ++ String nl
        "  Elder: ok" ++ String nl
        "Nurse: fine" ++ String nl
        "just text") "Ann" "Dad")
  = [("caregiver", "Hello"); ("patient", "who: you?"); ("caregiver", "hi");
     ("patient", "ok"); ("unknown", "fine"); ("unknown", "just text")].
Proof. reflexivity. Qed.

(** ** Principle scores *)

Lemma clamp_bounds (x : Q) : (0 <= clamp x <= 1)%Q.
Proof.
  unfold clamp. split.
  - apply Q.min_glb; [lra|].
    apply Qle_trans with (y := 0.0%Q); [lra | apply Q.le_max_l].
  - apply Qle_trans with (y := 1.0%Q); [apply Q.le_min_l | lra].
Qed.

Lemma clamp_id (x : Q) : (0 <= x <= 1)%Q -> (clamp x == x)%Q.
Proof.
  intros [H0 H1]. unfold clamp.
  rewrite (Q.max_r 0.0 x) by lra. apply Q.min_r. lra.
Qed.

Lemma clamp_mono (x y : Q) : (x <= y)%Q -> (clamp x <= clamp y)%Q.
Proof.
  intros H. unfold clamp.
  apply Q.min_le_compat_l. apply Q.max_le_compat_l. exact H.
Qed.

Lemma clamped_bounds (s : PrincipleScore) : clamped s -> (0 <= score s <= 1)%Q.
Proof.
  intros [E | [x E]]; rewrite E; [lra | apply clamp_bounds].
Qed.

Lemma ritual_clamped (cts : list Turn) : clamped (_score_ritual_consistency cts).
Proof.
  unfold _score_ritual_consistency. destruct cts as [|first rest].
  - left. reflexivity.
  - right. split_ifs; cbn [score]; eexists; reflexivity.
Qed.

Lemma emotional_clamped (cts all : list Turn) :
  clamped (_score_emotional_validation cts all).
Proof.
  unfold _score_emotional_validation. right.
  split_ifs; cbn [score]; eexists; reflexivity.
Qed.

Lemma no_pressure_clamped (cts : list Turn) : clamped (_score_no_pressure cts).
Proof.
  unfold _score_no_pressure. right.
  split_ifs; cbn [score]; eexists; reflexivity.
Qed.

Lemma brevity_clamped (cts : list Turn) : clamped (_score_brevity_structure cts).
Proof.
  unfold _score_brevity_structure. destruct cts as [|first rest].
  - left. reflexivity.
  - right.
    destruct (filter (fun t => 25 <? word_count t) (first :: rest));
      split_ifs; cbn [score]; eexists; reflexivity.
Qed.

Lemma score_principle_bounds (turns : list Turn) (principle stage : string) :
  (0 <= score (_score_principle turns principle stage) <= 1)%Q.
Proof.
  unfold _score_principle.
  destruct (String.eqb principle "ritual_over_stimulation").
  { apply clamped_bounds, ritual_clamped. }
  destruct (String.eqb principle "emotion_over_accuracy").
  { apply clamped_bounds, emotional_clamped. }
  destruct (String.eqb principle "presence_over_performance").
  { apply clamped_bounds, no_pressure_clamped. }
  destruct (String.eqb principle "short_steady_repeatable").
  { apply clamped_bounds, brevity_clamped. }
  cbn [score]. lra.
Qed.

(** C3: for every transcript, pair of names and stage, each of the four
    principle sub-scorers returns a score between 0 and 1, whatever the
    sum of the adjustments was before the clamp. *)
Theorem C3_principle_scores_in_unit_interval
    (conversation_text caregiver_name patient_name stage : string) :
  let turns := _parse_conversation conversation_text caregiver_name patient_name in
  let caregiver_turns := caregiver_turns_of turns in
  ((0 <= score (_score_ritual_consistency caregiver_turns) <= 1)
   /\ (0 <= score (_score_emotional_validation caregiver_turns turns) <= 1)
   /\ (0 <= score (_score_no_pressure caregiver_turns) <= 1)
   /\ (0 <= score (_score_brevity_structure caregiver_turns) <= 1))%Q
  /\ Forall (fun key => (0 <= score (_score_principle turns key stage) <= 1)%Q)
       (map fst PRINCIPLES).
Proof.
  intros turns caregiver_turns. split.
  - repeat split;
      first [ apply (clamped_bounds _ (ritual_clamped caregiver_turns))
            | apply (clamped_bounds _ (emotional_clamped caregiver_turns turns))
            | apply (clamped_bounds _ (no_pressure_clamped caregiver_turns))
            | apply (clamped_bounds _ (brevity_clamped caregiver_turns)) ].
  - apply Forall_forall. intros key _. apply score_principle_bounds.
Qed.

(** Three gentle invitations and no testing question: the sum before the
    clamp is 0.8 + 0.1 + 0.15 = 1.05 and the score is 1. *)
Example ex_no_pressure_clamped_from_above :
  let turns :=
    _parse_conversation
      ("Caregiver: We can sit here." ++ String nl
       "Caregiver: Take your time." ++ String nl
       "Caregiver: It's okay to rest.") "Ann" "Dad" in
  (score (_score_no_pressure (caregiver_turns_of turns)) == 1)%Q
  /\ (clamp 1.05 == 1)%Q.
Proof. split; vm_compute; reflexivity. Qed.

(** ** Overall score and grade *)

Lemma round_half_even_near (y : Q) :
  (inject_Z (round_half_even y) - (1 # 2) <= y
   /\ y <= inject_Z (round_half_even y) + (1 # 2))%Q.
Proof.
  unfold round_half_even.
  pose proof (Qfloor_le y) as Hlo. pose proof (Qlt_floor y) as Hhi.
  rewrite inject_Z_plus in Hhi. change (inject_Z 1) with 1%Q in Hhi.
  destruct (Qcompare_spec (y - inject_Z (Qfloor y)) (1 # 2)) as [E|L|G].
  - destruct (Z.even (Qfloor y)).
    + split; lra.
    + rewrite inject_Z_plus. change (inject_Z 1) with 1%Q. split; lra.
  - split; lra.
  - rewrite inject_Z_plus. change (inject_Z 1) with 1%Q. split; lra.
Qed.

Lemma py_round_2_eq (x : Q) :
  (py_round x 2 == inject_Z (round_half_even (x * 100)) * (1 # 100))%Q.
Proof. unfold py_round. reflexivity. Qed.

Lemma py_round_2_hundredths (x : Q) : rounded_to_hundredths (py_round x 2) x.
Proof.
  split.
  - exists (round_half_even (x * 100)). rewrite py_round_2_eq.
    unfold Qdiv. reflexivity.
  - rewrite py_round_2_eq.
    destruct (round_half_even_near (x * 100)) as [H1 H2]. split; lra.
Qed.

Lemma py_round_2_unit (x : Q) : (0 <= x <= 1)%Q -> (0 <= py_round x 2 <= 1)%Q.
Proof.
  intros [H0 H1]. rewrite py_round_2_eq.
  destruct (round_half_even_near (x * 100)) as [Hlo Hhi].
  set (k := round_half_even (x * 100)) in *.
  assert (Hk0 : (-1 < k)%Z).
  { rewrite Zlt_Qlt. change (inject_Z (-1)) with (-1)%Q. lra. }
  assert (Hk1 : (k < 101)%Z).
  { rewrite Zlt_Qlt. change (inject_Z 101) with 101%Q. lra. }
  assert (Hq0 : (inject_Z 0 <= inject_Z k)%Q) by (rewrite <- Zle_Qle; lia).
  assert (Hq1 : (inject_Z k <= inject_Z 100)%Q) by (rewrite <- Zle_Qle; lia).
  change (inject_Z 0) with 0%Q in Hq0. change (inject_Z 100) with 100%Q in Hq1.
  split; lra.
Qed.

Lemma principle_scores_unfold (turns : list Turn) (stage : string) :
  map (fun kv : string * Principle =>
         (fst kv, _score_principle turns (fst kv) stage)) PRINCIPLES
  = [("ritual_over_stimulation",
      _score_principle turns "ritual_over_stimulation" stage);
     ("emotion_over_accuracy",
      _score_principle turns "emotion_over_accuracy" stage);
     ("presence_over_performance",
      _score_principle turns "presence_over_performance" stage);
     ("short_steady_repeatable",
      _score_principle turns "short_steady_repeatable" stage)].
Proof. reflexivity. Qed.

Lemma overall_of_four (a b c d : PrincipleScore) :
  _calculate_overall_score
    [("ritual_over_stimulation", a); ("emotion_over_accuracy", b);
     ("presence_over_performance", c); ("short_steady_repeatable", d)]
  = Some (py_round (0 + score a * 0.25 + score b * 0.30
                    + score c * 0.25 + score d * 0.20) 2).
Proof. reflexivity. Qed.

Lemma weighted_sum_of_four (a b c d : PrincipleScore) :
  weighted_sum
    [("ritual_over_stimulation", a); ("emotion_over_accuracy", b);
     ("presence_over_performance", c); ("short_steady_repeatable", d)]
  = (score a * 0.25 + score b * 0.30 + score c * 0.25 + score d * 0.20)%Q.
Proof. reflexivity. Qed.

Lemma round_half_even_compat (x y : Q) :
  (x == y)%Q -> round_half_even x = round_half_even y.
Proof.
  intros E. unfold round_half_even.
  assert (F : Qfloor x = Qfloor y) by (apply Qfloor_comp; exact E).
  rewrite F.
  assert (C : (x - inject_Z (Qfloor y) ?= 1 # 2)%Q
              = (y - inject_Z (Qfloor y) ?= 1 # 2)%Q).
  { apply Qcompare_comp; [rewrite E|]; reflexivity. }
  rewrite C. reflexivity.
Qed.

Lemma py_round_compat (x y : Q) (n : nat) :
  (x == y)%Q -> py_round x n = py_round y n.
Proof.
  intros E. unfold py_round.
  rewrite (round_half_even_compat (x * inject_Z (10 ^ Z.of_nat n))
             (y * inject_Z (10 ^ Z.of_nat n))); [reflexivity|].
  rewrite E. reflexivity.
Qed.

(** What [analyze_conversation] returns, field by field: it never
    raises. *)
Lemma analyze_conversation_report (text cg pt stage : string) :
  let turns := _parse_conversation text cg pt in
  let scores :=
    map (fun kv : string * Principle =>
           (fst kv, _score_principle turns (fst kv) stage)) PRINCIPLES in
  let overall := py_round (weighted_sum scores) 2 in
  analyze_conversation text cg pt stage
  = Some (mkReport overall (_score_to_grade overall) scores
            (_detect_violations turns stage) (_identify_strengths turns stage)
            (_generate_recommendations turns scores
               (_detect_violations turns stage) stage)
            (_analyze_phases turns) (List.length turns) (length text) stage).
Proof.
  intros turns scores overall. unfold analyze_conversation.
  fold turns. fold scores.
  assert (E : _calculate_overall_score scores = Some overall).
  { unfold overall, scores. rewrite principle_scores_unfold.
    rewrite overall_of_four, weighted_sum_of_four.
    f_equal. apply py_round_compat. ring. }
  rewrite E. reflexivity.
Qed.

Lemma weighted_sum_unit (a b c d : Q) :
  (0 <= a <= 1 -> 0 <= b <= 1 -> 0 <= c <= 1 -> 0 <= d <= 1 ->
   0 <= a * 0.25 + b * 0.30 + c * 0.25 + d * 0.20 <= 1)%Q.
Proof. intros. split; lra. Qed.

Lemma grade_thresholds (s : Q) :
  ((_score_to_grade s = "A" <-> 0.90 <= s)
   /\ (_score_to_grade s = "B" <-> 0.80 <= s /\ s < 0.90)
   /\ (_score_to_grade s = "C" <-> 0.70 <= s /\ s < 0.80)
   /\ (_score_to_grade s = "D" <-> 0.60 <= s /\ s < 0.70)
   /\ (_score_to_grade s = "F" <-> s < 0.60))%Q.
Proof.
  unfold _score_to_grade.
  destruct (Qle_bool 0.90 s) eqn:EA;
    [apply Qle_bool_iff in EA
    | apply not_true_iff_false in EA; rewrite Qle_bool_iff in EA;
      apply Qnot_le_lt in EA;
      destruct (Qle_bool 0.80 s) eqn:EB;
      [apply Qle_bool_iff in EB
      | apply not_true_iff_false in EB; rewrite Qle_bool_iff in EB;
        apply Qnot_le_lt in EB;
        destruct (Qle_bool 0.70 s) eqn:EC;
        [apply Qle_bool_iff in EC
        | apply not_true_iff_false in EC; rewrite Qle_bool_iff in EC;
          apply Qnot_le_lt in EC;
          destruct (Qle_bool 0.60 s) eqn:ED;
          [apply Qle_bool_iff in ED
          | apply not_true_iff_false in ED; rewrite Qle_bool_iff in ED;
            apply Qnot_le_lt in ED]]]];
    repeat split; intros; try discriminate; try reflexivity; try lra.
Qed.

(** ** A transcript without caregiver turns *)




Example ex_empty_transcript_has_no_caregiver_turn :
  caregiver_turns_of (_parse_conversation "" "Ann" "Dad") = [].
Proof. reflexivity. Qed.

(** ** Binary64 *)

Lemma binary64_ltb_leb (a b : float) :
  PrimFloat.ltb a b = true -> PrimFloat.leb a b = true.
Proof.
  rewrite FloatAxioms.ltb_spec, FloatAxioms.leb_spec. unfold SFltb, SFleb.
  destruct (SFcompare (Prim2SF a) (Prim2SF b)) as [[ | | ]|];
    first [reflexivity | discriminate].
Qed.

(** The clamp of the sub-scorers lands between 0 and 1 on every binary64
    value, infinities and NaN included. *)
Lemma binary64_clamp_bounds (x : float) :
  PrimFloat.leb 0 (Binary64.clamp x) = true
  /\ PrimFloat.leb (Binary64.clamp x) 1 = true.
Proof.
  unfold Binary64.clamp, Binary64.py_max, Binary64.py_min.
  destruct (PrimFloat.ltb 0 x) eqn:E0.
  - destruct (PrimFloat.ltb x 1) eqn:E1.
    + split; apply binary64_ltb_leb; assumption.
    + split; reflexivity.
  - split; reflexivity.
Qed.

(** In binary64 the emotion score of a transcript without caregiver
    turns is one unit in the last place below 0.65; the total still rounds
    to 0.42, below every grade threshold but F. *)
Example ex_binary64_without_caregiver :
  PrimFloat.ltb Binary64.emotion_without_caregiver 0.65 = true
  /\ PrimFloat.eqb Binary64.presence_without_caregiver 0.9 = true
  /\ PrimFloat.eqb (Binary64.round2 Binary64.total_without_caregiver) 0.42 = true
  /\ PrimFloat.leb 0.60 (Binary64.round2 Binary64.total_without_caregiver) = false.
Proof. repeat split; vm_compute; reflexivity. Qed.

(** ** Violations *)

Lemma scan_violations_acc (i : nat) (cts : list Turn) (acc : list Violation) :
  scan_violations i cts acc = (acc ++ scan_violations i cts [])%list.
Proof.
  revert i acc. induction cts as [|t rest IH]; intros i acc; cbn [scan_violations].
  - rewrite app_nil_r. reflexivity.
  - rewrite (IH (S i) (acc ++ turn_violations i t)%list).
    rewrite (IH (S i) ([] ++ turn_violations i t)%list).
    cbn [app]. rewrite app_assoc. reflexivity.
Qed.

Lemma scan_violations_cons (i : nat) (t : Turn) (rest : list Turn) :
  scan_violations i (t :: rest) []
  = (turn_violations i t ++ scan_violations (S i) rest [])%list.
Proof. cbn [scan_violations app]. apply scan_violations_acc. Qed.

(** The violations of a caregiver turn are in the result, under the
    index the turn has among the caregiver turns. *)
Lemma scan_violations_in (cts : list Turn) (t : Turn) :
  In t cts ->
  forall i, exists j, forall v, In v (turn_violations j t) ->
                                In v (scan_violations i cts []).
Proof.
  induction cts as [|u rest IH]; intros Hin i; [destruct Hin|].
  destruct Hin as [-> | Hin].
  - exists i. intros v Hv. rewrite scan_violations_cons.
    apply in_or_app. left. exact Hv.
  - destruct (IH Hin (S i)) as (j & Hj). exists j. intros v Hv.
    rewrite scan_violations_cons. apply in_or_app. right. apply Hj, Hv.
Qed.

(** Every violation comes from one caregiver turn. *)
Lemma scan_violations_from (cts : list Turn) (v : Violation) :
  forall i, In v (scan_violations i cts []) ->
            exists j t, In t cts /\ In v (turn_violations j t).
Proof.
  induction cts as [|u rest IH]; intros i Hv; [destruct Hv|].
  rewrite scan_violations_cons in Hv. apply in_app_or in Hv.
  destruct Hv as [Hv | Hv].
  - exists i, u. split; [left; reflexivity | exact Hv].
  - destruct (IH (S i) Hv) as (j & t & Ht & Hj).
    exists j, t. split; [right; exact Ht | exact Hj].
Qed.

(** ** Too many choices *)

(** What the code does: the check counts the occurrences of the two
    letters "or" anywhere in the lowercased turn. *)
Lemma too_many_choices_iff (i : nat) (t : Turn) :
  (exists v, In v (turn_violations i t) /\ type v = "too_many_choices")
  <-> 2 <= count "or" (text_lower t).
Proof.
  unfold turn_violations. split.
  - intros (v & Hv & Ev). destruct (2 <=? count "or" (text_lower t)) eqn:E.
    + apply Nat.leb_le, E.
    + exfalso. revert Hv. split_ifs; cbn [app In]; intros Hv;
        repeat (destruct Hv as [<- | Hv]; [discriminate Ev|]); exact Hv.
  - intros H. apply Nat.leb_le in H. rewrite H.
    eexists. split.
    + apply in_or_app. right. apply in_or_app. right.
      apply in_or_app. left. left. reflexivity.
    + reflexivity.
Qed.

(** C6, on the arrival line of the ideal session: the word "or" does not
    occur in it, the letters "or" occur twice ("morning", "for"), and the
    detector reports a medium too_many_choices violation. *)
Theorem C6_or_inside_words_counts_as_choice :
  let turns := _parse_conversation ideal_arrival "Ann" "Mom" in
  exists t,
    caregiver_turns_of turns = [t]
    /\ text t = "Good morning, Mom. It's time for our visit."
    /\ count_word "or" (text_lower t) = 0
    /\ count_occ string_dec (split_ws (text_lower t)) "or" = 0
    /\ count "or" (text_lower t) = 2
    /\ map (fun v => (severity v, type v, turn_number v))
         (_detect_violations turns "moderate")
       = [("medium", "too_many_choices", 1)].
Proof.
  cbv zeta. eexists. split; [vm_compute; reflexivity|].
  cbn [text text_lower]. repeat split; vm_compute; reflexivity.
Qed.

(** A turn that offers two choices with the word "or" twice is reported
    as well. *)
Example ex_two_choices :
  map type
    (_detect_violations
       (_parse_conversation "Caregiver: Tea or coffee or juice?" "Ann" "Mom")
       "moderate")
  = ["too_many_choices"]
  /\ count_word "or" "tea or coffee or juice?" = 2.
Proof. split; vm_compute; reflexivity. Qed.

(** ** Presence over performance, with and without a testing question *)

Lemma Qnat_pos (n : nat) : 0 < n -> (1 <= Qnat n)%Q.
Proof.
  intros H. unfold Qnat. change 1%Q with (inject_Z 1).
  rewrite <- Zle_Qle. lia.
Qed.

Lemma Qnat_nonneg (n : nat) : (0 <= Qnat n)%Q.
Proof.
  unfold Qnat. change 0%Q with (inject_Z 0). rewrite <- Zle_Qle. lia.
Qed.

Lemma count_turns_pos (p : Turn -> bool) (cts : list Turn) (t : Turn) :
  In t cts -> p t = true -> 0 < count_turns p cts.
Proof.
  intros Hin Hp. unfold count_turns.
  assert (H : In t (filter p cts)) by (apply filter_In; split; assumption).
  destruct (filter p cts); [destruct H | cbn; lia].
Qed.

Lemma no_pressure_with_testing (cts : list Turn) :
  0 < count_turns is_testing cts ->
  (score (_score_no_pressure cts) <= 0.8)%Q.
Proof.
  intros Hn. unfold _score_no_pressure.
  apply Nat.ltb_lt in Hn. rewrite Hn.
  apply Nat.ltb_lt in Hn. apply Qnat_pos in Hn.
  set (n := Qnat (count_turns is_testing cts)) in *.
  assert (Hpen : (0.15 <= Qmin 0.4 (n * 0.15))%Q) by (apply Q.min_glb; lra).
  set (k := count_turns _ cts).
  pose proof (Q.le_min_l 0.15 (Qnat k * 0.05)) as Hbonus.
  assert (E : (clamp 0.8 == 0.8)%Q) by (vm_compute; reflexivity).
  destruct (0 <? k); cbn [score]; rewrite <- E at 2; apply clamp_mono; lra.
Qed.

Lemma no_pressure_without_testing (cts : list Turn) :
  count_turns is_testing cts = 0 ->
  (0.9 <= score (_score_no_pressure cts))%Q.
Proof.
  intros Hn. unfold _score_no_pressure. rewrite Hn.
  change (0 <? 0) with false. cbv iota.
  set (k := count_turns _ cts).
  assert (Hbonus : (0 <= Qmin 0.15 (Qnat k * 0.05))%Q).
  { apply Q.min_glb; [lra|]. pose proof (Qnat_nonneg k). nra. }
  assert (E : (clamp 0.9 == 0.9)%Q) by (vm_compute; reflexivity).
  destruct (0 <? k); cbn [score]; rewrite <- E at 1; apply clamp_mono; lra.
Qed.

(** ** Recommendations *)

Lemma high_filter_nil (violations : list Violation) :
  is_nil (filter (fun v => String.eqb (severity v) "high") violations)
  = negb (has_high violations).
Proof.
  unfold has_high. induction violations as [|v rest IH]; [reflexivity|].
  cbn [filter existsb]. destruct (String.eqb (severity v) "high"); [reflexivity|].
  exact IH.
Qed.

Lemma has_high_not_nil (violations : list Violation) :
  has_high violations = true -> is_nil violations = false.
Proof. destruct violations; [discriminate | reflexivity]. Qed.

Lemma lookup_in {A : Type} (key : string) (d : list (string * A)) (v : A) :
  lookup key d = Some v -> In v (map snd d).
Proof.
  induction d as [|[k w] rest IH]; cbn [lookup map snd]; [discriminate|].
  destruct (String.eqb key k).
  - intros [= ->]. left. reflexivity.
  - intros H. right. apply IH, H.
Qed.

Lemma low_score_recommendations_acc
    (scores : list (string * PrincipleScore)) (stage : string)
    (acc : list Recommendation) :
  exists l, low_score_recommendations scores stage acc = (acc ++ l)%list
            /\ Forall canned l.
Proof.
  revert acc. induction scores as [|[principle score_data] rest IH]; intros acc.
  - exists []. cbn. rewrite app_nil_r. split; [reflexivity | constructor].
  - cbn [low_score_recommendations].
    destruct (Qltb (score score_data) 0.6); [|apply IH].
    destruct (_get_principle_recommendation principle stage) as [rec|] eqn:E;
      [|apply IH].
    destruct (IH (acc ++ [rec])%list) as (l & El & Hl).
    exists (rec :: l). split.
    + rewrite El, <- app_assoc. reflexivity.
    + constructor; [|exact Hl]. unfold canned.
      apply (lookup_in principle). exact E.
Qed.

Lemma canned_category (r : Recommendation) :
  canned r ->
  String.eqb (category r) "stage_specific" = false
  /\ String.eqb (category r) "critical" = false
  /\ r <> structure_your_visit.
Proof.
  unfold canned. cbn [map snd recommendations_map In].
  intros [<-|[<-|[<-|[<-|[]]]]]; repeat split; try reflexivity; discriminate.
Qed.

Lemma count_category_app (c : string) (l m : list Recommendation) :
  count_category c (l ++ m) = count_category c l + count_category c m.
Proof. unfold count_category. rewrite filter_app, length_app. reflexivity. Qed.

Lemma count_category_canned (c : string) (l : list Recommendation) :
  Forall canned l ->
  c = "stage_specific" \/ c = "critical" ->
  count_category c l = 0.
Proof.
  intros Hl Hc. induction Hl as [|r l Hr _ IH]; [reflexivity|].
  change (r :: l) with ([r] ++ l)%list. rewrite count_category_app, IH.
  destruct (canned_category r Hr) as (Hs & Hk & _).
  unfold count_category. cbn [filter].
  destruct Hc as [-> | ->]; [rewrite Hs | rewrite Hk]; reflexivity.
Qed.


(** The list before the fallback: the canned recommendations of the low
    scores, the critical one in front when a high-severity violation
    exists, the stage one behind when the stage is known. *)
Lemma generate_recommendations_shape
    (turns : list Turn) (scores : list (string * PrincipleScore))
    (violations : list Violation) (stage : string) :
  exists low : list Recommendation,
    Forall canned low
    /\ low_score_recommendations scores stage [] = low
    /\ let front := if has_high violations then [stop_testing_memory] else [] in
       let body := (front ++ low ++ stage_recommendation stage)%list in
       _generate_recommendations turns scores violations stage
       = if is_nil body then [structure_your_visit] else body.
Proof.
  destruct (low_score_recommendations_acc scores stage []) as (low & E & Hlow).
  cbn [app] in E. exists low. split; [exact Hlow|]. split; [exact E|].
  unfold _generate_recommendations, stage_recommendation.
  rewrite E, high_filter_nil.
  destruct (has_high violations) eqn:Hh.
  - rewrite (has_high_not_nil _ Hh). cbn [negb app].
    destruct (String.eqb stage "early"); [reflexivity|].
    destruct (String.eqb stage "moderate"); [reflexivity|].
    destruct (String.eqb stage "late"); [reflexivity|].
    rewrite app_nil_r. reflexivity.
  - assert (F : (if negb (is_nil violations) then
                   if negb (negb false) then stop_testing_memory :: low else low
                 else low) = low) by (destruct (is_nil violations); reflexivity).
    rewrite F. cbn [app].
    destruct (String.eqb stage "early");
      [destruct low; reflexivity|].
    destruct (String.eqb stage "moderate");
      [destruct low; reflexivity|].
    destruct (String.eqb stage "late");
      [destruct low; reflexivity|].
    rewrite app_nil_r. destruct low; reflexivity.
Qed.

Lemma stage_recommendation_cases (stage : string) :
  (stage_recommendation stage = [] /\ known_stage stage = false)
  \/ (exists x, stage_recommendation stage = [x]
                /\ known_stage stage = true
                /\ category x = "stage_specific"
                /\ x <> stop_testing_memory
                /\ x <> structure_your_visit).
Proof.
  unfold stage_recommendation, known_stage.
  destruct (String.eqb stage "early");
    [right; eexists; repeat split; try reflexivity; discriminate|].
  destruct (String.eqb stage "moderate");
    [right; eexists; repeat split; try reflexivity; discriminate|].
  destruct (String.eqb stage "late");
    [right; eexists; repeat split; try reflexivity; discriminate|].
  left. split; reflexivity.
Qed.


Lemma count_category_cons (c : string) (r : Recommendation)
    (l : list Recommendation) :
  count_category c (r :: l)
  = (if String.eqb (category r) c then 1 else 0) + count_category c l.
Proof.
  unfold count_category. cbn [filter].
  destruct (String.eqb (category r) c); reflexivity.
Qed.







(** With a stage outside the three and nothing else to say, the fallback
    is the whole list. *)
Example ex_structure_your_visit_alone :
  exists r,
    analyze_conversation
      ("Caregiver: Hello Dad, it's time for our visit today." ++ String nl
       "Dad: Hello." ++ String nl
       "Caregiver: I understand. Thank you, see you next time.")
      "Ann" "Dad" "mild" = Some r
    /\ recommendations r = [structure_your_visit].
Proof. eexists. split; vm_compute; reflexivity. Qed.

Lemma high_violation_first
    (turns : list Turn) (scores : list (string * PrincipleScore))
    (violations : list Violation) (stage : string) :
  has_high violations = true ->
  exists rest,
    _generate_recommendations turns scores violations stage
    = stop_testing_memory :: rest.
Proof.
  intros Hh.
  destruct (generate_recommendations_shape turns scores violations stage)
    as (low & _ & _ & Hs).
  cbv zeta in Hs. rewrite Hh in Hs. cbn [app is_nil] in Hs.
  eexists. exact Hs.
Qed.

(** ** A memory-testing question *)

Lemma fishing_violation (i : nat) (t : Turn) :
  text_lower t = lower fishing ->
  In (mkViolation "high" "memory_testing" (i + 1) (take 100 (text t))
        "Testing memory creates anxiety and shame"
        "Instead ask: 'What did you like about that?' or 'Tell me more about that'")
     (turn_violations i t).
Proof.
  intros E. unfold turn_violations. rewrite E.
  apply in_or_app. left.
  assert (A : any_in ["do you remember"; "try to remember"; "don't you remember"]
                (lower fishing) = true) by reflexivity.
  rewrite A. left. reflexivity.
Qed.

Lemma fishing_is_testing (t : Turn) :
  text_lower t = lower fishing -> is_testing t = true.
Proof. intros E. unfold is_testing. rewrite E. reflexivity. Qed.

(** C9: when some caregiver turn of the transcript reads "Do you remember
    when we went fishing?", the report holds a memory_testing violation of
    high severity; the presence_over_performance score is at most 0.8 and
    strictly below the score of every transcript without a testing
    question (which gets the +0.1 bonus instead of the penalty); and the
    first recommendation is "Stop Testing Memory", priority immediate. *)
Theorem C9_memory_testing_question
    (transcript cg pt stage : string) (t : Turn) :
  In t (_parse_conversation transcript cg pt) ->
  speaker t = "caregiver" ->
  text t = fishing ->
  exists r,
    analyze_conversation transcript cg pt stage = Some r
    /\ (exists v, In v (violations r)
                  /\ type v = "memory_testing" /\ severity v = "high")
    /\ (score_of "presence_over_performance" (principle_scores r) <= 0.8)%Q
    /\ (forall turns' : list Turn,
          count_turns is_testing (caregiver_turns_of turns') = 0 ->
          (score_of "presence_over_performance" (principle_scores r)
           < score (_score_no_pressure (caregiver_turns_of turns')))%Q)
    /\ (exists rest, recommendations r = stop_testing_memory :: rest)
    /\ title stop_testing_memory = "Stop Testing Memory"
    /\ priority stop_testing_memory = "immediate".
Proof.
  intros Hin Hs Ht.
  assert (Etl : text_lower t = lower fishing).
  { rewrite (parsed_text_lower _ _ _ _ Hin), Ht. reflexivity. }
  pose proof (in_caregiver_turns _ _ Hin Hs) as Hc.
  set (turns := _parse_conversation transcript cg pt) in *.
  destruct (scan_violations_in _ _ Hc 0) as (j & Hj).
  pose proof (Hj _ (fishing_violation j t Etl)) as Hv.
  assert (Hp : (score (_score_no_pressure (caregiver_turns_of turns)) <= 0.8)%Q).
  { apply no_pressure_with_testing.
    apply (count_turns_pos _ _ t Hc). apply fishing_is_testing, Etl. }
  eexists. split; [apply analyze_conversation_report|].
  cbn [violations principle_scores recommendations]. fold turns.
  rewrite principle_scores_unfold.
  split.
  { eexists. split; [exact Hv|]. split; reflexivity. }
  split; [exact Hp|].
  split.
  { intros turns' H0. apply Qle_lt_trans with (y := 0.8%Q); [exact Hp|].
    apply Qlt_le_trans with (y := 0.9%Q); [reflexivity|].
    apply no_pressure_without_testing, H0. }
  split; [|split; reflexivity].
  apply high_violation_first. unfold has_high.
  apply existsb_exists. eexists. split; [exact Hv | reflexivity].
Qed.

Lemma C9_memory_testing_question_witness :
  exists r,
    analyze_conversation
      ("Ann: Good morning, Dad." ++ String nl
       "Ann: Do you remember when we went fishing?" ++ String nl
       "Dad: I am not sure.") "Ann" "Dad" "moderate" = Some r
    /\ (exists v, In v (violations r)
                  /\ type v = "memory_testing" /\ severity v = "high")
    /\ (score_of "presence_over_performance" (principle_scores r) <= 0.8)%Q
    /\ (forall turns' : list Turn,
          count_turns is_testing (caregiver_turns_of turns') = 0 ->
          (score_of "presence_over_performance" (principle_scores r)
           < score (_score_no_pressure (caregiver_turns_of turns')))%Q)
    /\ (exists rest, recommendations r = stop_testing_memory :: rest)
    /\ title stop_testing_memory = "Stop Testing Memory"
    /\ priority stop_testing_memory = "immediate".
Proof.
  apply (C9_memory_testing_question _ "Ann" "Dad" "moderate"
           (mkTurn "caregiver" fishing (lower fishing))).
  - vm_compute. right. left. reflexivity.
  - reflexivity.
  - reflexivity.
Defined.

(** ** Phases *)

Example ex_canonical_phases :
  map name (phases IDEAL_SESSION) = canonical_phases.
Proof. reflexivity. Qed.

(** With a caregiver turn, the analysis lists names: the detected phases
    in canonical order, the other canonical names as missing, "Gentle
    Presence" among them, and the structure flag is the count test. *)
Lemma phases_with_caregiver_turn (turns : list Turn) :
  caregiver_turns_of turns <> [] ->
  let a := _analyze_phases turns in
  sublist (detected_phases a) canonical_phases = true
  /\ missing_phases a = map PhaseName (complement (detected_phases a))
  /\ In (PhaseName "Gentle Presence") (missing_phases a)
  /\ (follows_structure a = true <-> 4 <= List.length (detected_phases a))
  /\ phase_count a = Some (List.length (detected_phases a)).
Proof.
  intros Hne. unfold _analyze_phases.
  destruct (caregiver_turns_of turns) as [|first rest]; [destruct Hne; reflexivity|].
  split_ifs; cbv zeta;
    cbn [detected_phases missing_phases follows_structure phase_count app];
    (split; [reflexivity|]); (split; [reflexivity|]);
    (split; [vm_compute; tauto|]); (split; [apply Nat.leb_le | reflexivity]).
Qed.

Lemma phases_with_caregiver_turn_witness :
  let a := _analyze_phases (_parse_conversation ideal_arrival "Ann" "Mom") in
  sublist (detected_phases a) canonical_phases = true
  /\ missing_phases a = map PhaseName (complement (detected_phases a))
  /\ In (PhaseName "Gentle Presence") (missing_phases a)
  /\ (follows_structure a = true <-> 4 <= List.length (detected_phases a))
  /\ phase_count a = Some (List.length (detected_phases a)).
Proof.
  apply (phases_with_caregiver_turn (_parse_conversation ideal_arrival "Ann" "Mom")).
  discriminate.
Defined.

(** C8, on a transcript without caregiver turns: the early return fills
    [missing_phases] with the six phase dicts of [IDEAL_SESSION], not with
    the six names, so the name "Gentle Presence" is not an element and the
    list is not the complement of the detected names. *)
Theorem C8_missing_phases_without_caregiver_turn :
  let a := _analyze_phases (_parse_conversation "" "Ann" "Dad") in
  detected_phases a = []
  /\ follows_structure a = false
  /\ missing_phases a = map PhaseDict (phases IDEAL_SESSION)
  /\ missing_phases a <> map PhaseName (complement (detected_phases a))
  /\ ~ In (PhaseName "Gentle Presence") (missing_phases a)
  /\ phase_count a = None.
Proof.
  cbv zeta.
  change (_analyze_phases (_parse_conversation "" "Ann" "Dad"))
    with (mkPhaseAnalysis false [] (map PhaseDict (phases IDEAL_SESSION)) None).
  cbn [detected_phases follows_structure missing_phases phase_count].
  repeat split.
  - discriminate.
  - cbn. intros H. repeat (destruct H as [H | H]; [discriminate H|]). exact H.
Qed.

Lemma phases_without_caregiver_turn (turns : list Turn) :
  caregiver_turns_of turns = [] ->
  _analyze_phases turns
  = mkPhaseAnalysis false [] (map PhaseDict (phases IDEAL_SESSION)) None.
Proof. intros H. unfold _analyze_phases. rewrite H. reflexivity. Qed.

(** * Further properties *)

Import Notions.

(** ** The violation detector, turn by turn *)

Lemma count_type_app (ty : string) (l m : list Violation) :
  count_type ty (l ++ m) = count_type ty l + count_type ty m.
Proof. unfold count_type. rewrite filter_app, length_app. reflexivity. Qed.

Lemma turn_violations_counts (i : nat) (t : Turn) :
  count_type "memory_testing" (turn_violations i t)
  = (if is_memory_testing t then 1 else 0)
  /\ count_type "correction" (turn_violations i t)
     = (if is_correction t then 1 else 0)
  /\ count_type "too_many_choices" (turn_violations i t)
     = (if has_two_or t then 1 else 0)
  /\ count_type "too_many_questions" (turn_violations i t)
     = (if has_three_questions t then 1 else 0)
  /\ List.length (turn_violations i t)
     = (if is_memory_testing t then 1 else 0) + (if is_correction t then 1 else 0)
       + (if has_two_or t then 1 else 0)
       + (if has_three_questions t then 1 else 0).
Proof.
  unfold turn_violations, is_memory_testing, is_correction, has_two_or,
    has_three_questions.
  destruct (any_in ["do you remember"; "try to remember"; "don't you remember"]
              (text_lower t));
    destruct (any_in ["no, actually"; "that's not right"; "that's wrong"]
                (text_lower t));
    destruct (2 <=? count "or" (text_lower t));
    destruct (3 <=? count "?" (text_lower t));
    repeat split; reflexivity.
Qed.

Lemma scan_violations_counts (cts : list Turn) :
  forall i,
    count_type "memory_testing" (scan_violations i cts [])
    = count_turns is_memory_testing cts
    /\ count_type "correction" (scan_violations i cts [])
       = count_turns is_correction cts
    /\ count_type "too_many_choices" (scan_violations i cts [])
       = count_turns has_two_or cts
    /\ count_type "too_many_questions" (scan_violations i cts [])
       = count_turns has_three_questions cts
    /\ List.length (scan_violations i cts [])
       = count_turns is_memory_testing cts + count_turns is_correction cts
         + count_turns has_two_or cts + count_turns has_three_questions cts.
Proof.
  induction cts as [|t rest IH]; intros i; [repeat split; reflexivity|].
  rewrite scan_violations_cons, !count_type_app, length_app.
  destruct (turn_violations_counts i t) as (E1 & E2 & E3 & E4 & E5).
  destruct (IH (S i)) as (F1 & F2 & F3 & F4 & F5).
  rewrite E1, E2, E3, E4, E5, F1, F2, F3, F4, F5.
  unfold count_turns. cbn [filter].
  destruct (is_memory_testing t); destruct (is_correction t);
    destruct (has_two_or t); destruct (has_three_questions t);
    cbn [List.length]; repeat split; lia.
Qed.

(** X1: for each of the four violation types, the detector reports as
    many violations of the type as there are caregiver turns meeting its
    condition: one turn gives at most one violation of a type, nothing is
    merged or dropped, and nothing else is reported. *)
Theorem violations_one_per_turn_and_type (turns : list Turn) (stage : string) :
  let cts := caregiver_turns_of turns in
  let vs := _detect_violations turns stage in
  count_type "memory_testing" vs = count_turns is_memory_testing cts
  /\ count_type "correction" vs = count_turns is_correction cts
  /\ count_type "too_many_choices" vs = count_turns has_two_or cts
  /\ count_type "too_many_questions" vs = count_turns has_three_questions cts
  /\ List.length vs
     = count_turns is_memory_testing cts + count_turns is_correction cts
       + count_turns has_two_or cts + count_turns has_three_questions cts.
Proof.
  cbv zeta. unfold _detect_violations.
  apply scan_violations_counts.
Qed.

Lemma take_length (n : nat) (s : string) : length (take n s) <= n.
Proof.
  revert s. induction n as [|n IH]; intros s; [destruct s; cbn; lia|].
  destruct s as [|c s]; cbn [take length]; [lia|]. specialize (IH s). lia.
Qed.

Lemma turn_violations_fields (j : nat) (t : Turn) (v : Violation) :
  In v (turn_violations j t) ->
  turn_number v = j + 1
  /\ v_text v = take 100 (text t)
  /\ ((type v = "memory_testing" /\ severity v = "high" /\ is_memory_testing t = true)
      \/ (type v = "correction" /\ severity v = "high" /\ is_correction t = true)
      \/ (type v = "too_many_choices" /\ severity v = "medium"
          /\ has_two_or t = true)
      \/ (type v = "too_many_questions" /\ severity v = "medium"
          /\ has_three_questions t = true)).
Proof.
  unfold turn_violations, is_memory_testing, is_correction, has_two_or,
    has_three_questions.
  destruct (any_in ["do you remember"; "try to remember"; "don't you remember"]
              (text_lower t));
    destruct (any_in ["no, actually"; "that's not right"; "that's wrong"]
                (text_lower t));
    destruct (2 <=? count "or" (text_lower t));
    destruct (3 <=? count "?" (text_lower t));
    cbn [app In]; intros H;
    repeat (destruct H as [<- | H]; [cbn; repeat split; tauto|]);
    destruct H.
Qed.

Lemma scan_violations_nth (cts : list Turn) (v : Violation) :
  forall i, In v (scan_violations i cts []) ->
            exists k t, nth_error cts k = Some t
                        /\ In v (turn_violations (i + k) t).
Proof.
  induction cts as [|u rest IH]; intros i Hv; [destruct Hv|].
  rewrite scan_violations_cons in Hv. apply in_app_or in Hv.
  destruct Hv as [Hv | Hv].
  - exists 0, u. rewrite Nat.add_0_r. split; [reflexivity | exact Hv].
  - destruct (IH (S i) Hv) as (k & t & Hk & Hin).
    exists (S k), t. split; [exact Hk|].
    replace (i + S k) with (S i + k) by lia. exact Hin.
Qed.

(** X2: every reported violation points at a caregiver turn: its turn
    number is the 1-based position of a turn among the caregiver turns, its
    text is the first 100 characters of that turn, its type is one of the
    four with the severity that belongs to it, and the turn meets the
    condition of the type. *)
Theorem violations_point_at_caregiver_turns (turns : list Turn) (stage : string) :
  Forall
    (fun v =>
       exists t,
         nth_error (caregiver_turns_of turns) (turn_number v - 1) = Some t
         /\ 1 <= turn_number v <= List.length (caregiver_turns_of turns)
         /\ v_text v = take 100 (text t)
         /\ length (v_text v) <= 100
         /\ ((type v = "memory_testing" /\ severity v = "high"
              /\ is_memory_testing t = true)
             \/ (type v = "correction" /\ severity v = "high"
                 /\ is_correction t = true)
             \/ (type v = "too_many_choices" /\ severity v = "medium"
                 /\ has_two_or t = true)
             \/ (type v = "too_many_questions" /\ severity v = "medium"
                 /\ has_three_questions t = true)))
    (_detect_violations turns stage).
Proof.
  apply Forall_forall. intros v Hv. unfold _detect_violations in Hv.
  destruct (scan_violations_nth _ _ 0 Hv) as (k & t & Hk & Hin).
  cbn [plus] in Hin.
  destruct (turn_violations_fields _ _ _ Hin) as (En & Et & Hty).
  exists t. rewrite En. replace (k + 1 - 1) with k by lia.
  split; [exact Hk|]. split.
  { assert (k < List.length (caregiver_turns_of turns))
      by (apply nth_error_Some; rewrite Hk; discriminate). lia. }
  split; [exact Et|]. split; [rewrite Et; apply take_length | exact Hty].
Qed.

Lemma scan_violations_from_index (cts : list Turn) :
  forall i, Forall (fun v => i + 1 <= turn_number v) (scan_violations i cts []).
Proof.
  intros i. apply Forall_forall. intros v Hv.
  destruct (scan_violations_nth _ _ _ Hv) as (k & t & _ & Hin).
  destruct (turn_violations_fields _ _ _ Hin) as (En & _). lia.
Qed.

(** X3: the violations come in the order of the caregiver turns: the
    turn numbers never decrease along the list. *)
Theorem violations_in_turn_order (turns : list Turn) (stage : string) :
  StronglySorted (fun a b => turn_number a <= turn_number b)
    (_detect_violations turns stage).
Proof.
  unfold _detect_violations. generalize 0 as i.
  induction (caregiver_turns_of turns) as [|t rest IH]; intros i; [constructor|].
  rewrite scan_violations_cons.
  assert (Hrest := scan_violations_from_index rest (S i)).
  specialize (IH (S i)).
  assert (Ht : Forall (fun v => turn_number v = i + 1) (turn_violations i t)).
  { apply Forall_forall. intros v Hv.
    apply (turn_violations_fields _ _ _ Hv). }
  induction (turn_violations i t) as [|v vs IHv]; cbn [app]; [exact IH|].
  constructor; [apply IHv; apply (Forall_inv_tail Ht)|].
  apply Forall_app. split.
  - pose proof (Forall_inv Ht) as Ev. cbn in Ev.
    apply Forall_forall. intros w Hw.
    rewrite Forall_forall in Ht. rewrite (Ht w (or_intror Hw)). lia.
  - pose proof (Forall_inv Ht) as Ev. cbn in Ev.
    apply Forall_forall. intros w Hw.
    rewrite Forall_forall in Hrest. specialize (Hrest w Hw). lia.
Qed.

(** ** What moves each principle score *)

(** X4: without caregiver turns the ritual score is 0; with one it lies
    between 0.5 and 1, above 0.85 when the first caregiver turn greets and
    the last one closes, below 0.65 when neither happens. *)
Theorem ritual_score_by_greeting_and_closing (first : Turn) (rest : list Turn) :
  let cts := first :: rest in
  let s := score (_score_ritual_consistency cts) in
  (score (_score_ritual_consistency []) == 0)%Q
  /\ (0.5 <= s <= 1)%Q
  /\ (has_greeting first = true -> has_closing (last cts first) = true ->
      (0.85 < s)%Q)
  /\ (has_greeting first = false -> has_closing (last cts first) = false ->
      (s < 0.65)%Q).
Proof.
  cbv zeta. unfold _score_ritual_consistency, has_greeting, has_closing.
  split; [reflexivity|].
  destruct (any_in ["good morning"; "good afternoon"; "hello"; "hi"]
              (text_lower first));
    destruct (existsb _ (firstn 3 (first :: rest)));
    destruct (any_in ["thank you"; "see you"; "tomorrow"; "next time"]
                (text_lower (last (first :: rest) first)));
    cbn [score];
    (split; [split; vm_compute; discriminate|]);
    split; intros A B; try discriminate A; try discriminate B;
    vm_compute; reflexivity.
Qed.

Lemma ritual_score_by_greeting_and_closing_witness :
  (0.85 < score (_score_ritual_consistency
                   [mkTurn "caregiver" "Hello Dad." "hello dad.";
                    mkTurn "caregiver" "See you tomorrow." "see you tomorrow."]))%Q.
Proof.
  apply (ritual_score_by_greeting_and_closing
           (mkTurn "caregiver" "Hello Dad." "hello dad.")
           [mkTurn "caregiver" "See you tomorrow." "see you tomorrow."]);
    reflexivity.
Defined.

(** X5: the presence score tells whether a testing question was asked:
    it is below 0.85 exactly when some caregiver turn matches one of the
    testing patterns, whatever the number of gentle invitations. *)
Theorem presence_score_tells_testing (cts : list Turn) :
  (score (_score_no_pressure cts) < 0.85)%Q
  <-> 0 < count_turns is_testing cts.
Proof.
  split.
  - intros H. destruct (count_turns is_testing cts) eqn:E; [|lia].
    pose proof (no_pressure_without_testing cts E). lra.
  - intros H. pose proof (no_pressure_with_testing cts H). lra.
Qed.

Lemma list_sum_le (f : Turn -> nat) (k : nat) (l : list Turn) :
  (forall t, In t l -> f t <= k) -> list_sum (map f l) <= k * List.length l.
Proof.
  induction l as [|t l IH]; intros H; [cbn; lia|].
  assert (f t <= k) by (apply H; left; reflexivity).
  assert (list_sum (map f l) <= k * List.length l)
    by (apply IH; intros u Hu; apply H; right; exact Hu).
  change (list_sum (map f (t :: l))) with (f t + list_sum (map f l)).
  cbn [List.length]. lia.
Qed.

Lemma filter_none {A : Type} (p : A -> bool) (l : list A) :
  (forall x, In x l -> p x = false) -> filter p l = [].
Proof.
  induction l as [|x l IH]; intros H; cbn [filter]; [reflexivity|].
  rewrite (H x (or_introl eq_refl)). apply IH. intros y Hy. apply H. right. exact Hy.
Qed.

(** X6: when every caregiver turn has at most 12 words (and there is
    one), the brevity score is at the top, above 0.95. *)
Theorem brevity_score_of_short_turns (cts : list Turn) :
  cts <> [] ->
  (forall t, In t cts -> word_count t <= 12) ->
  (0.95 < score (_score_brevity_structure cts))%Q.
Proof.
  intros Hne Hshort. unfold _score_brevity_structure.
  destruct cts as [|first rest]; [destruct Hne; reflexivity|].
  set (cts := first :: rest) in *.
  assert (Havg : Qle_bool (Qnat (list_sum (map word_count cts))
                           / Qnat (List.length cts)) 12 = true).
  { apply Qle_bool_iff. apply Qle_shift_div_r.
    - unfold Qnat. change 0%Q with (inject_Z 0). rewrite <- Zlt_Qlt.
      subst cts. cbn [List.length]. lia.
    - pose proof (list_sum_le word_count 12 cts Hshort) as Hs.
      unfold Qnat. change 12%Q with (inject_Z 12).
      rewrite <- inject_Z_mult, <- Zle_Qle. lia. }
  rewrite Havg.
  rewrite (filter_none (fun t => 25 <? word_count t) cts).
  - cbn [score]. vm_compute. reflexivity.
  - intros t Ht. apply Nat.ltb_ge. specialize (Hshort t Ht). lia.
Qed.

Lemma brevity_score_of_short_turns_witness :
  (0.95 < score (_score_brevity_structure
                   [mkTurn "caregiver" "I am here with you." "i am here with you."]))%Q.
Proof.
  apply brevity_score_of_short_turns.
  - discriminate.
  - intros t [<- | []]. vm_compute. lia.
Defined.

Lemma Qnat_two (n : nat) : 2 <= n -> (2 <= Qnat n)%Q.
Proof.
  intros H. unfold Qnat. change 2%Q with (inject_Z 2). rewrite <- Zle_Qle. lia.
Qed.

(** X7: the emotion score is above 0.85 exactly when some caregiver turn
    uses a validation phrase and none uses a correction phrase; the turns
    of the other speakers play no part. *)
Theorem emotion_score_needs_validation_without_correction
    (cts all_turns : list Turn) :
  (0.85 < score (_score_emotional_validation cts all_turns))%Q
  <-> (0 < validation_count cts /\ correction_count cts = 0).
Proof.
  unfold _score_emotional_validation, validation_count, correction_count.
  set (n := count_turns (fun turn => any_in validation_phrases (text_lower turn)) cts).
  set (m := count_turns (fun turn => any_in correction_phrases (text_lower turn)) cts).
  assert (E9 : (clamp 0.9 == 0.9)%Q) by (vm_compute; reflexivity).
  assert (E75 : (clamp 0.75 == 0.75)%Q) by (vm_compute; reflexivity).
  destruct (Nat.ltb_spec 0 n) as [En | En];
    destruct (Nat.ltb_spec 0 m) as [Em | Em]; cbn [score].
  - (* validation and correction *)
    pose proof (Q.le_min_l 0.2 (Qnat n * 0.1)) as Hv.
    assert (Hc : (0.15 <= Qmin 0.3 (Qnat m * 0.15))%Q).
    { apply Q.min_glb; [lra|]. pose proof (Qnat_pos m Em). lra. }
    split; [|lia]. intros H. exfalso.
    assert (Hle : (clamp (0.7 + Qmin 0.2 (Qnat n * 0.1) - Qmin 0.3 (Qnat m * 0.15))
                   <= clamp 0.75)%Q) by (apply clamp_mono; lra).
    lra.
  - (* validation, no correction *)
    assert (Hv : (0.1 <= Qmin 0.2 (Qnat n * 0.1))%Q).
    { apply Q.min_glb; [lra|]. pose proof (Qnat_pos n En). lra. }
    split; [intros _; lia|]. intros _.
    assert (Hge : (clamp 0.9 <= clamp (0.7 + Qmin 0.2 (Qnat n * 0.1) + 0.1))%Q)
      by (apply clamp_mono; lra).
    lra.
  - (* no validation, correction *)
    split; [|lia]. intros H. exfalso.
    assert (Hc : (0 <= Qmin 0.3 (Qnat m * 0.15))%Q).
    { apply Q.min_glb; [lra|]. pose proof (Qnat_nonneg m). lra. }
    assert (Hle : (clamp (0.7 - 0.15 - Qmin 0.3 (Qnat m * 0.15)) <= clamp 0.75)%Q)
      by (apply clamp_mono; lra).
    lra.
  - (* neither *)
    split; [|lia]. intros H. exfalso. revert H. vm_compute. discriminate.
Qed.

(** ** Strengths *)

(** X8: the strengths are distinct messages out of the five the source
    knows, so the conversion to a set only reorders them; "Avoided testing
    memory" is among them exactly when no caregiver turn has both the
    letters "remember" and a question mark; and a transcript without
    caregiver turns gets that one strength and no other. *)
Theorem strengths_distinct_and_known (turns : list Turn) (stage : string) :
  let ss := _identify_strengths turns stage in
  NoDup ss
  /\ incl ss strength_messages
  /\ (In "Avoided testing memory" ss
      <-> existsb asks_to_remember (caregiver_turns_of turns) = false)
  /\ (caregiver_turns_of turns = [] -> ss = ["Avoided testing memory"]).
Proof.
  cbv zeta. unfold _identify_strengths.
  change (existsb
            (fun t : Turn => contains "remember" (text_lower t) && contains "?" (text t))
            (caregiver_turns_of turns))
    with (existsb asks_to_remember (caregiver_turns_of turns)).
  destruct (existsb asks_to_remember (caregiver_turns_of turns)) eqn:Er;
    cbn [negb]; (split; [|split; [|split]]).
  all: try (intros Hnil; rewrite Hnil in *; cbn in Er; try discriminate Er;
            cbn; reflexivity).
  all: split_ifs; cbn [app];
    try (repeat constructor; cbn [In]; intuition discriminate);
    try (unfold incl, strength_messages; cbn [In]; intros a Ha; tauto);
    try (split; [intros _; reflexivity | intros _; cbn [In]; tauto]);
    try (split; [cbn [In]; intuition discriminate | discriminate]).
Qed.

Lemma strengths_distinct_and_known_witness :
  _identify_strengths (_parse_conversation "Dad: I am tired." "Ann" "Dad") "moderate"
  = ["Avoided testing memory"].
Proof.
  apply (strengths_distinct_and_known
           (_parse_conversation "Dad: I am tired." "Ann" "Dad") "moderate").
  reflexivity.
Defined.

(** ** Recommendations, overall score and grade *)

Lemma low_score_recommendations_length
    (scores : list (string * PrincipleScore)) (stage : string) :
  forall acc,
    List.length (low_score_recommendations scores stage acc)
    <= List.length acc + List.length scores.
Proof.
  induction scores as [|[principle score_data] rest IH]; intros acc;
    cbn [low_score_recommendations List.length]; [lia|].
  destruct (Qltb (score score_data) 0.6).
  - destruct (_get_principle_recommendation principle stage).
    + specialize (IH (acc ++ [r])%list). rewrite length_app in IH.
      cbn [List.length] in IH. lia.
    + specialize (IH acc). lia.
  - specialize (IH acc). lia.
Qed.

Lemma lookup_none_iff {A : Type} (key : string) (d : list (string * A)) :
  lookup key d = None <-> ~ In key (map fst d).
Proof.
  induction d as [|[k v] rest IH]; cbn [lookup map fst In]; [tauto|].
  destruct (String.eqb_spec key k) as [-> | Hne].
  - split; [discriminate | intros H; destruct H; left; reflexivity].
  - rewrite IH. split; [intros H [E | E]; [apply Hne; symmetry; exact E | tauto] | tauto].
Qed.

Lemma weighted_total_none (scores : list (string * PrincipleScore)) :
  forall total,
    weighted_total scores total = None
    <-> exists key, In key (map fst scores) /\ ~ In key (map fst PRINCIPLES).
Proof.
  induction scores as [|[k sd] rest IH]; intros total; cbn [weighted_total map fst In].
  - split; [discriminate | intros (key & [] & _)].
  - destruct (lookup k PRINCIPLES) as [p|] eqn:E.
    + rewrite IH. split.
      * intros (key & Hin & Hn). exists key. tauto.
      * intros (key & [<- | Hin] & Hn).
        -- exfalso. apply lookup_none_iff in Hn. rewrite Hn in E. discriminate E.
        -- exists key. tauto.
    + split; [intros _ | reflexivity].
      exists k. split; [left; reflexivity | apply lookup_none_iff, E].
Qed.

(** X10: the overall score fails (the [KeyError] of the weight lookup)
    exactly when the scores hold a key that is not one of the four
    principles; on any selection of the four principles it succeeds, and on
    no scores at all it is 0. *)
Theorem overall_score_fails_on_unknown_key
    (scores : list (string * PrincipleScore)) :
  (_calculate_overall_score scores = None
   <-> exists key, In key (map fst scores) /\ ~ In key (map fst PRINCIPLES))
  /\ (_calculate_overall_score [] = Some (py_round 0 2)
      /\ (py_round 0 2 == 0)%Q).
Proof.
  split.
  - unfold _calculate_overall_score.
    destruct (weighted_total scores 0) as [total|] eqn:E.
    + split; [discriminate|]. intros H.
      apply (proj2 (weighted_total_none scores 0)) in H.
      rewrite H in E. discriminate E.
    + split; [intros _; apply (weighted_total_none scores 0), E | reflexivity].
  - split; [reflexivity | vm_compute; reflexivity].
Qed.

(** X11: a higher score never gets a worse grade. *)
Theorem grade_is_monotone (s1 s2 : Q) :
  (s1 <= s2)%Q ->
  grade_rank (_score_to_grade s1) <= grade_rank (_score_to_grade s2).
Proof.
  intros H. unfold _score_to_grade.
  destruct (Qle_bool 0.90 s2) eqn:A2.
  { split_ifs; cbn; lia. }
  destruct (Qle_bool 0.90 s1) eqn:A1.
  { apply Qle_bool_iff in A1. assert (Qle_bool 0.90 s2 = true)
      by (apply Qle_bool_iff; lra). congruence. }
  destruct (Qle_bool 0.80 s2) eqn:B2.
  { split_ifs; cbn; lia. }
  destruct (Qle_bool 0.80 s1) eqn:B1.
  { apply Qle_bool_iff in B1. assert (Qle_bool 0.80 s2 = true)
      by (apply Qle_bool_iff; lra). congruence. }
  destruct (Qle_bool 0.70 s2) eqn:C2.
  { split_ifs; cbn; lia. }
  destruct (Qle_bool 0.70 s1) eqn:C1.
  { apply Qle_bool_iff in C1. assert (Qle_bool 0.70 s2 = true)
      by (apply Qle_bool_iff; lra). congruence. }
  destruct (Qle_bool 0.60 s2) eqn:D2.
  { split_ifs; cbn; lia. }
  destruct (Qle_bool 0.60 s1) eqn:D1.
  { apply Qle_bool_iff in D1. assert (Qle_bool 0.60 s2 = true)
      by (apply Qle_bool_iff; lra). congruence. }
  cbn. lia.
Qed.

Lemma grade_is_monotone_witness :
  grade_rank (_score_to_grade 0.42) <= grade_rank (_score_to_grade 0.91).
Proof. apply grade_is_monotone. vm_compute. discriminate. Defined.

(** ** Only the caregiver is judged *)

Lemma caregiver_turns_of_idem (turns : list Turn) :
  caregiver_turns_of (caregiver_turns_of turns) = caregiver_turns_of turns.
Proof.
  unfold caregiver_turns_of. induction turns as [|t rest IH]; [reflexivity|].
  cbn [filter]. destruct (String.eqb (speaker t) "caregiver") eqn:E.
  - cbn [filter]. rewrite E, IH. reflexivity.
  - exact IH.
Qed.

(** X12: what patients and unknown speakers say never enters the
    analysis: the principle scores with their evidence, the violations,
    the strengths and the phases of a list of turns are those of its
    caregiver turns alone. *)
Theorem analysis_reads_caregiver_turns_only
    (turns : list Turn) (principle stage : string) :
  let cts := caregiver_turns_of turns in
  _score_principle turns principle stage = _score_principle cts principle stage
  /\ _detect_violations turns stage = _detect_violations cts stage
  /\ _identify_strengths turns stage = _identify_strengths cts stage
  /\ _analyze_phases turns = _analyze_phases cts.
Proof.
  cbv zeta.
  unfold _score_principle, _detect_violations, _identify_strengths, _analyze_phases.
  rewrite !caregiver_turns_of_idem.
  repeat split.
Qed.

(** ** The parser and white space *)

Lemma lstrip_idem (s : string) : lstrip (lstrip s) = lstrip s.
Proof.
  induction s as [|c s IH]; [reflexivity|]. cbn [lstrip].
  destruct (is_space c) eqn:E; [exact IH|]. cbn [lstrip]. rewrite E. reflexivity.
Qed.

Lemma rstrip_idem (s : string) : rstrip (rstrip s) = rstrip s.
Proof.
  induction s as [|c s IH]; [reflexivity|]. cbn [rstrip].
  destruct (is_empty (rstrip s) && is_space c) eqn:E; [reflexivity|].
  cbn [rstrip]. rewrite IH, E. reflexivity.
Qed.

Lemma rstrip_fixed_tail (c : ascii) (y : string) :
  rstrip (String c y) = String c y -> rstrip y = y.
Proof.
  cbn [rstrip]. destruct (is_empty (rstrip y) && is_space c); [discriminate|].
  intros [= E]. exact E.
Qed.

Lemma rstrip_lstrip_fixed (y : string) :
  rstrip y = y -> rstrip (lstrip y) = lstrip y.
Proof.
  induction y as [|c y IH]; intros H; [reflexivity|]. cbn [lstrip].
  destruct (is_space c); [apply IH, (rstrip_fixed_tail c), H | exact H].
Qed.

Lemma strip_idem (s : string) : strip (strip s) = strip s.
Proof.
  unfold strip. rewrite (rstrip_lstrip_fixed (rstrip s) (rstrip_idem s)).
  apply lstrip_idem.
Qed.

Lemma parse_line_text_stripped (cg pt line : string) :
  strip line = line ->
  strip (text (parse_line cg pt line)) = text (parse_line cg pt line).
Proof.
  intros H. unfold parse_line.
  destruct (startswith (lower cg ++ ":") (lower line)); [apply strip_idem|].
  destruct (startswith (lower pt ++ ":") (lower line)); [apply strip_idem|].
  destruct (split_first colon line) as [[part0 part1]|];
    [apply strip_idem | exact H].
Qed.

Lemma nonblank_lines_stripped (transcript line : string) :
  In line (nonblank_lines transcript) -> strip line = line /\ line <> "".
Proof.
  unfold nonblank_lines. intros H. apply filter_In in H.
  destruct H as (H & Hne). apply in_map_iff in H. destruct H as (raw & <- & _).
  split; [apply strip_idem|]. intros E. rewrite E in Hne. discriminate Hne.
Qed.

(** X13: the text of every parsed turn is free of white space at both
    ends, and its lowercased copy is kept beside it. *)
Theorem parsed_turns_are_stripped (transcript cg pt : string) :
  Forall (fun t => strip (text t) = text t /\ text_lower t = lower (text t))
    (_parse_conversation transcript cg pt).
Proof.
  rewrite parse_conversation_map. fold (nonblank_lines transcript).
  apply Forall_forall. intros t Ht. apply in_map_iff in Ht.
  destruct Ht as (line & <- & Hl).
  split; [|apply parse_line_text_lower].
  apply parse_line_text_stripped. apply (nonblank_lines_stripped transcript), Hl.
Qed.

(** X14: when the caregiver's and the patient's names agree up to case,
    a line that starts with the name and a colon is a caregiver turn: the
    patient is never recognised by name. *)
Theorem shared_name_goes_to_caregiver (cg pt line : string) :
  lower cg = lower pt ->
  ci_prefix (pt ++ ":") line ->
  speaker (parse_line cg pt line) = "caregiver".
Proof.
  intros E H. apply name_prefix_iff in H. unfold parse_line.
  rewrite E, H. reflexivity.
Qed.

Lemma shared_name_goes_to_caregiver_witness :
  speaker (parse_line "Sam" "SAM" "sam: I am here.") = "caregiver".
Proof.
  apply shared_name_goes_to_caregiver.
  - reflexivity.
  - exists " i am here.". reflexivity.
Defined.

Lemma split_on_not_nil (sep : ascii) (s : string) : split_on sep s <> [].
Proof.
  destruct s as [|c s]; cbn [split_on]; [discriminate|].
  destruct (Ascii.eqb c sep); [discriminate|].
  destruct (split_on sep s); discriminate.
Qed.

Lemma split_on_app (sep : ascii) (a b : string) :
  split_on sep (a ++ String sep b) = (split_on sep a ++ split_on sep b)%list.
Proof.
  induction a as [|c a IH]; cbn [append split_on].
  - rewrite Ascii.eqb_refl. reflexivity.
  - rewrite IH. destruct (Ascii.eqb c sep); [reflexivity|].
    pose proof (split_on_not_nil sep a) as Hne.
    destruct (split_on sep a); [destruct Hne; reflexivity | reflexivity].
Qed.

Lemma rstrip_cons_space (c : ascii) (h : string) :
  is_space c = true -> lstrip (rstrip (String c h)) = lstrip (rstrip h).
Proof.
  intros Hc. cbn [rstrip]. rewrite Hc, andb_true_r.
  destruct (rstrip h) as [|d r] eqn:E; cbn [is_empty]; [reflexivity|].
  cbn [lstrip]. rewrite Hc. reflexivity.
Qed.

Lemma strip_cons_space (c : ascii) (h : string) :
  is_space c = true -> strip (String c h) = strip h.
Proof. apply rstrip_cons_space. Qed.

Lemma raw_cons_space (c : ascii) (s : string) :
  is_space c = true -> raw_nonblank_lines (String c s) = raw_nonblank_lines s.
Proof.
  intros Hc. unfold raw_nonblank_lines. cbn [split_on].
  destruct (Ascii.eqb c nl); [reflexivity|].
  pose proof (split_on_not_nil nl s) as Hne.
  destruct (split_on nl s) as [|h t]; [destruct Hne; reflexivity|].
  cbn [map]. rewrite (strip_cons_space c h Hc). reflexivity.
Qed.

Lemma raw_lstrip (s : string) :
  raw_nonblank_lines (lstrip s) = raw_nonblank_lines s.
Proof.
  induction s as [|c s IH]; [reflexivity|]. cbn [lstrip].
  destruct (is_space c) eqn:Hc; [|reflexivity].
  rewrite IH. symmetry. apply raw_cons_space, Hc.
Qed.

Lemma all_space_rstrip (w : string) : all_space w = true -> rstrip w = "".
Proof.
  induction w as [|c w IH]; [reflexivity|]. cbn [all_space rstrip].
  intros H. apply andb_true_iff in H. destruct H as (Hc & Hw).
  rewrite (IH Hw), Hc. reflexivity.
Qed.

Lemma raw_all_space (w : string) :
  all_space w = true -> raw_nonblank_lines w = [].
Proof.
  induction w as [|c w IH]; [reflexivity|]. cbn [all_space].
  intros H. apply andb_true_iff in H. destruct H as (Hc & Hw).
  rewrite (raw_cons_space c w Hc). apply IH, Hw.
Qed.

Lemma rstrip_decomposition (s : string) :
  exists w, all_space w = true /\ s = rstrip s ++ w.
Proof.
  induction s as [|c s (w & Hw & E)]; [exists ""; split; reflexivity|].
  cbn [rstrip]. destruct (is_empty (rstrip s) && is_space c) eqn:Ec.
  - apply andb_true_iff in Ec. destruct Ec as (Er & Hc).
    destruct (rstrip s); [|discriminate Er]. cbn [append] in *.
    exists (String c s). split; [|reflexivity].
    cbn [all_space]. rewrite Hc, E. exact Hw.
  - exists w. split; [exact Hw|]. cbn [append]. rewrite <- E. reflexivity.
Qed.

(** The head line and the rest, before and after white space is added at
    the end of the text. *)
Lemma split_on_app_space (w : string) :
  all_space w = true ->
  forall x, exists h t h' t',
    split_on nl x = h :: t
    /\ split_on nl (x ++ w) = h' :: t'
    /\ rstrip h' = rstrip h
    /\ filter nonempty (map strip t') = filter nonempty (map strip t).
Proof.
  intros Hw. induction x as [|c x (h & t & h' & t' & E & E' & Hh & Ht)].
  - cbn [append]. pose proof (split_on_not_nil nl w) as Hne.
    destruct (split_on nl w) as [|h' t'] eqn:Ew; [destruct Hne; reflexivity|].
    exists "", [], h', t'. split; [reflexivity|]. split; [reflexivity|].
    assert (Hall : forall v, all_space v = true ->
              forall a b, split_on nl v = a :: b ->
                          rstrip a = "" /\ filter nonempty (map strip b) = []).
    { clear. induction v as [|c v IH]; intros Hv a b Ev.
      - cbn in Ev. injection Ev as <- <-. split; reflexivity.
      - cbn [all_space] in Hv. apply andb_true_iff in Hv. destruct Hv as (Hc & Hv).
        cbn [split_on] in Ev. pose proof (split_on_not_nil nl v) as Hne.
        destruct (split_on nl v) as [|a0 b0] eqn:E0; [destruct Hne; reflexivity|].
        destruct (IH Hv a0 b0 eq_refl) as (Ha0 & Hb0).
        destruct (Ascii.eqb c nl).
        + injection Ev as <- <-. split; [reflexivity|].
          cbn [map filter].
          assert (Hs : strip a0 = "") by (unfold strip; rewrite Ha0; reflexivity).
          rewrite Hs. exact Hb0.
        + injection Ev as <- <-. split; [|exact Hb0].
          cbn [rstrip]. rewrite Ha0, Hc. reflexivity. }
    apply (Hall w Hw h' t' Ew).
  - cbn [append split_on]. rewrite E, E'.
    destruct (Ascii.eqb c nl).
    + exists "", (h :: t), "", (h' :: t').
      repeat split. cbn [map filter].
      assert (Hs : strip h' = strip h) by (unfold strip; rewrite Hh; reflexivity).
      rewrite Hs, Ht. reflexivity.
    + exists (String c h), t, (String c h'), t'.
      repeat split; [|exact Ht]. cbn [rstrip]. rewrite Hh. reflexivity.
Qed.

Lemma raw_app_space (x w : string) :
  all_space w = true -> raw_nonblank_lines (x ++ w) = raw_nonblank_lines x.
Proof.
  intros Hw.
  destruct (split_on_app_space w Hw x) as (h & t & h' & t' & E & E' & Hh & Ht).
  unfold raw_nonblank_lines. rewrite E, E'. cbn [map filter].
  assert (Hs : strip h' = strip h) by (unfold strip; rewrite Hh; reflexivity).
  rewrite Hs, Ht. reflexivity.
Qed.

(** The strip of the whole transcript changes nothing once every line is
    stripped and the blank ones are dropped. *)
Lemma nonblank_lines_raw (transcript : string) :
  nonblank_lines transcript = raw_nonblank_lines transcript.
Proof.
  unfold nonblank_lines, strip.
  change (filter nonempty (map (fun s => lstrip (rstrip s))
                             (split_on nl (lstrip (rstrip transcript)))))
    with (raw_nonblank_lines (lstrip (rstrip transcript))).
  rewrite raw_lstrip.
  destruct (rstrip_decomposition transcript) as (w & Hw & E).
  rewrite E at 2. symmetry. apply raw_app_space, Hw.
Qed.

(** X15: parsing works line by line: two transcripts joined by a newline
    parse to the turns of the first followed by the turns of the second,
    whatever white space or blank lines surround them. *)
Theorem parse_of_joined_transcripts (a b cg pt : string) :
  _parse_conversation (a ++ String nl b) cg pt
  = (_parse_conversation a cg pt ++ _parse_conversation b cg pt)%list.
Proof.
  rewrite !parse_conversation_map.
  fold (nonblank_lines (a ++ String nl b)) (nonblank_lines a) (nonblank_lines b).
  rewrite !nonblank_lines_raw. unfold raw_nonblank_lines.
  rewrite split_on_app, map_app, filter_app, map_app. reflexivity.
Qed.

Example ex_blank_lines_do_not_count :
  _parse_conversation
    (String nl ("  " ++ String nl ("Ann: Hello" ++ String nl (String nl "  "))))
    "Ann" "Dad"
  = _parse_conversation "Ann: Hello" "Ann" "Dad".
Proof. reflexivity. Qed.

(** ** The training service *)

Lemma analyze_conversation_total (text cg pt stage : string) :
  exists r, analyze_conversation text cg pt stage = Some r
            /\ Training.dementia_stage r = stage
            /\ recommendations r
               = _generate_recommendations (_parse_conversation text cg pt)
                   (principle_scores r) (violations r) stage.
Proof.
  eexists. split; [apply analyze_conversation_report|]. split; reflexivity.
Qed.

(** What a call of the service that returns an analysis went through. *)
Lemma training_session_result_inv
    (db : Service.Db) (now text : string) (cid pid : Z)
    (res : Service.TrainingAnalysis) :
  Service.analyze_training_session db now text cid pid = inr res ->
  exists patient caregiver puser cname cw crest pname pw prest,
    Service.first_patient db pid = Some patient
    /\ Service.first_user db cid = Some caregiver
    /\ Service.full_name caregiver = Some cname
    /\ split_ws cname = cw :: crest
    /\ Service.user patient = Some puser
    /\ Service.full_name puser = Some pname
    /\ split_ws pname = pw :: prest
    /\ analyze_conversation text cw pw
         (match Service.dementia_stage patient with
          | Some stage => Service.stage_value stage
          | None => "moderate"
          end) = Some (Service.analysis res)
    /\ Service.patient_name res = Some pname
    /\ Service.caregiver_name res = Some cname
    /\ Service.analyzed_at res = now.
Proof.
  unfold Service.analyze_training_session.
  destruct (Service.first_patient db pid) as [patient|]; [|discriminate].
  destruct (Service.first_user db cid) as [caregiver|]; [|discriminate].
  unfold Service.first_word.
  destruct (Service.full_name caregiver) as [cname|] eqn:Efc; [|discriminate].
  destruct (split_ws cname) as [|cw crest] eqn:Ec; [discriminate|].
  destruct (Service.user patient) as [puser|] eqn:Eu; [|discriminate].
  destruct (Service.full_name puser) as [pname|] eqn:Efp; [|discriminate].
  destruct (split_ws pname) as [|pw prest] eqn:Ep; [discriminate|].
  destruct (analyze_conversation _ _ _ _) as [r|] eqn:Ea; [|discriminate].
  intros [= <-].
  exists patient, caregiver, puser, cname, cw, crest, pname, pw, prest.
  cbn. repeat split; try reflexivity; assumption.
Qed.

(** X16: the service looks the patient up first: an unknown patient id is
    "Patient not found" whoever the caregiver is, then an unknown caregiver
    id is "Caregiver not found"; it returns an analysis exactly when both
    rows exist, the patient row has a user, and both full names hold a
    word, and the analysis is then that of the transcript under the two
    first names and the stage of the patient, "moderate" when none is
    recorded. *)
Theorem training_session_errors_and_result
    (db : Service.Db) (now text : string) (cid pid : Z) :
  (Service.first_patient db pid = None ->
   Service.analyze_training_session db now text cid pid
   = inl (Service.ValueError "Patient not found"))
  /\ (Service.first_patient db pid <> None ->
      Service.first_user db cid = None ->
      Service.analyze_training_session db now text cid pid
      = inl (Service.ValueError "Caregiver not found"))
  /\ (forall res,
        Service.analyze_training_session db now text cid pid = inr res
        <-> exists patient caregiver puser cname cw crest pname pw prest,
              Service.first_patient db pid = Some patient
              /\ Service.first_user db cid = Some caregiver
              /\ Service.full_name caregiver = Some cname
              /\ split_ws cname = cw :: crest
              /\ Service.user patient = Some puser
              /\ Service.full_name puser = Some pname
              /\ split_ws pname = pw :: prest
              /\ analyze_conversation text cw pw
                   (match Service.dementia_stage patient with
                    | Some stage => Service.stage_value stage
                    | None => "moderate"
                    end) = Some (Service.analysis res)
              /\ Service.patient_name res = Some pname
              /\ Service.caregiver_name res = Some cname
              /\ Service.analyzed_at res = now).
Proof.
  unfold Service.analyze_training_session.
  split; [intros ->; reflexivity|].
  split.
  { intros Hp ->. destruct (Service.first_patient db pid); [reflexivity|].
    destruct Hp; reflexivity. }
  intros res. split.
  - exact (training_session_result_inv db now text cid pid res).
  - intros (patient & caregiver & puser & cname & cw & crest & pname & pw & prest
            & -> & -> & Ec & Ew & Eu & Ep & Epw & Ea & E1 & E2 & E3).
    unfold Service.first_word. rewrite Ec, Ew, Eu, Ep, Epw, Ea.
    destruct res as [a pn cn at_]. cbn in *. subst. reflexivity.
Qed.

Lemma training_session_errors_and_result_witness :
  Service.analyze_training_session
    (Service.mkDb [Service.mkUser 1 (Some "Ann Lee")] []) "2024-01-01T00:00:00"
    "Ann: Hello" 1 7
  = inl (Service.ValueError "Patient not found").
Proof.
  apply (training_session_errors_and_result
           (Service.mkDb [Service.mkUser 1 (Some "Ann Lee")] [])).
  reflexivity.
Defined.

(** X17: through the service only a patient recorded as "moderate", or
    with no stage recorded, gets a stage recommendation (the one of the
    moderate stage); for a patient recorded as "mild" or "severe" the list
    has none, and the recommendations of the early and the late stage are
    never given. *)
Theorem training_session_stage_recommendation
    (db : Service.Db) (now text : string) (cid pid : Z)
    (patient : Service.Patient) (res : Service.TrainingAnalysis) :
  Service.first_patient db pid = Some patient ->
  Service.analyze_training_session db now text cid pid = inr res ->
  let recs := recommendations (Service.analysis res) in
  ~ In early_stage recs
  /\ ~ In late_stage recs
  /\ count_category "stage_specific" recs
     = match Service.dementia_stage patient with
       | Some Service.MILD | Some Service.SEVERE => 0
       | Some Service.MODERATE | None => 1
       end
  /\ (In moderate_stage recs
      <-> Service.dementia_stage patient = Some Service.MODERATE
          \/ Service.dementia_stage patient = None).
Proof.
  intros Hp Hres.
  apply training_session_result_inv in Hres.
  destruct Hres as (patient' & caregiver & puser & cname & cw & crest & pname & pw
                    & prest & Hp' & _ & _ & _ & _ & _ & _ & Ea & _).
  rewrite Hp in Hp'. injection Hp' as <-.
  set (stage := match Service.dementia_stage patient with
                | Some s => Service.stage_value s
                | None => "moderate"
                end) in *.
  destruct (analyze_conversation_total text cw pw stage) as (r & Er & _ & Erec).
  rewrite Er in Ea. injection Ea as <-. cbv zeta. rewrite Erec.
  destruct (generate_recommendations_shape (_parse_conversation text cw pw)
              (principle_scores r) (violations r) stage)
    as (low & Hlow & _ & Hs).
  cbv zeta in Hs. rewrite Hs. clear Hs Erec.
  pose proof (count_category_canned "stage_specific" low Hlow (or_introl eq_refl)) as Cs.
  assert (Hne : forall x, In x low -> x <> early_stage /\ x <> late_stage
                                      /\ x <> moderate_stage).
  { intros x Hx. rewrite Forall_forall in Hlow. specialize (Hlow x Hx).
    destruct (canned_category x Hlow) as (Hc & _).
    repeat split; intros ->; discriminate Hc. }
  assert (Hin : forall (x : Recommendation) front back,
            (forall y, In y front -> y <> x) -> (forall y, In y low -> y <> x) ->
            x <> structure_your_visit ->
            (In x (if is_nil (front ++ low ++ back)%list then [structure_your_visit]
                   else (front ++ low ++ back)%list) <-> In x back)).
  { intros x front back Hf Hl Hx.
    destruct (front ++ low ++ back)%list eqn:E; cbn [is_nil].
    - destruct front; [|discriminate E]. destruct low; [|discriminate E].
      cbn in E. subst back. cbn. split; [intros [H | []]; destruct Hx; symmetry; exact H | tauto].
    - rewrite <- E. rewrite !in_app_iff. split; [|tauto].
      intros [H | [H | H]]; [destruct (Hf x H); reflexivity
                            | destruct (Hl x H); reflexivity | exact H]. }
  assert (Hfront : forall x, x <> stop_testing_memory ->
            forall y, In y (if has_high (violations r) then [stop_testing_memory] else [])
                      -> y <> x).
  { intros x Hx y Hy. destruct (has_high (violations r)); [|destruct Hy].
    destruct Hy as [<- | []]. intros E. apply Hx. symmetry. exact E. }
  assert (Hcount : count_category "stage_specific"
                     (if is_nil ((if has_high (violations r)
                                  then [stop_testing_memory] else [])
                                 ++ low ++ stage_recommendation stage)%list
                      then [structure_your_visit]
                      else ((if has_high (violations r)
                             then [stop_testing_memory] else [])
                            ++ low ++ stage_recommendation stage)%list)
                   = count_category "stage_specific" (stage_recommendation stage)).
  { destruct (has_high (violations r)); cbn [app is_nil].
    - rewrite count_category_cons, count_category_app, Cs. reflexivity.
    - destruct (low ++ stage_recommendation stage)%list eqn:E; cbn [is_nil].
      + destruct low; [|discriminate E]. cbn in E. rewrite E. reflexivity.
      + rewrite <- E, count_category_app, Cs. reflexivity. }
  rewrite Hcount.
  rewrite (Hin early_stage), (Hin late_stage), (Hin moderate_stage);
    try (apply Hfront; discriminate); try discriminate;
    try (intros y Hy; apply (Hne y Hy)).
  subst stage.
  destruct (Service.dementia_stage patient) as [[ | | ]|];
    cbn; repeat split; try tauto; try discriminate;
    try (intros [H | H]; discriminate H);
    try (intros [H | []]; discriminate H);
    try (intros _; left; reflexivity).
Qed.

Lemma training_session_stage_recommendation_witness :
  exists res,
    Service.analyze_training_session
      (Service.mkDb
         [Service.mkUser 1 (Some "Ann Lee"); Service.mkUser 2 (Some "Dad Lee")]
         [Service.mkPatient 7 (Some (Service.mkUser 2 (Some "Dad Lee")))
            (Some Service.SEVERE)])
      "2024-01-01T00:00:00" "Ann: Hello Dad." 1 7 = inr res
    /\ count_category "stage_specific" (recommendations (Service.analysis res)) = 0.
Proof.
  eexists. split; [vm_compute; reflexivity|].
  apply (training_session_stage_recommendation
           (Service.mkDb
              [Service.mkUser 1 (Some "Ann Lee"); Service.mkUser 2 (Some "Dad Lee")]
              [Service.mkPatient 7 (Some (Service.mkUser 2 (Some "Dad Lee")))
                 (Some Service.SEVERE)])
           "2024-01-01T00:00:00" "Ann: Hello Dad." 1 7
           (Service.mkPatient 7 (Some (Service.mkUser 2 (Some "Dad Lee")))
              (Some Service.SEVERE))).
  - reflexivity.
  - vm_compute. reflexivity.
Defined.

(** X18: one stage vocabulary on the training side and another in the
    patient records: the ideal-script route accepts exactly the stages for
    which the recommendation generator has a stage recommendation, always
    with the same script, and of the three recorded stages only "moderate"
    is one of them. *)
Theorem training_stages_and_recorded_stages (stage : string) :
  ((exists script, Routes.get_ideal_script stage = inr script)
   <-> known_stage stage = true)
  /\ (known_stage stage = true <-> stage_recommendation stage <> [])
  /\ (known_stage stage = true -> Routes.get_ideal_script stage = inr IDEAL_SESSION)
  /\ (known_stage stage = false -> Routes.get_ideal_script stage = inl 400)
  /\ (forall s, known_stage (Service.stage_value s) = true <-> s = Service.MODERATE).
Proof.
  unfold Routes.get_ideal_script, Routes.valid_stages, known_stage,
    stage_recommendation, Service.get_ideal_script.
  cbn [existsb]. rewrite orb_false_r.
  destruct (String.eqb stage "early"); destruct (String.eqb stage "moderate");
    destruct (String.eqb stage "late"); cbn [orb negb];
    (split; [split; [intros [script H]; try discriminate H; reflexivity
                    | intros H; try discriminate H; eexists; reflexivity]|]);
    (split; [split; [intros H; try discriminate H; discriminate
                    | intros H; try reflexivity; destruct H; reflexivity]|]);
    (split; [intros H; try discriminate H; reflexivity|]);
    (split; [intros H; try discriminate H; reflexivity|]);
    intros [ | | ]; cbn; split; intros H; try discriminate H; reflexivity.
Qed.

Lemma training_stages_and_recorded_stages_witness :
  Routes.get_ideal_script "severe" = inl 400.
Proof.
  apply (training_stages_and_recorded_stages "severe"). reflexivity.
Defined.

(** ** The safety tool and the text around a keyword *)

Lemma string_app_assoc (a b c : string) : (a ++ b) ++ c = a ++ (b ++ c).
Proof.
  induction a as [|x a IH]; cbn [append]; [reflexivity|]. rewrite IH. reflexivity.
Qed.

Lemma contains_middle (k q : string) : forall p, contains k (p ++ k ++ q) = true.
Proof.
  induction p as [|c p IH]; cbn [append].
  - destruct (k ++ q) eqn:E; cbn [contains].
    + destruct k; [reflexivity | discriminate E].
    + rewrite <- E. replace (startswith k (k ++ q)) with true; [reflexivity|].
      symmetry. apply startswith_iff. exists q. reflexivity.
  - cbn [contains]. rewrite IH. apply orb_true_r.
Qed.

(** [k in s] means that [s] is some text, [k], and some text. *)
Lemma contains_iff (k s : string) :
  contains k s = true <-> exists p q, s = p ++ k ++ q.
Proof.
  split.
  - induction s as [|c s IH]; cbn [contains].
    + rewrite orb_false_r. intros H. apply startswith_iff in H.
      destruct H as (rest & E). exists "", rest. exact E.
    + intros H. apply orb_true_iff in H. destruct H as [H | H].
      * apply startswith_iff in H. destruct H as (rest & E).
        exists "", rest. exact E.
      * destruct (IH H) as (p & q & ->). exists (String c p), q. reflexivity.
  - intros (p & q & ->). apply contains_middle.
Qed.

Lemma contains_between (k s a b : string) :
  contains k s = true -> contains k (a ++ s ++ b) = true.
Proof.
  intros H. apply contains_iff in H. destruct H as (p & q & ->).
  apply contains_iff. exists (a ++ p), (q ++ b).
  rewrite !string_app_assoc. reflexivity.
Qed.

Lemma contains_trans (a b s : string) :
  contains a s = true -> contains b a = true -> contains b s = true.
Proof.
  intros Hs Ha. apply contains_iff in Hs. destruct Hs as (p & q & ->).
  apply contains_between, Ha.
Qed.

Lemma any_in_between (ks : list string) (m a b : string) :
  any_in ks (lower m) = true -> any_in ks (lower (a ++ m ++ b)) = true.
Proof.
  unfold any_in. intros H. apply existsb_exists in H. destruct H as (k & Hk & Hc).
  apply existsb_exists. exists k. split; [exact Hk|].
  rewrite !lower_app. apply contains_between, Hc.
Qed.

(** X19: text added before or after a message never lowers its tier: a
    critical message stays critical inside any longer message, an elevated
    one stays elevated or becomes critical, and so on; the context argument
    plays no part. *)
Theorem safety_tier_only_rises_with_more_text (m a b ctx ctx' : string) :
  tier_rank (Safety.tier_of (Safety._run m ctx))
  <= tier_rank (Safety.tier_of (Safety._run (a ++ m ++ b) ctx')).
Proof.
  unfold Safety._run.
  pose proof (any_in_between Safety.crisis_keywords m a b) as Hc.
  pose proof (any_in_between Safety.distress_keywords m a b) as Hd.
  pose proof (any_in_between Safety.agitation_keywords m a b) as Ha.
  destruct (any_in Safety.crisis_keywords (lower m)).
  { rewrite (Hc eq_refl). vm_compute. lia. }
  destruct (any_in Safety.crisis_keywords (lower (a ++ m ++ b))).
  { split_ifs; vm_compute; lia. }
  destruct (any_in Safety.distress_keywords (lower m)).
  { rewrite (Hd eq_refl). vm_compute. lia. }
  destruct (any_in Safety.distress_keywords (lower (a ++ m ++ b))).
  { split_ifs; vm_compute; lia. }
  destruct (any_in Safety.agitation_keywords (lower m)).
  { rewrite (Ha eq_refl). vm_compute. lia. }
  split_ifs; vm_compute; lia.
Qed.

(** ** The regular-expression matcher *)

Import Regex.

Lemma string_app_nil_r (s : string) : s ++ "" = s.
Proof. induction s as [|c s IH]; cbn [append]; [reflexivity|]. rewrite IH. reflexivity. Qed.

Lemma string_app_eq_nil (s t : string) : s ++ t = "" -> s = "" /\ t = "".
Proof. destruct s; cbn [append]; [tauto | discriminate]. Qed.

Lemma nullable_spec (r : regex) : nullable r = true <-> matches r "".
Proof.
  induction r as [ | | c | | a IHa b IHb | a IHa b IHb | a IHa | a IHa];
    cbn [nullable].
  - split; [discriminate | intros H; inversion H].
  - split; [intros _; constructor | reflexivity].
  - split; [discriminate | intros H; inversion H].
  - split; [discriminate | intros H; inversion H].
  - rewrite andb_true_iff, IHa, IHb. split.
    + intros (Ha & Hb). apply (matches_cat a b "" ""); assumption.
    + intros H. inversion H as [ | | |a' b' s t Hs Ht E1 E2| | | | | | ]. subst.
      apply string_app_eq_nil in E2. destruct E2 as (-> & ->). tauto.
  - rewrite orb_true_iff, IHa, IHb. split.
    + intros [H | H]; [apply matches_alt_l | apply matches_alt_r]; exact H.
    + intros H. inversion H; subst; tauto.
  - split; [intros _; constructor | reflexivity].
  - rewrite IHa. split; [apply matches_plus_one|].
    intros H. remember (Plus a) as r eqn:Er. remember "" as w eqn:Ew.
    induction H as [ | | | | | | | |a' s Hs|a' s t Hs _ Ht IH]; try discriminate Er.
    + injection Er as ->. subst. exact Hs.
    + injection Er as ->. apply string_app_eq_nil in Ew. destruct Ew as (-> & ->).
      exact Hs.
Qed.

Lemma matches_plus_cons (a : regex) (c : ascii) (w : string) :
  matches (Plus a) (String c w) ->
  exists s t, w = s ++ t /\ matches a (String c s) /\ matches (Opt (Plus a)) t.
Proof.
  intros H. remember (Plus a) as r eqn:Er. remember (String c w) as u eqn:Eu.
  revert w Eu.
  induction H as [ | | | | | | | |a' s Hs|a' s t Hs _ Ht IH]; intros w Eu;
    try discriminate Er.
  - injection Er as ->. subst s. exists w, "".
    rewrite string_app_nil_r. repeat split; [exact Hs | constructor].
  - injection Er as ->. destruct s as [|d s]; cbn [append] in Eu.
    + apply (IH eq_refl w Eu).
    + injection Eu as -> <-. exists s, t. repeat split; [exact Hs|].
      apply matches_opt_some, Ht.
Qed.

Lemma deriv_spec (r : regex) :
  forall c s, matches (deriv c r) s <-> matches r (String c s).
Proof.
  induction r as [ | | d | | a IHa b IHb | a IHa b IHb | a IHa | a IHa];
    intros c s; cbn [deriv].
  - split; intros H; inversion H.
  - split; intros H; inversion H.
  - destruct (Ascii.eqb_spec c d) as [-> | Hne].
    + split; intros H; inversion H; subst; constructor.
    + split; intros H; inversion H; subst. destruct Hne; reflexivity.
  - destruct (is_space c) eqn:Hc.
    + split; intros H; inversion H; subst; constructor; exact Hc.
    + split; intros H; inversion H; subst. congruence.
  - assert (Hcat : matches (Cat (deriv c a) b) s
                   <-> exists s1 s2, s = s1 ++ s2 /\ matches a (String c s1)
                                     /\ matches b s2).
    { split.
      - intros H. inversion H as [ | | |a' b' s1 s2 H1 H2 E1 E2| | | | | | ]. subst.
        exists s1, s2. rewrite <- IHa. tauto.
      - intros (s1 & s2 & -> & H1 & H2). constructor; [apply IHa, H1 | exact H2]. }
    assert (Hsplit : matches (Cat a b) (String c s)
                     <-> (exists s1 s2, s = s1 ++ s2 /\ matches a (String c s1)
                                        /\ matches b s2)
                         \/ (matches a "" /\ matches b (String c s))).
    { split.
      - intros H. inversion H as [ | | |a' b' s1 s2 H1 H2 E1 E2| | | | | | ]. subst.
        destruct s1 as [|d s1]; cbn [append] in E2.
        + subst s2. right. tauto.
        + injection E2 as -> <-. left. exists s1, s2. tauto.
      - intros [(s1 & s2 & -> & H1 & H2) | (H1 & H2)].
        + apply (matches_cat a b (String c s1) s2); assumption.
        + apply (matches_cat a b "" (String c s)); assumption. }
    rewrite Hsplit. destruct (nullable a) eqn:Na.
    + split.
      * intros H. inversion H; subst.
        -- left. apply Hcat. assumption.
        -- right. split; [apply nullable_spec, Na | apply IHb; assumption].
      * intros [H | (_ & H)].
        -- apply matches_alt_l, Hcat, H.
        -- apply matches_alt_r, IHb, H.
    + rewrite Hcat. split; [tauto|]. intros [H | (H & _)]; [exact H|].
      apply nullable_spec in H. congruence.
  - split.
    + intros H. inversion H; subst;
        [apply matches_alt_l, IHa | apply matches_alt_r, IHb]; assumption.
    + intros H. inversion H; subst;
        [apply matches_alt_l, IHa | apply matches_alt_r, IHb]; assumption.
  - rewrite IHa. split; [apply matches_opt_some|]. intros H. inversion H. assumption.
  - split.
    + intros H. inversion H as [ | | |a' b' s1 s2 H1 H2 E1 E2| | | | | | ]. subst.
      apply IHa in H1. inversion H2; subst.
      * rewrite string_app_nil_r. apply matches_plus_one, H1.
      * apply (matches_plus_more a (String c s1) s2); assumption.
    + intros H. destruct (matches_plus_cons a c s H) as (s1 & s2 & -> & H1 & H2).
      constructor; [apply IHa, H1 | exact H2].
Qed.

Lemma match_prefix_spec (s : string) :
  forall r, match_prefix r s = true <-> exists p q, s = p ++ q /\ matches r p.
Proof.
  induction s as [|c s IH]; intros r; cbn [match_prefix].
  - rewrite orb_false_r, nullable_spec. split.
    + intros H. exists "", "". split; [reflexivity | exact H].
    + intros (p & q & E & H). symmetry in E. apply string_app_eq_nil in E.
      destruct E as (-> & _). exact H.
  - rewrite orb_true_iff, nullable_spec, IH. split.
    + intros [H | (p & q & -> & H)].
      * exists "", (String c s). split; [reflexivity | exact H].
      * exists (String c p), q. split; [reflexivity | apply deriv_spec, H].
    + intros (p & q & E & H). destruct p as [|d p]; cbn [append] in E.
      * left. exact H.
      * injection E as <- ->. right. exists p, q.
        split; [reflexivity | apply deriv_spec, H].
Qed.

(** The matcher is [re.search]: it says yes exactly when some part of
    the text is matched by the pattern. *)
Lemma search_spec (r : regex) (s : string) :
  search r s = true <-> exists a p b, s = a ++ p ++ b /\ matches r p.
Proof.
  induction s as [|c s IH]; cbn [search].
  - rewrite orb_false_r, match_prefix_spec. split.
    + intros (p & q & E & H). exists "", p, q. tauto.
    + intros (a & p & b & E & H). symmetry in E. apply string_app_eq_nil in E.
      destruct E as (-> & E). exists p, b. split; [symmetry; exact E | exact H].
  - rewrite orb_true_iff, match_prefix_spec, IH. split.
    + intros [(p & q & E & H) | (a & p & b & -> & H)].
      * exists "", p, q. tauto.
      * exists (String c a), p, b. tauto.
    + intros (a & p & b & E & H). destruct a as [|d a]; cbn [append] in E.
      * left. exists p, b. tauto.
      * injection E as <- ->. right. exists a, p, b. tauto.
Qed.

Lemma matches_lit (s : string) : matches (lit s) s.
Proof.
  induction s as [|c s IH]; cbn [lit]; [constructor|].
  apply (matches_cat (Chr c) (lit s) (String c "") s); [constructor | exact IH].
Qed.

Lemma matches_spaces (w : string) :
  w <> "" -> all_space w = true -> matches (Plus Space) w.
Proof.
  induction w as [|c w IH]; intros Hne Hw; [destruct Hne; reflexivity|].
  cbn [all_space] in Hw. apply andb_true_iff in Hw. destruct Hw as (Hc & Hw).
  destruct w as [|d w].
  - apply matches_plus_one. constructor. exact Hc.
  - apply (matches_plus_more Space (String c "") (String d w)).
    + constructor. exact Hc.
    + apply IH; [discriminate | exact Hw].
Qed.

(** ** The keyword detectors of the safety monitor *)

Lemma collect_keywords_filter (keywords : list string) (ml : string) :
  forall found,
    Monitor.collect_keywords keywords ml found
    = (found ++ filter (fun k => contains (lower k) ml) keywords)%list.
Proof.
  induction keywords as [|k rest IH]; intros found;
    cbn [Monitor.collect_keywords filter].
  - rewrite app_nil_r. reflexivity.
  - destruct (contains (lower k) ml); [|apply IH].
    rewrite IH, <- app_assoc. reflexivity.
Qed.

Lemma detected_iff (keywords : list string) (ml : string) :
  (0 <? List.length (filter (fun k => contains (lower k) ml) keywords)) = true
  <-> exists k, In k keywords /\ contains (lower k) ml = true.
Proof.
  split.
  - intros H. destruct (filter _ keywords) as [|k l] eqn:E; [discriminate H|].
    exists k. apply (proj1 (filter_In (fun k => contains (lower k) ml) k keywords)).
    rewrite E. left. reflexivity.
  - intros (k & Hk & Hc).
    assert (Hin : In k (filter (fun k => contains (lower k) ml) keywords))
      by (apply filter_In; split; assumption).
    destruct (filter _ keywords); [destruct Hin | reflexivity].
Qed.

(** X20: both keyword detectors return the configured keywords that
    occur in the message, in the configured order, comparing keyword and
    message in lower case; the flag is set exactly when some configured
    keyword occurs. *)
Theorem monitor_detectors_filter_the_configured_keywords
    (settings : Monitor.Settings) (message : string) :
  let occurs := fun k => contains (lower k) (lower message) in
  snd (Monitor._detect_crisis settings message)
  = filter occurs (Monitor.crisis_keywords_list settings)
  /\ snd (Monitor._detect_distress settings message)
     = filter occurs (Monitor.distress_keywords_list settings)
  /\ (fst (Monitor._detect_crisis settings message) = true
      <-> exists k, In k (Monitor.crisis_keywords_list settings) /\ occurs k = true)
  /\ (fst (Monitor._detect_distress settings message) = true
      <-> exists k, In k (Monitor.distress_keywords_list settings)
                    /\ occurs k = true).
Proof.
  cbv zeta. unfold Monitor._detect_crisis, Monitor._detect_distress.
  cbn [fst snd]. rewrite !collect_keywords_filter. cbn [app].
  split; [reflexivity|]. split; [reflexivity|]. split; apply detected_iff.
Qed.

(** X21: with the default settings, every message in which the monitor
    detects a crisis is classified critical by the safety tool; the tool
    is the wider net, "I would rather die" is critical for the tool and no
    crisis for the monitor. *)
Theorem monitor_crisis_is_tool_critical (message ctx : string) :
  (fst (Monitor._detect_crisis Monitor.default_settings message) = true ->
   Safety.tier_of (Safety._run message ctx) = Some Safety.critical)
  /\ (fst (Monitor._detect_crisis Monitor.default_settings "I would rather die")
      = false
      /\ Safety.tier_of (Safety._run "I would rather die" ctx)
         = Some Safety.critical).
Proof.
  split; [|split; vm_compute; reflexivity].
  unfold Monitor._detect_crisis. cbn [fst].
  rewrite collect_keywords_filter. cbn [app]. intros H.
  apply detected_iff in H. destruct H as (k & Hk & Hc).
  assert (Hany : any_in Safety.crisis_keywords (lower message) = true).
  { unfold any_in. apply existsb_exists.
    cbn [Monitor.default_settings Monitor.crisis_keywords_list In] in Hk.
    destruct Hk as [<- | [<- | [<- | [<- | [<- | []]]]]].
    - exists "suicide". split; [cbn; tauto | exact Hc].
    - exists "kill". split; [cbn; tauto|].
      apply (contains_trans _ _ _ Hc). reflexivity.
    - exists "end it all". split; [cbn; tauto | exact Hc].
    - exists "want to die". split; [cbn; tauto | exact Hc].
    - exists "hurt myself". split; [cbn; tauto | exact Hc]. }
  rewrite (any_in_true_run_critical message ctx Hany). vm_compute. reflexivity.
Qed.

Lemma monitor_crisis_is_tool_critical_witness :
  Safety.tier_of (Safety._run "I will KILL myself" "") = Some Safety.critical.
Proof.
  apply (proj1 (monitor_crisis_is_tool_critical "I will KILL myself" "")).
  vm_compute. reflexivity.
Defined.

(** ** The confusion patterns *)

Lemma lower_char_idem (c : ascii) : lower_char (lower_char c) = lower_char c.
Proof.
  destruct c as [[|] [|] [|] [|] [|] [|] [|] [|]]; vm_compute; reflexivity.
Qed.

Lemma lower_idem (s : string) : lower (lower s) = lower s.
Proof.
  induction s as [|c s IH]; cbn [lower]; [reflexivity|].
  rewrite lower_char_idem, IH. reflexivity.
Qed.

Lemma search_between (r : regex) (s a b : string) :
  search r s = true -> search r (a ++ s ++ b) = true.
Proof.
  intros H. apply search_spec in H. destruct H as (a' & p & b' & -> & H).
  apply search_spec. exists (a ++ a'), p, (b' ++ b).
  rewrite !string_app_assoc. tauto.
Qed.

(** X22: the confusion detector finds a pattern wherever it stands: a
    message that matches still matches inside any longer message, and
    upper or lower case makes no difference. *)
Theorem confusion_survives_context_and_case (m a b : string) :
  (Monitor._detect_confusion_patterns m = true ->
   Monitor._detect_confusion_patterns (a ++ m ++ b) = true)
  /\ Monitor._detect_confusion_patterns (lower m)
     = Monitor._detect_confusion_patterns m.
Proof.
  unfold Monitor._detect_confusion_patterns. split.
  - intros H. apply existsb_exists in H. destruct H as (r & Hr & Hs).
    apply existsb_exists. exists r. split; [exact Hr|].
    rewrite !lower_app. apply search_between, Hs.
  - rewrite lower_idem. reflexivity.
Qed.

Lemma confusion_survives_context_and_case_witness :
  Monitor._detect_confusion_patterns ("Tell me, " ++ "who are you" ++ "?") = true.
Proof.
  apply (proj1 (confusion_survives_context_and_case "who are you" "Tell me, " "?")).
  vm_compute. reflexivity.
Defined.

(** X23: the words of the pattern "who are you" may be separated by any
    white space, of any length: a message whose lower-case text holds
    "who", white space, "are", white space, "you" is a confusion message;
    without white space between the words it is not. *)
Theorem confusion_who_are_you_any_spacing (m a b w1 w2 : string) :
  lower m = a ++ "who" ++ w1 ++ "are" ++ w2 ++ "you" ++ b ->
  w1 <> "" -> all_space w1 = true ->
  w2 <> "" -> all_space w2 = true ->
  Monitor._detect_confusion_patterns m = true
  /\ Monitor._detect_confusion_patterns "whoareyou" = false.
Proof.
  intros E N1 H1 N2 H2. split; [|vm_compute; reflexivity].
  unfold Monitor._detect_confusion_patterns. apply existsb_exists.
  exists (Cat (lit "who") (Cat Monitor.spaces
            (Cat (lit "are") (Cat Monitor.spaces (lit "you"))))).
  split; [cbn; tauto|].
  apply search_spec. exists a, ("who" ++ w1 ++ "are" ++ w2 ++ "you"), b.
  split.
  - rewrite E, !string_app_assoc. reflexivity.
  - apply matches_cat; [apply matches_lit|].
    apply matches_cat; [apply matches_spaces; assumption|].
    apply matches_cat; [apply matches_lit|].
    apply matches_cat; [apply matches_spaces; assumption | apply matches_lit].
Qed.

Lemma confusion_who_are_you_any_spacing_witness :
  Monitor._detect_confusion_patterns ("WHO  are" ++ String nl "you?") = true.
Proof.
  apply (confusion_who_are_you_any_spacing ("WHO  are" ++ String nl "you?")
           "" "?" "  " (String nl "")); try discriminate; reflexivity.
Defined.

(** ** Alerts of the safety monitor *)

(** X24: [analyze_message] raises an alert for a crisis keyword, else for
    a distress keyword, and for nothing else: a message without such
    keywords leaves the database as it was and asks for no action, also
    when it shows a confusion pattern.  Crisis comes first when both kinds
    of keyword occur, and both kinds of alert are of CRITICAL severity. *)
Theorem analyze_message_outcome
    (world : Alerts.World) (now : Alerts.Time) (settings : Monitor.Settings)
    (db : Alerts.Db) (pid cid : Z) (message : string) :
  let result := Alerts.analyze_message world now settings db pid message cid in
  let crisis := fst (Monitor._detect_crisis settings message) in
  let distress := fst (Monitor._detect_distress settings message) in
  (crisis = true ->
   exists a, result = ((true, Some a), Alerts.db_add db a)
             /\ Alerts.alert_type a = "crisis"
             /\ Alerts.severity a = Alerts.CRITICAL)
  /\ (crisis = false -> distress = true ->
      exists a, result = ((true, Some a), Alerts.db_add db a)
                /\ Alerts.alert_type a = "distress"
                /\ Alerts.severity a = Alerts.CRITICAL)
  /\ (crisis = false -> distress = false -> result = ((false, None), db)).
Proof.
  cbv zeta. unfold Alerts.analyze_message.
  destruct (Monitor._detect_crisis settings message) as [c ck].
  destruct (Monitor._detect_distress settings message) as [d dk].
  cbn [fst]. split; [|split].
  - intros ->. eexists. split; [reflexivity|]. split; reflexivity.
  - intros -> ->. eexists. split; [reflexivity|]. split; reflexivity.
  - intros -> ->. reflexivity.
Qed.

Lemma analyze_message_outcome_witness :
  Monitor._detect_confusion_patterns "Who are you? Where am I?" = true
  /\ Alerts.analyze_message
       (Alerts.mkWorld (fun _ _ => true) (fun _ _ _ => true) (fun _ => "") (fun _ => ""))
       0%Z Monitor.default_settings (Alerts.mkDb [] [] [] []) 7
       "Who are you? Where am I?" 3
     = ((false, None), Alerts.mkDb [] [] [] []).
Proof.
  split; [vm_compute; reflexivity|].
  apply (analyze_message_outcome
           (Alerts.mkWorld (fun _ _ => true) (fun _ _ _ => true)
              (fun _ => "") (fun _ => ""))
           0%Z Monitor.default_settings (Alerts.mkDb [] [] [] []) 7 3
           "Who are you? Where am I?"); vm_compute; reflexivity.
Defined.

Lemma take_prefix (n : nat) (s : string) : exists rest, s = take n s ++ rest.
Proof.
  revert s. induction n as [|n IH]; intros s.
  - exists s. destruct s; reflexivity.
  - destruct s as [|c s]; [exists ""; reflexivity|].
    destruct (IH s) as (rest & E). exists rest. cbn [take append].
    rewrite <- E. reflexivity.
Qed.

(** X25: the alert [analyze_message] returns is the one row it adds to
    the alert table, and nothing else in the database changes.  The alert
    carries the patient and the conversation, is unresolved, quotes at most
    the first 500 characters of the message, and its description ends with
    the detected keywords of its kind, joined by commas. *)
Theorem analyze_message_alert_row
    (world : Alerts.World) (now : Alerts.Time) (settings : Monitor.Settings)
    (db db' : Alerts.Db) (pid cid : Z) (message : string)
    (action : bool) (a : Alerts.SafetyAlert) :
  Alerts.analyze_message world now settings db pid message cid
  = ((action, Some a), db') ->
  action = true
  /\ Alerts.safety_alerts db' = (Alerts.safety_alerts db ++ [a])%list
  /\ Alerts.users db' = Alerts.users db
  /\ Alerts.relationships db' = Alerts.relationships db
  /\ Alerts.conversations db' = Alerts.conversations db
  /\ Alerts.patient_id a = pid
  /\ Alerts.conversation_id a = Some cid
  /\ Alerts.resolved_at a = None
  /\ Alerts.created_at a = now
  /\ Alerts.trigger_text a = Some (take 500 message)
  /\ length (take 500 message) <= 500
  /\ (exists rest, message = take 500 message ++ rest)
  /\ (exists intro,
        Alerts.description a
        = intro ++ String.concat ", "
                     (snd (if fst (Monitor._detect_crisis settings message)
                           then Monitor._detect_crisis settings message
                           else Monitor._detect_distress settings message))).
Proof.
  unfold Alerts.analyze_message, Alerts._create_crisis_alert,
    Alerts._create_distress_alert.
  destruct (Monitor._detect_crisis settings message) as [c ck].
  destruct (Monitor._detect_distress settings message) as [d dk].
  cbn [fst snd].
  assert (Hlen := take_length 500 message).
  assert (Hpre := take_prefix 500 message).
  generalize dependent (take 500 message). intros quoted Hlen Hpre.
  destruct c; [|destruct d]; cbn; intros [= <- <- <-]; cbn;
    repeat (split; [reflexivity|]);
    (split; [exact Hlen|]); (split; [exact Hpre|]);
    first
      [ exists "Patient used concerning language that may indicate suicide risk or self-harm. Keywords: ";
        reflexivity
      | exists "Patient reported distress or potential injury. Keywords: ";
        reflexivity ].
Qed.

Lemma analyze_message_alert_row_witness :
  exists a db',
    Alerts.analyze_message
      (Alerts.mkWorld (fun _ _ => true) (fun _ _ _ => true) (fun _ => "") (fun _ => ""))
      0%Z Monitor.default_settings (Alerts.mkDb [] [] [] []) 7
      "I fell and I am scared" 3 = ((true, Some a), db')
    /\ Alerts.safety_alerts db' = [a]
    /\ Alerts.alert_type a = "distress".
Proof.
  eexists. eexists. split; [vm_compute; reflexivity|].
  split; [|reflexivity].
  apply (analyze_message_alert_row
           (Alerts.mkWorld (fun _ _ => true) (fun _ _ _ => true)
              (fun _ => "") (fun _ => ""))
           0%Z Monitor.default_settings (Alerts.mkDb [] [] [] []) _ 7 3
           "I fell and I am scared" true).
  vm_compute. reflexivity.
Defined.


(** ** Notifications and inactivity *)

Import AlertNotions.

Lemma relationships_of_In (db : Alerts.Db) (pid : Z) (rel : Alerts.Relationship) :
  In rel (Alerts.relationships_of db pid)
  <-> In rel (Alerts.relationships db) /\ Alerts.r_patient_id rel = pid.
Proof.
  unfold Alerts.relationships_of. rewrite filter_In, Z.eqb_eq. tauto.
Qed.

Lemma emergency_loop_records (world : Alerts.World) (now : Alerts.Time)
    (db : Alerts.Db) (pid : Z) (alert : Alerts.SafetyAlert)
    (rels : list Alerts.Relationship) :
  (forall rel, In rel rels ->
     In rel (Alerts.relationships db) /\ Alerts.r_patient_id rel = pid) ->
  forall acc,
  exists l,
    Alerts.emergency_loop world now db alert rels acc = (acc ++ l)%list
    /\ Forall (emergency_record world db pid now) l
    /\ List.length l <= 2 * List.length rels.
Proof.
  induction rels as [|rel rest IH]; intros Hrels acc.
  - exists []. cbn. rewrite app_nil_r. repeat split; [constructor | lia].
  - assert (Hrest : forall r, In r rest ->
              In r (Alerts.relationships db) /\ Alerts.r_patient_id r = pid)
      by (intros r Hr; apply Hrels; right; exact Hr).
    destruct (Hrels rel (or_introl eq_refl)) as [Hin Hpid].
    cbn [Alerts.emergency_loop].
    destruct (Alerts.first_user db (Alerts.caregiver_id rel)) as [c|] eqn:Eu.
    + set (sms :=
             Alerts.mkNotification "sms" (Alerts.email c) (Alerts.isoformat world now)).
      set (mail :=
             Alerts.mkNotification "email" (Alerts.email c) (Alerts.isoformat world now)).
      assert (Hsms : forall text,
                Alerts.emergency_contact rel = true ->
                Alerts.truthy (Alerts.phone_number c) = true ->
                Alerts.send_sms world
                  (Alerts.str_or_none (Alerts.phone_number c)) text = true ->
                emergency_record world db pid now sms).
      { intros text He Hp Hs. exists rel, c.
        repeat (split; [first [assumption | reflexivity]|]).
        left. repeat (split; [first [assumption | reflexivity]|]).
        exists text. exact Hs. }
      assert (Hmail : forall subject body,
                Alerts.send_email world (Alerts.email c) subject body = true ->
                emergency_record world db pid now mail).
      { intros subject body Hs. exists rel, c.
        repeat (split; [first [assumption | reflexivity]|]).
        right. split; [reflexivity|]. exists subject, body. exact Hs. }
      destruct (Alerts.emergency_contact rel) eqn:Ec;
        destruct (Alerts.truthy (Alerts.phone_number c)) eqn:Ep;
        cbn [andb];
        try (destruct (Alerts.send_sms world _ _) eqn:Es);
        destruct (Alerts.send_email world _ _ _) eqn:Em;
        match goal with
        | |- context [Alerts.emergency_loop _ _ _ _ rest ?acc'] =>
            destruct (IH Hrest acc') as (l & -> & Hl & Hn)
        end;
        repeat rewrite <- app_assoc; cbn [app];
        eexists; (split; [reflexivity|]);
        (split;
         [ repeat (constructor; [solve [eapply Hsms; eauto | eapply Hmail; eauto]|]);
           exact Hl
         | cbn [List.length]; lia ]).
    + destruct (IH Hrest acc) as (l & -> & Hl & Hn).
      exists l. repeat split; [exact Hl | cbn [List.length]; lia].
Qed.

Lemma emergency_loop_email (world : Alerts.World) (now : Alerts.Time)
    (db : Alerts.Db) (alert : Alerts.SafetyAlert)
    (rels : list Alerts.Relationship) (rel : Alerts.Relationship)
    (c : Alerts.User) :
  In rel rels ->
  Alerts.first_user db (Alerts.caregiver_id rel) = Some c ->
  Alerts.send_email world (Alerts.email c)
    ("URGENT ALERT: " ++ Alerts.title alert)
    (Alerts._format_alert_email world alert (Alerts.full_name c)) = true ->
  forall acc,
  In (Alerts.mkNotification "email" (Alerts.email c) (Alerts.isoformat world now))
     (Alerts.emergency_loop world now db alert rels acc).
Proof.
  assert (Hkeep : forall rs acc n,
            In n acc -> In n (Alerts.emergency_loop world now db alert rs acc)).
  { induction rs as [|r rs IH]; intros acc n Hn; [exact Hn|].
    cbn [Alerts.emergency_loop].
    destruct (Alerts.first_user db (Alerts.caregiver_id r)) as [u|]; [|auto].
    apply IH.
    destruct (Alerts.send_email world _ _ _);
      destruct (Alerts.emergency_contact r && Alerts.truthy (Alerts.phone_number u));
      try destruct (Alerts.send_sms world _ _);
      repeat (apply in_or_app; left); exact Hn. }
  intros Hin Hu Hs.
  induction rels as [|r rs IH]; intros acc; [destruct Hin|].
  destruct Hin as [->|Hin].
  - cbn [Alerts.emergency_loop]. rewrite Hu, Hs.
    apply Hkeep. apply in_or_app. right. left. reflexivity.
  - cbn [Alerts.emergency_loop].
    destruct (Alerts.first_user db (Alerts.caregiver_id r)); apply (IH Hin).
Qed.

(** X26 (safety_monitor.py, _send_emergency_notifications): the alert
    gets a list of notification records, at most two for each
    relationship of the patient.  Every record names a caregiver who
    exists and is related to the patient; a text message is recorded only
    for an emergency contact with a phone number, and no record is kept of
    a message whose sending failed.  Every related caregiver whose urgent
    email went out has an email record. *)
Theorem emergency_notifications_accounted_for (world : Alerts.World)
    (now : Alerts.Time) (db : Alerts.Db) (pid : Z) (alert : Alerts.SafetyAlert) :
  exists sent,
    Alerts.notifications_sent
      (Alerts._send_emergency_notifications world now db pid alert) = Some sent
    /\ Forall (emergency_record world db pid now) sent
    /\ List.length sent <= 2 * List.length (Alerts.relationships_of db pid)
    /\ (forall rel c,
          In rel (Alerts.relationships db) ->
          Alerts.r_patient_id rel = pid ->
          Alerts.first_user db (Alerts.caregiver_id rel) = Some c ->
          Alerts.send_email world (Alerts.email c)
            ("URGENT ALERT: " ++ Alerts.title alert)
            (Alerts._format_alert_email world alert (Alerts.full_name c)) = true ->
          In (Alerts.mkNotification "email" (Alerts.email c)
                (Alerts.isoformat world now)) sent).
Proof.
  unfold Alerts._send_emergency_notifications, Alerts.with_notifications.
  cbn [Alerts.notifications_sent].
  eexists. split; [reflexivity|].
  destruct (emergency_loop_records world now db pid alert
              (Alerts.relationships_of db pid)
              (fun rel H => proj1 (relationships_of_In db pid rel) H) [])
    as (l & E & Hl & Hn).
  cbn [app] in E. rewrite E.
  split; [exact Hl|]. split; [exact Hn|].
  intros rel c Hin Hpid Hu Hs. rewrite <- E.
  apply (emergency_loop_email world now db alert _ rel c); try assumption.
  apply relationships_of_In. split; assumption.
Qed.

Lemma emergency_notifications_accounted_for_witness :
  exists sent,
    Alerts.notifications_sent
      (Alerts._send_emergency_notifications
         (Alerts.mkWorld (fun _ _ => false) (fun _ _ _ => true)
            (fun _ => "t") (fun _ => "t"))
         0%Z
         (Alerts.mkDb
            [Alerts.mkUser 1 "ann@example.org" (Some "Ann") (Some "555")]
            [Alerts.mkRelationship 1 7 true] [] [])
         7%Z
         (Alerts.mkAlert 7 "crisis" Alerts.CRITICAL "Crisis Language Detected"
            "d" None None None None 0%Z)) = Some sent
    /\ In (Alerts.mkNotification "email" "ann@example.org" "t") sent.
Proof.
  destruct (emergency_notifications_accounted_for
              (Alerts.mkWorld (fun _ _ => false) (fun _ _ _ => true)
                 (fun _ => "t") (fun _ => "t"))
              0%Z
              (Alerts.mkDb
                 [Alerts.mkUser 1 "ann@example.org" (Some "Ann") (Some "555")]
                 [Alerts.mkRelationship 1 7 true] [] [])
              7%Z
              (Alerts.mkAlert 7 "crisis" Alerts.CRITICAL "Crisis Language Detected"
                 "d" None None None None 0%Z))
    as (sent & H1 & _ & _ & H4).
  exists sent. split; [exact H1|].
  apply (H4 (Alerts.mkRelationship 1 7 true)
            (Alerts.mkUser 1 "ann@example.org" (Some "Ann") (Some "555")));
    [left; reflexivity | reflexivity | reflexivity | reflexivity].
Defined.

Lemma last_start_fold (pid : Z) (cs : list Alerts.Conversation) :
  forall best,
  match
    fold_left
      (fun best c =>
         if Z.eqb (Alerts.c_patient_id c) pid then
           match best with
           | None => Some (Alerts.start_time c)
           | Some t => Some (Z.max t (Alerts.start_time c))
           end
         else best)
      cs best
  with
  | None =>
      best = None
      /\ forall c, In c cs -> Alerts.c_patient_id c <> pid
  | Some t =>
      (best = Some t
       \/ exists c, In c cs /\ Alerts.c_patient_id c = pid /\ Alerts.start_time c = t)
      /\ (forall b, best = Some b -> (b <= t)%Z)
      /\ (forall c, In c cs -> Alerts.c_patient_id c = pid ->
            (Alerts.start_time c <= t)%Z)
  end.
Proof.
  induction cs as [|c cs IH]; intros best.
  - cbn. destruct best as [b|].
    + split; [left; reflexivity|]. split; [intros ? [= ->]; lia|]. intros ? [].
    + split; [reflexivity|]. intros ? [].
  - cbn [fold_left].
    destruct (Z.eqb_spec (Alerts.c_patient_id c) pid) as [Ec|Ec].
    + match goal with
      | |- context [fold_left _ cs ?b'] => specialize (IH b'); set (b0 := b') in *
      end.
      destruct (fold_left _ cs b0) as [t|].
      * destruct IH as (Hsrc & Hb & Hall).
        assert (Hc : (Alerts.start_time c <= t)%Z
                     /\ forall b, best = Some b -> (b <= t)%Z).
        { subst b0. destruct best as [b|].
          - specialize (Hb _ eq_refl). split; [lia|]. intros ? [= <-]. lia.
          - specialize (Hb _ eq_refl). split; [lia|]. intros ? [=]. }
        destruct Hc as [Hc Hbest].
        split; [|split].
        -- destruct Hsrc as [Hsrc|(c' & Hin & Hp & Ht)].
           ++ subst b0. destruct best as [b|].
              ** injection Hsrc as Hsrc.
                 destruct (Z.max_spec b (Alerts.start_time c)) as [[_ Hm]|[_ Hm]].
                 --- right. exists c. split; [left; reflexivity|].
                     split; [exact Ec | lia].
                 --- left. f_equal. lia.
              ** injection Hsrc as Hsrc. right. exists c.
                 split; [left; reflexivity|]. split; [exact Ec | exact Hsrc].
           ++ right. exists c'. split; [right; exact Hin|]. split; assumption.
        -- exact Hbest.
        -- intros c' [<-|Hin] Hp; [exact Hc | apply Hall; assumption].
      * destruct IH as [Hnone _]. subst b0. destruct best; discriminate.
    + specialize (IH best).
      destruct (fold_left _ cs best) as [t|].
      * destruct IH as (Hsrc & Hb & Hall).
        split; [|split].
        -- destruct Hsrc as [Hsrc|(c' & Hin & Hp & Ht)]; [left; exact Hsrc|].
           right. exists c'. split; [right; exact Hin|]. split; assumption.
        -- exact Hb.
        -- intros c' [<-|Hin] Hp; [contradiction | apply Hall; assumption].
      * destruct IH as [Hnone Hall]. split; [exact Hnone|].
        intros c' [<-|Hin]; [exact Ec | apply Hall; exact Hin].
Qed.

Lemma last_start_none (db : Alerts.Db) (pid : Z) :
  Alerts.last_start db pid = None -> ~ has_conversation db pid.
Proof.
  unfold Alerts.last_start. intros E (c & Hin & Hp).
  pose proof (last_start_fold pid (Alerts.conversations db) None) as H.
  rewrite E in H. destruct H as [_ H]. exact (H c Hin Hp).
Qed.

Lemma last_start_some (db : Alerts.Db) (pid : Z) (t : Alerts.Time) :
  Alerts.last_start db pid = Some t ->
  (exists c, In c (Alerts.conversations db)
             /\ Alerts.c_patient_id c = pid /\ Alerts.start_time c = t)
  /\ forall c, In c (Alerts.conversations db) -> Alerts.c_patient_id c = pid ->
       (Alerts.start_time c <= t)%Z.
Proof.
  unfold Alerts.last_start. intros E.
  pose proof (last_start_fold pid (Alerts.conversations db) None) as H.
  rewrite E in H. destruct H as ([H|H] & _ & Hall); [discriminate|].
  split; [exact H | exact Hall].
Qed.

Lemma over_threshold (limit : Z) (now start : Alerts.Time) :
  Training.Qltb (inject_Z limit) (Alerts.hours_between now start) = true
  <-> (limit * hour < now - start)%Z.
Proof.
  unfold Training.Qltb. rewrite negb_true_iff, <- not_true_iff_false, Qle_bool_iff.
  unfold Alerts.hours_between, hour, Qle, Qdiv, Qmult, Qinv, inject_Z. cbn.
  lia.
Qed.

Lemma is_open_inactivity_iff (pid : Z) (start : Alerts.Time) (e : Alerts.SafetyAlert) :
  Alerts.is_open_inactivity pid start e = true
  <-> Alerts.patient_id e = pid
      /\ Alerts.alert_type e = "inactivity"
      /\ Alerts.resolved_at e = None
      /\ (start < Alerts.created_at e)%Z.
Proof.
  unfold Alerts.is_open_inactivity.
  rewrite !andb_true_iff, Z.eqb_eq, String.eqb_eq, Z.ltb_lt.
  destruct (Alerts.resolved_at e); intuition congruence.
Qed.

Lemma inactivity_loop_records (world : Alerts.World) (now : Alerts.Time)
    (db : Alerts.Db) (pid : Z) (alert : Alerts.SafetyAlert) (hours : Z)
    (rels : list Alerts.Relationship) :
  (forall rel, In rel rels ->
     In rel (Alerts.relationships db) /\ Alerts.r_patient_id rel = pid) ->
  forall acc,
  exists l,
    Alerts.inactivity_loop world now db alert hours rels acc = (acc ++ l)%list
    /\ Forall (inactivity_record world db pid now) l.
Proof.
  induction rels as [|rel rest IH]; intros Hrels acc.
  - exists []. cbn. rewrite app_nil_r. split; [reflexivity | constructor].
  - assert (Hrest : forall r, In r rest ->
              In r (Alerts.relationships db) /\ Alerts.r_patient_id r = pid)
      by (intros r Hr; apply Hrels; right; exact Hr).
    destruct (Hrels rel (or_introl eq_refl)) as [Hin Hpid].
    cbn [Alerts.inactivity_loop].
    destruct (Alerts.first_user db (Alerts.caregiver_id rel)) as [c|] eqn:Eu;
      [|exact (IH Hrest acc)].
    destruct (Alerts.send_email world _ _ _) eqn:Em; [|exact (IH Hrest acc)].
    match goal with
    | |- context [Alerts.inactivity_loop _ _ _ _ _ rest ?acc'] =>
        destruct (IH Hrest acc') as (l & -> & Hl)
    end.
    rewrite <- app_assoc. cbn [app]. eexists. split; [reflexivity|].
    constructor; [|exact Hl].
    exists rel, c. repeat (split; [first [assumption | reflexivity]|]).
    eexists. eexists. exact Em.
Qed.

(** What a call of [check_inactivity] that raises an alert gives. *)
Lemma check_inactivity_some (world : Alerts.World) (now : Alerts.Time)
    (settings : Monitor.Settings) (db : Alerts.Db) (pid : Z)
    (a : Alerts.SafetyAlert) (db' : Alerts.Db) :
  Alerts.check_inactivity world now settings db pid = (Some a, db') ->
  exists start sent,
    Alerts.last_start db pid = Some start
    /\ (Monitor.MAX_INACTIVITY_HOURS settings * hour < now - start)%Z
    /\ find (Alerts.is_open_inactivity pid start) (Alerts.safety_alerts db) = None
    /\ db' = Alerts.db_add db a
    /\ a = Alerts.mkAlert pid "inactivity" Alerts.WARNING "Extended Inactivity"
             ("No interaction with system for "
              ++ Alerts.str_of_int (Alerts.int_hours now start)
              ++ " hours (threshold: "
              ++ Alerts.str_of_int (Monitor.MAX_INACTIVITY_HOURS settings)
              ++ " hours)")
             None None None (Some sent) now
    /\ Forall (inactivity_record world db pid now) sent.
Proof.
  unfold Alerts.check_inactivity.
  destruct (Alerts.last_start db pid) as [start|] eqn:El; [|discriminate].
  destruct (Training.Qltb _ _) eqn:Eh; [|discriminate].
  destruct (find _ _) eqn:Ef; [discriminate|].
  intros [= <- <-].
  destruct (inactivity_loop_records world now db pid
              (Alerts.mkAlert pid "inactivity" Alerts.WARNING "Extended Inactivity"
                 ("No interaction with system for "
                  ++ Alerts.str_of_int (Alerts.int_hours now start)
                  ++ " hours (threshold: "
                  ++ Alerts.str_of_int (Monitor.MAX_INACTIVITY_HOURS settings)
                  ++ " hours)")
                 None None None None now)
              (Alerts.int_hours now start)
              (Alerts.relationships_of db pid)
              (fun rel H => proj1 (relationships_of_In db pid rel) H) [])
    as (l & E & Hl).
  cbn [app] in E.
  exists start, l. split; [reflexivity|].
  split; [apply over_threshold; exact Eh|].
  split; [exact Ef|]. split; [reflexivity|].
  split; [|exact Hl].
  rewrite <- E. reflexivity.
Qed.

(** X27 (safety_monitor.py, check_inactivity and
    _send_inactivity_notifications): a call either changes nothing and
    returns no alert, or stores and returns one unresolved WARNING alert
    of type "inactivity" for the patient, stamped with the clock, whose
    notification records are emails to existing caregivers of the patient
    whose sending succeeded.  The alert is raised exactly when the patient
    has a conversation, every conversation of the patient started more
    than MAX_INACTIVITY_HOURS hours ago, and no unresolved inactivity
    alert of the patient was made after the last of them. *)
Theorem inactivity_alert_raised_iff (world : Alerts.World) (now : Alerts.Time)
    (settings : Monitor.Settings) (db : Alerts.Db) (pid : Z) :
  (Alerts.check_inactivity world now settings db pid = (None, db)
   \/ exists a sent,
        Alerts.check_inactivity world now settings db pid
          = (Some a, Alerts.db_add db a)
        /\ Alerts.patient_id a = pid
        /\ Alerts.alert_type a = "inactivity"
        /\ Alerts.severity a = Alerts.WARNING
        /\ Alerts.resolved_at a = None
        /\ Alerts.created_at a = now
        /\ Alerts.notifications_sent a = Some sent
        /\ Forall (inactivity_record world db pid now) sent)
  /\ (fst (Alerts.check_inactivity world now settings db pid) <> None
      <-> has_conversation db pid
          /\ silent_for db pid now (Monitor.MAX_INACTIVITY_HOURS settings)
          /\ ~ exists e, open_alert_since_last db pid e).
Proof.
  split.
  - destruct (Alerts.check_inactivity world now settings db pid) as [[a|] db'] eqn:E.
    + right.
      destruct (check_inactivity_some _ _ _ _ _ _ _ E)
        as (start & sent & _ & _ & _ & -> & Ea & Hs).
      exists a, sent. split; [reflexivity|]. subst a. cbn.
      repeat (split; [reflexivity|]). exact Hs.
    + left. revert E. unfold Alerts.check_inactivity.
      destruct (Alerts.last_start db pid); [|intros [= <-]; reflexivity].
      destruct (Training.Qltb _ _); [|intros [= <-]; reflexivity].
      destruct (find _ _); [intros [= <-]; reflexivity | discriminate].
  - unfold Alerts.check_inactivity.
    destruct (Alerts.last_start db pid) as [start|] eqn:El.
    + destruct (last_start_some db pid start El) as ((c0 & Hin0 & Hp0 & Ht0) & Hmax).
      destruct (Training.Qltb _ _) eqn:Eh.
      * apply over_threshold in Eh.
        destruct (find _ _) as [e|] eqn:Ef.
        -- cbn. split; [intros H; contradiction|].
           intros (_ & _ & Hno). exfalso. apply Hno. exists e.
           destruct (find_some _ _ Ef) as [Hin He].
           apply is_open_inactivity_iff in He.
           destruct He as (H1 & H2 & H3 & H4).
           repeat (split; [assumption|]).
           intros c Hc Hp. specialize (Hmax c Hc Hp). lia.
        -- cbn. split; [intros _|intros _; discriminate].
           split; [exists c0; split; assumption|].
           split.
           ++ intros c Hc Hp. specialize (Hmax c Hc Hp). lia.
           ++ intros (e & Hin & H1 & H2 & H3 & H4).
              pose proof (find_none _ _ Ef e Hin) as Hf.
              apply not_true_iff_false in Hf. apply Hf.
              apply is_open_inactivity_iff.
              repeat (split; [assumption|]).
              rewrite <- Ht0. apply H4; assumption.
      * cbn. split; [intros H; contradiction|].
        intros (_ & Hsilent & _). exfalso.
        apply not_true_iff_false in Eh. apply Eh. apply over_threshold.
        rewrite <- Ht0. apply Hsilent; assumption.
    + cbn. split; [intros H; contradiction|].
      intros (Hc & _). exfalso. exact (last_start_none db pid El Hc).
Qed.

Lemma inactivity_alert_raised_iff_witness :
  fst (Alerts.check_inactivity
         (Alerts.mkWorld (fun _ _ => true) (fun _ _ _ => true)
            (fun _ => "t") (fun _ => "t"))
         (13 * hour)%Z Monitor.default_settings
         (Alerts.mkDb [] [] [Alerts.mkConversation 7 0%Z] []) 7%Z) <> None.
Proof.
  apply (proj2 (proj2 (inactivity_alert_raised_iff
           (Alerts.mkWorld (fun _ _ => true) (fun _ _ _ => true)
              (fun _ => "t") (fun _ => "t"))
           (13 * hour)%Z Monitor.default_settings
           (Alerts.mkDb [] [] [Alerts.mkConversation 7 0%Z] []) 7%Z))).
  split; [exists (Alerts.mkConversation 7 0%Z); split; [left|]; reflexivity|].
  split.
  - intros c [<-|[]] _. vm_compute. reflexivity.
  - intros (e & [] & _).
Defined.

(** X28 (safety_monitor.py, check_inactivity): with a threshold that is
    not negative, once a call has raised an inactivity alert, a later call
    on the database it left raises none and changes nothing, whatever the
    clock, the threshold and the senders are then. *)
Theorem inactivity_not_alerted_twice (world world' : Alerts.World)
    (now now' : Alerts.Time) (settings settings' : Monitor.Settings)
    (db db' : Alerts.Db) (pid : Z) (a : Alerts.SafetyAlert) :
  (0 <= Monitor.MAX_INACTIVITY_HOURS settings)%Z ->
  Alerts.check_inactivity world now settings db pid = (Some a, db') ->
  Alerts.check_inactivity world' now' settings' db' pid = (None, db').
Proof.
  intros Hmax E.
  destruct (check_inactivity_some _ _ _ _ _ _ _ E)
    as (start & sent & El & Hh & _ & -> & Ea & _).
  unfold Alerts.check_inactivity.
  change (Alerts.last_start (Alerts.db_add db a) pid) with (Alerts.last_start db pid).
  rewrite El.
  destruct (Training.Qltb _ _); [|reflexivity].
  assert (Hopen : Alerts.is_open_inactivity pid start a = true).
  { apply is_open_inactivity_iff. subst a. cbn.
    repeat (split; [reflexivity|]). unfold hour in Hh. lia. }
  assert (Hfind : exists e,
            find (Alerts.is_open_inactivity pid start)
              (Alerts.safety_alerts (Alerts.db_add db a)) = Some e).
  { cbn [Alerts.db_add Alerts.safety_alerts].
    generalize (Alerts.safety_alerts db). intros l.
    induction l as [|x l IH]; cbn [app find].
    - rewrite Hopen. eexists. reflexivity.
    - destruct (Alerts.is_open_inactivity pid start x); [eexists; reflexivity | exact IH]. }
  destruct Hfind as [e ->]. reflexivity.
Qed.

Lemma inactivity_not_alerted_twice_witness :
  exists a db',
    Alerts.check_inactivity
      (Alerts.mkWorld (fun _ _ => true) (fun _ _ _ => true)
         (fun _ => "t") (fun _ => "t"))
      (13 * hour)%Z Monitor.default_settings
      (Alerts.mkDb [] [] [Alerts.mkConversation 7 0%Z] []) 7%Z = (Some a, db')
    /\ Alerts.check_inactivity
         (Alerts.mkWorld (fun _ _ => true) (fun _ _ _ => true)
            (fun _ => "t") (fun _ => "t"))
         (14 * hour)%Z Monitor.default_settings db' 7%Z = (None, db').
Proof.
  eexists. eexists. split; [vm_compute; reflexivity|].
  eapply (inactivity_not_alerted_twice
           (Alerts.mkWorld (fun _ _ => true) (fun _ _ _ => true)
              (fun _ => "t") (fun _ => "t"))
           (Alerts.mkWorld (fun _ _ => true) (fun _ _ _ => true)
              (fun _ => "t") (fun _ => "t"))
           (13 * hour)%Z (14 * hour)%Z
           Monitor.default_settings Monitor.default_settings
           (Alerts.mkDb [] [] [Alerts.mkConversation 7 0%Z] []) _ 7%Z _).
  - vm_compute. discriminate.
  - vm_compute. reflexivity.
Defined.

(** * The scores in binary64 *)

Import Float64Notions.

(** ** Rounding of a product *)

Lemma digits2_pos_bounds (m : positive) :
  (2 ^ (Zpos (digits2_pos m) - 1) <= Zpos m < 2 ^ Zpos (digits2_pos m))%Z.
Proof.
  induction m as [m IH|m IH|]; cbn [digits2_pos].
  - rewrite Pos2Z.inj_succ.
    replace (Z.succ (Zpos (digits2_pos m)) - 1)%Z with (Z.succ (Zpos (digits2_pos m) - 1)) by lia.
    rewrite !Z.pow_succ_r by lia. lia.
  - rewrite Pos2Z.inj_succ.
    replace (Z.succ (Zpos (digits2_pos m)) - 1)%Z with (Z.succ (Zpos (digits2_pos m) - 1)) by lia.
    rewrite !Z.pow_succ_r by lia. lia.
  - cbn. lia.
Qed.

Lemma shr_1_m (r : shr_record) :
  (0 <= shr_m r)%Z -> shr_m (shr_1 r) = (shr_m r / 2)%Z.
Proof.
  destruct r as [m r s]. cbn [shr_m]. intros Hm.
  destruct m as [|p|p]; [reflexivity| |lia].
  destruct p as [p|p|]; cbn [shr_1 shr_m].
  - rewrite Pos2Z.inj_xI. apply (Z.div_unique _ 2 _ 1); [left; lia | lia].
  - rewrite Pos2Z.inj_xO. apply (Z.div_unique _ 2 _ 0); [left; lia | lia].
  - reflexivity.
Qed.

Lemma shr_iter_m (p : positive) :
  forall r, (0 <= shr_m r)%Z ->
  shr_m (iter_pos shr_1 p r) = (shr_m r / 2 ^ Zpos p)%Z.
Proof.
  induction p as [p IH|p IH|]; intros r Hr; cbn [iter_pos].
  - assert (HP : (0 < 2 ^ Zpos p)%Z) by (apply Z.pow_pos_nonneg; lia).
    assert (H1 : (0 <= shr_m (shr_1 r))%Z)
      by (rewrite shr_1_m by exact Hr; apply Z.div_pos; lia).
    assert (H2 : (0 <= shr_m (iter_pos shr_1 p (shr_1 r)))%Z)
      by (rewrite IH by exact H1; apply Z.div_pos; [exact H1 | exact HP]).
    rewrite IH by exact H2. rewrite IH by exact H1. rewrite shr_1_m by exact Hr.
    change (Zpos p~1) with (2 * Zpos p + 1)%Z.
    replace (2 * Zpos p + 1)%Z with (1 + Zpos p + Zpos p)%Z by lia.
    rewrite !Z.pow_add_r by lia. change (2 ^ 1)%Z with 2%Z.
    set (P := (2 ^ Zpos p)%Z) in *.
    rewrite !Z.div_div by nia. f_equal. ring.
  - assert (HP : (0 < 2 ^ Zpos p)%Z) by (apply Z.pow_pos_nonneg; lia).
    assert (H2 : (0 <= shr_m (iter_pos shr_1 p r))%Z)
      by (rewrite IH by exact Hr; apply Z.div_pos; [exact Hr | exact HP]).
    rewrite IH by exact H2. rewrite IH by exact Hr.
    change (Zpos p~0) with (2 * Zpos p)%Z.
    replace (2 * Zpos p)%Z with (Zpos p + Zpos p)%Z by lia.
    rewrite Z.pow_add_r by lia.
    set (P := (2 ^ Zpos p)%Z) in *.
    rewrite Z.div_div by lia. reflexivity.
  - rewrite shr_1_m by exact Hr. reflexivity.
Qed.

Lemma shr_record_of_loc_m (m : Z) (l : location) : shr_m (shr_record_of_loc m l) = m.
Proof. destruct l as [|[ | | ]]; reflexivity. Qed.

(** No underflow: the exponent is far above the smallest one. *)
Lemma shr_fexp_shape (m : positive) (e : Z) (l : location) :
  (emin prec emax + prec <= e)%Z ->
  let '(mrs, e') := shr_fexp prec emax (Zpos m) e l in
  (0 < shr_m mrs)%Z /\ (e <= e')%Z /\ (Zpos (digits2_pos m) + e - prec <= e')%Z.
Proof.
  intros He. unfold shr_fexp, shr. cbn [Zdigits2].
  pose proof (digits2_pos_bounds m) as [Hlo Hhi].
  set (d := Zpos (digits2_pos m)) in *.
  assert (Hf : fexp prec emax (d + e) = (d + e - prec)%Z).
  { unfold fexp. apply Z.max_l. unfold d. lia. }
  rewrite Hf.
  destruct (d + e - prec - e)%Z as [|p|p] eqn:En.
  - rewrite shr_record_of_loc_m. lia.
  - split; [|lia].
    rewrite shr_iter_m by (rewrite shr_record_of_loc_m; lia).
    rewrite shr_record_of_loc_m.
    apply Z.div_str_pos. split; [apply Z.pow_pos_nonneg; lia|].
    eapply Z.le_trans; [|exact Hlo].
    apply Z.pow_le_mono_r; [lia|]. unfold prec in *. lia.
  - rewrite shr_record_of_loc_m. lia.
Qed.

Lemma round_nearest_even_pos (m : Z) (l : location) :
  (0 < m)%Z -> (0 < round_nearest_even m l)%Z.
Proof.
  intros H. destruct l as [|[ | | ]]; cbn [round_nearest_even]; try lia.
  destruct (Z.even m); lia.
Qed.

Lemma binary_round_aux_shape (sx : bool) (m : positive) (e : Z) (l : location) :
  (emin prec emax + prec <= e)%Z ->
  binary_round_aux prec emax sx (Zpos m) e l = S754_infinity sx
  \/ exists m' e',
       binary_round_aux prec emax sx (Zpos m) e l = S754_finite sx m' e'
       /\ (e <= e')%Z /\ (Zpos (digits2_pos m) + e - prec <= e')%Z.
Proof.
  intros He. unfold binary_round_aux.
  pose proof (shr_fexp_shape m e l He) as H1.
  destruct (shr_fexp prec emax (Zpos m) e l) as [mrs' e'].
  destruct H1 as (Hm1 & He1 & Hd1).
  pose proof (round_nearest_even_pos (shr_m mrs') (loc_of_shr_record mrs') Hm1) as Hr.
  destruct (round_nearest_even (shr_m mrs') (loc_of_shr_record mrs')) as [|r|r]; try lia.
  pose proof (shr_fexp_shape r e' loc_Exact ltac:(lia)) as H2.
  destruct (shr_fexp prec emax (Zpos r) e' loc_Exact) as [mrs'' e''].
  destruct H2 as (Hm2 & He2 & _).
  destruct (shr_m mrs'') as [|m2|m2]; try lia.
  destruct (e'' <=? emax - prec)%Z; [right|left; reflexivity].
  exists m2, e''. split; [reflexivity|]. lia.
Qed.

(** float(k) for a positive integer. *)
Lemma of_uint63_shape (k : int) :
  (0 < Uint63.to_Z k)%Z ->
  Prim2SF (of_uint63 k) = S754_infinity false
  \/ exists m e,
       Prim2SF (of_uint63 k) = S754_finite false m e
       /\ (Z.log2 (Uint63.to_Z k) - 52 <= e)%Z
       /\ Zpos (digits2_pos m) = prec.
Proof.
  intros Hk. pose proof (Prim2SF_valid (of_uint63 k)) as Hv.
  rewrite of_uint63_spec in *.
  destruct (Uint63.to_Z k) as [|p|p]; try lia.
  cbn [binary_normalize] in *. unfold binary_round in *.
  pose proof (digits2_pos_bounds p) as [Hlo Hhi].
  assert (Hlog : (Z.log2 (Zpos p) = Zpos (digits2_pos p) - 1)%Z).
  { apply Z.log2_unique; [lia|].
    replace (Z.succ (Zpos (digits2_pos p) - 1)) with (Zpos (digits2_pos p)) by lia.
    split; assumption. }
  rewrite Hlog.
  set (d := Zpos (digits2_pos p)) in *.
  assert (Hf : fexp prec emax (d + 0) = (d - prec)%Z).
  { unfold fexp. rewrite Z.add_0_r. apply Z.max_l. unfold d, prec, emin, emax. lia. }
  rewrite Hf in *.
  unfold shl_align in *.
  assert (Hshape : forall mz ez, (ez <> 0%Z -> d - prec <= ez)%Z -> (emin prec emax + prec <= ez)%Z ->
            (ez = 0%Z -> mz = p) ->
            valid_binary (binary_round_aux prec emax false (Zpos mz) ez loc_Exact) = true ->
            binary_round_aux prec emax false (Zpos mz) ez loc_Exact = S754_infinity false
            \/ exists m e,
                 binary_round_aux prec emax false (Zpos mz) ez loc_Exact = S754_finite false m e
                 /\ (d - 1 - 52 <= e)%Z /\ Zpos (digits2_pos m) = prec).
  { intros mz ez H1 H2 H3 Hval.
    destruct (binary_round_aux_shape false mz ez loc_Exact H2) as [E|(m & e & E & He1 & He2)];
      [left; exact E|right].
    exists m, e. split; [exact E|].
    assert (He : (d - 1 - 52 <= e)%Z).
    { destruct (Z.eq_dec ez 0) as [Hz|Hz].
      - rewrite (H3 Hz) in He2. fold d in He2. unfold prec in *. lia.
      - specialize (H1 Hz). unfold prec in *. lia. }
    split; [exact He|].
    rewrite E in Hval. cbn [SpecFloat.valid_binary] in Hval.
    unfold bounded, canonical_mantissa in Hval.
    apply andb_true_iff in Hval. destruct Hval as [Hc _].
    apply Z.eqb_eq in Hc. unfold fexp in Hc.
    unfold d, prec, emin, emax in *. lia. }
  destruct (d - prec - 0)%Z as [|q|q] eqn:Eq.
  - apply Hshape; try exact Hv; try (intros; reflexivity);
      unfold prec, emin, emax in *; lia.
  - apply Hshape; try exact Hv; try (intros; reflexivity);
      unfold prec, emin, emax in *; lia.
  - apply Hshape; try exact Hv; unfold prec, emin, emax in *; lia.
Qed.

Lemma digits2_pos_mul (a b : positive) :
  (Zpos (digits2_pos a) + Zpos (digits2_pos b) - 1 <= Zpos (digits2_pos (a * b)))%Z.
Proof.
  pose proof (digits2_pos_bounds a) as [Ha _].
  pose proof (digits2_pos_bounds b) as [Hb _].
  pose proof (digits2_pos_bounds (a * b)) as [_ Hab].
  set (da := Zpos (digits2_pos a)) in *. set (db := Zpos (digits2_pos b)) in *.
  set (dab := Zpos (digits2_pos (a * b))) in *.
  assert (H : (2 ^ (da - 1 + (db - 1)) < 2 ^ dab)%Z).
  { eapply Z.le_lt_trans; [|exact Hab].
    rewrite Z.pow_add_r by (unfold da, db; lia).
    rewrite Pos2Z.inj_mul.
    apply Z.mul_le_mono_nonneg; try assumption; apply Z.pow_nonneg; lia. }
  apply Z.pow_lt_mono_r_iff in H; [lia | lia | unfold dab; lia].
Qed.

(** A count times a positive normal constant is not below a cap of a
    smaller binade. *)
Lemma mul_count_not_below (k : int) (c cap : float)
    (mc : positive) (ec : Z) (mcap : positive) (ecap : Z) :
  Prim2SF c = S754_finite false mc ec ->
  Zpos (digits2_pos mc) = prec ->
  Prim2SF cap = S754_finite false mcap ecap ->
  (0 < Uint63.to_Z k)%Z ->
  (-900 <= ec)%Z ->
  (ecap < Z.log2 (Uint63.to_Z k) + ec)%Z ->
  PrimFloat.ltb (of_uint63 k * c) cap = false.
Proof.
  intros Hc Hdc Hcap Hk Hec Hlt.
  rewrite FloatAxioms.ltb_spec, FloatAxioms.mul_spec, Hc, Hcap.
  pose proof (Z.log2_nonneg (Uint63.to_Z k)) as Hlog.
  destruct (of_uint63_shape k Hk) as [E|(m & e & E & He & Hdm)]; rewrite E.
  - reflexivity.
  - unfold SF64mul, SFmul. cbn [xorb].
    destruct (binary_round_aux_shape false (m * mc) (e + ec) loc_Exact)
      as [E'|(m' & e' & E' & _ & He')].
    { unfold emin, prec, emax. lia. }
    + rewrite E'. reflexivity.
    + rewrite E'. pose proof (digits2_pos_mul m mc) as Hd.
      unfold SFltb, SFcompare.
      assert (Hgt : (e' ?= ecap)%Z = Gt).
      { apply Z.compare_gt_iff. unfold prec in *. lia. }
      rewrite Hgt. reflexivity.
Qed.


Lemma capped_in (cap c : float) (mc : positive) (ec : Z) (mcap : positive) (ecap : Z) :
  Prim2SF c = S754_finite false mc ec ->
  Zpos (digits2_pos mc) = prec ->
  Prim2SF cap = S754_finite false mcap ecap ->
  (-900 <= ec)%Z ->
  (ecap < 3 + ec)%Z ->
  forall n, In (Binary64.py_min cap (Float64.of_count n * c)) (capped cap c).
Proof.
  intros Hc Hdc Hcap Hec Hlt n. unfold Float64.of_count.
  set (k := Uint63.of_Z (Z.of_nat n)).
  pose proof (Uint63.to_Z_bounded k) as Hb.
  destruct (Z_lt_le_dec (Uint63.to_Z k) 8) as [Hs|Hl].
  - right. apply in_map_iff. exists (Uint63.to_Z k).
    split; [rewrite Uint63.of_to_Z; reflexivity|].
    unfold small_counts. cbn [In]. lia.
  - left. unfold Binary64.py_min.
    rewrite (mul_count_not_below k c cap mc ec mcap ecap); try assumption; try lia.
    + reflexivity.
    + assert (3 <= Z.log2 (Uint63.to_Z k))%Z; [|lia].
      change 3%Z with (Z.log2 8). apply Z.log2_le_mono. exact Hl.
Qed.

Lemma capped_02_01 (n : nat) :
  In (Binary64.py_min 0.2 (Float64.of_count n * 0.1)) (capped 0.2 0.1).
Proof. eapply capped_in; try (vm_compute; reflexivity); lia. Qed.

Lemma capped_03_015 (n : nat) :
  In (Binary64.py_min 0.3 (Float64.of_count n * 0.15)) (capped 0.3 0.15).
Proof. eapply capped_in; try (vm_compute; reflexivity); lia. Qed.

Lemma capped_04_015 (n : nat) :
  In (Binary64.py_min 0.4 (Float64.of_count n * 0.15)) (capped 0.4 0.15).
Proof. eapply capped_in; try (vm_compute; reflexivity); lia. Qed.

Lemma capped_015_005 (n : nat) :
  In (Binary64.py_min 0.15 (Float64.of_count n * 0.05)) (capped 0.15 0.05).
Proof. eapply capped_in; try (vm_compute; reflexivity); lia. Qed.

Lemma capped_02_005 (n : nat) :
  In (Binary64.py_min 0.2 (Float64.of_count n * 0.05)) (capped 0.2 0.05).
Proof. eapply capped_in; try (vm_compute; reflexivity); lia. Qed.

(** ** The values of the sub-scores *)

Lemma paths_two (start : float) (s1 s2 : list (float -> float))
    (f1 f2 : float -> float) :
  In f1 s1 -> In f2 s2 ->
  In (Binary64.clamp (f2 (f1 start))) (paths start [s1; s2]).
Proof.
  intros H1 H2. unfold paths. apply in_map. cbn [fold_left flat_map app].
  rewrite app_nil_r. apply in_flat_map. exists (f1 start).
  split; [exact (in_map (fun f => f start) s1 f1 H1)
         | exact (in_map (fun f => f (f1 start)) s2 f2 H2)].
Qed.

Lemma paths_three (start : float) (s1 s2 s3 : list (float -> float))
    (f1 f2 f3 : float -> float) :
  In f1 s1 -> In f2 s2 -> In f3 s3 ->
  In (Binary64.clamp (f3 (f2 (f1 start)))) (paths start [s1; s2; s3]).
Proof.
  intros H1 H2 H3. unfold paths. apply in_map. cbn [fold_left flat_map app].
  rewrite app_nil_r. apply in_flat_map. exists (f2 (f1 start)).
  split; [|exact (in_map (fun f => f (f2 (f1 start))) s3 f3 H3)].
  apply in_flat_map. exists (f1 start).
  split; [exact (in_map (fun f => f start) s1 f1 H1)
         | exact (in_map (fun f => f (f1 start)) s2 f2 H2)].
Qed.

Lemma ritual_in (cts : list Turn) :
  In (Float64.score (Float64._score_ritual_consistency cts)) ritual_values.
Proof.
  unfold ritual_values. destruct cts as [|first rest]; [left; reflexivity|right].
  unfold Float64._score_ritual_consistency.
  destruct (any_in _ (text_lower first));
    destruct (existsb _ _);
    destruct (any_in _ (text_lower (last (first :: rest) first)));
    cbn [Float64.score];
    first
      [ apply (paths_three 0.7 _ _ _ (plus 0.1) (plus 0.1) (plus 0.1))
      | apply (paths_three 0.7 _ _ _ (plus 0.1) (plus 0.1) (minus 0.1))
      | apply (paths_three 0.7 _ _ _ (plus 0.1) same (plus 0.1))
      | apply (paths_three 0.7 _ _ _ (plus 0.1) same (minus 0.1))
      | apply (paths_three 0.7 _ _ _ (minus 0.1) (plus 0.1) (plus 0.1))
      | apply (paths_three 0.7 _ _ _ (minus 0.1) (plus 0.1) (minus 0.1))
      | apply (paths_three 0.7 _ _ _ (minus 0.1) same (plus 0.1))
      | apply (paths_three 0.7 _ _ _ (minus 0.1) same (minus 0.1)) ];
    cbn [In]; tauto.
Qed.

Lemma emotion_in (cts all_turns : list Turn) :
  In (Float64.score (Float64._score_emotional_validation cts all_turns))
    emotion_values.
Proof.
  unfold emotion_values, Float64._score_emotional_validation.
  set (vc := count_turns _ cts). set (cc := count_turns _ cts).
  destruct (0 <? vc); destruct (0 <? cc); cbn [Float64.score].
  - apply (paths_two 0.7 _ _
             (plus (Binary64.py_min 0.2 (Float64.of_count vc * 0.1)))
             (minus (Binary64.py_min 0.3 (Float64.of_count cc * 0.15)))).
    + right. apply in_map, capped_02_01.
    + right. apply in_map, capped_03_015.
  - apply (paths_two 0.7 _ _
             (plus (Binary64.py_min 0.2 (Float64.of_count vc * 0.1))) (plus 0.1)).
    + right. apply in_map, capped_02_01.
    + left. reflexivity.
  - apply (paths_two 0.7 _ _ (minus 0.15)
             (minus (Binary64.py_min 0.3 (Float64.of_count cc * 0.15)))).
    + left. reflexivity.
    + right. apply in_map, capped_03_015.
  - apply (paths_two 0.7 _ _ (minus 0.15) (plus 0.1)); left; reflexivity.
Qed.

Lemma presence_in (cts : list Turn) :
  In (Float64.score (Float64._score_no_pressure cts)) presence_values.
Proof.
  unfold presence_values, Float64._score_no_pressure.
  set (tc := count_turns is_testing cts). set (ic := count_turns _ cts).
  destruct (0 <? tc); destruct (0 <? ic); cbn [Float64.score].
  - apply (paths_two 0.8 _ _
             (minus (Binary64.py_min 0.4 (Float64.of_count tc * 0.15)))
             (plus (Binary64.py_min 0.15 (Float64.of_count ic * 0.05)))).
    + right. apply in_map, capped_04_015.
    + right. apply in_map, capped_015_005.
  - apply (paths_two 0.8 _ _
             (minus (Binary64.py_min 0.4 (Float64.of_count tc * 0.15))) same).
    + right. apply in_map, capped_04_015.
    + left. reflexivity.
  - apply (paths_two 0.8 _ _ (plus 0.1)
             (plus (Binary64.py_min 0.15 (Float64.of_count ic * 0.05)))).
    + left. reflexivity.
    + right. apply in_map, capped_015_005.
  - apply (paths_two 0.8 _ _ (plus 0.1) same); left; reflexivity.
Qed.

Lemma brevity_in (cts : list Turn) :
  In (Float64.score (Float64._score_brevity_structure cts)) brevity_values.
Proof.
  unfold brevity_values. destruct cts as [|first rest]; [left; reflexivity|right].
  unfold Float64._score_brevity_structure.
  set (avg := (Float64.of_count _ / Float64.of_count _)%float).
  set (long := filter _ (first :: rest)).
  assert (Hlong : forall f1, In f1 [plus 0.2; plus 0.1; minus 0.1] ->
            In (Binary64.clamp
                  (match long with
                   | _ :: _ =>
                       minus (Binary64.py_min 0.2
                                (Float64.of_count (List.length long) * 0.05))
                         (f1 0.7%float)
                   | [] => plus 0.1 (f1 0.7%float)
                   end))
               (paths 0.7 [[plus 0.2; plus 0.1; minus 0.1];
                           plus 0.1 :: map minus (capped 0.2 0.05)])).
  { intros f1 H1. destruct long as [|l0 long'].
    - apply (paths_two 0.7 _ _ f1 (plus 0.1)); [exact H1 | left; reflexivity].
    - apply (paths_two 0.7 _ _ f1
               (minus (Binary64.py_min 0.2
                         (Float64.of_count (List.length (l0 :: long')) * 0.05))));
        [exact H1 | right; apply in_map, capped_02_005]. }
  destruct (PrimFloat.leb avg 12); [|destruct (PrimFloat.leb avg 18)].
  - specialize (Hlong (plus 0.2) ltac:(cbn; tauto)).
    destruct long; exact Hlong.
  - specialize (Hlong (plus 0.1) ltac:(cbn; tauto)).
    destruct long; exact Hlong.
  - specialize (Hlong (minus 0.1) ltac:(cbn; tauto)).
    destruct long; exact Hlong.
Qed.

(** ** The overall score *)

Lemma dedup_in (x : float) (l : list float) : In x l -> In x (dedup l).
Proof.
  induction l as [|y l IH]; [intros []|]. cbn [dedup fold_right].
  fold (dedup l). intros [->|H].
  - destruct (existsb (PrimFloat.Leibniz.eqb x) (dedup l)) eqn:E.
    + apply existsb_exists in E. destruct E as (z & Hz & Ez).
      apply FloatAxioms.Leibniz.eqb_spec in Ez. subst z. exact Hz.
    + left. reflexivity.
  - destruct (existsb (PrimFloat.Leibniz.eqb y) (dedup l)); [|right]; apply IH, H.
Qed.

Lemma all_totals_checked :
  forallb (fun ritual =>
    forallb (fun emotion =>
      forallb (fun presence =>
        forallb (fun brevity => total_in_range ritual emotion presence brevity)
          (dedup brevity_values))
        (dedup presence_values))
      (dedup emotion_values))
    (dedup ritual_values) = true.
Proof. vm_compute. reflexivity. Qed.

Lemma all_grades_checked :
  forallb
    (fun k => grade_as_documented (hundredths k)
                (Float64._score_to_grade (hundredths k)))
    (map Z.of_nat (seq 0 101)) = true.
Proof. vm_compute. reflexivity. Qed.

Lemma totals_in_range (ritual emotion presence brevity : float) :
  In ritual ritual_values -> In emotion emotion_values ->
  In presence presence_values -> In brevity brevity_values ->
  total_in_range ritual emotion presence brevity = true.
Proof.
  intros H1 H2 H3 H4.
  pose proof (proj1 (forallb_forall _ _) all_totals_checked
                ritual (dedup_in _ _ H1)) as Ha.
  pose proof (proj1 (forallb_forall _ _) Ha emotion (dedup_in _ _ H2)) as Hb.
  pose proof (proj1 (forallb_forall _ _) Hb presence (dedup_in _ _ H3)) as Hc.
  exact (proj1 (forallb_forall _ _) Hc brevity (dedup_in _ _ H4)).
Qed.

Lemma grade_of_hundredths (k : Z) :
  (0 <= k <= 100)%Z ->
  grade_as_documented (hundredths k) (Float64._score_to_grade (hundredths k)) = true.
Proof.
  intros Hk.
  apply (proj1 (forallb_forall _ _) all_grades_checked k).
  apply in_map_iff. exists (Z.to_nat k). split; [lia|].
  apply in_seq. lia.
Qed.

(** What [analyze_conversation] returns, field by field: it never
    raises. *)
Lemma float_report (text cg pt stage : string) :
  let turns := _parse_conversation text cg pt in
  let cts := caregiver_turns_of turns in
  let scores :=
    [("ritual_over_stimulation", Float64._score_ritual_consistency cts);
     ("emotion_over_accuracy", Float64._score_emotional_validation cts turns);
     ("presence_over_performance", Float64._score_no_pressure cts);
     ("short_steady_repeatable", Float64._score_brevity_structure cts)] in
  let overall := Binary64.round2 (weighted_sum scores) in
  Float64.analyze_conversation text cg pt stage
  = Some (Float64.mkReport overall (Float64._score_to_grade overall) scores
            (_detect_violations turns stage) (_identify_strengths turns stage)
            (Float64._generate_recommendations turns scores
               (_detect_violations turns stage) stage)
            (_analyze_phases turns) (List.length turns) (length text) stage).
Proof. reflexivity. Qed.

Lemma eqb_bool_iff (g expected : string) (b : bool) :
  Bool.eqb (String.eqb g expected) b = true -> (g = expected <-> b = true).
Proof.
  intros H. apply Bool.eqb_prop in H. rewrite <- H. symmetry. apply String.eqb_eq.
Qed.

(** C4: for every transcript the analysis returns a report over the four
    principles whose overall score is the sum, from 0 and in the order of
    the principles, of score times weight (weights 0.25, 0.30, 0.25,
    0.20), rounded to two decimals: it is the float of a whole number of
    hundredths at most half a hundredth from the sum.  The overall score
    lies between 0 and 1, and the grade is A from 0.90, B from 0.80, C
    from 0.70, D from 0.60 and F below.  All numbers are binary64 values
    and the operations are those of the source. *)
Theorem C4_overall_score_and_grade (text cg pt stage : string) :
  exists r,
    Float64.analyze_conversation text cg pt stage = Some r
    /\ map fst (Float64.principle_scores r) = map fst PRINCIPLES
    /\ Float64.overall_score r
       = Binary64.round2 (weighted_sum (Float64.principle_scores r))
    /\ rounded_to_hundredths (Float64.overall_score r)
         (weighted_sum (Float64.principle_scores r))
    /\ (PrimFloat.leb 0 (Float64.overall_score r) = true
        /\ PrimFloat.leb (Float64.overall_score r) 1 = true)
    /\ ((Float64.grade r = "A"
         <-> PrimFloat.leb 0.90 (Float64.overall_score r) = true)
        /\ (Float64.grade r = "B"
            <-> PrimFloat.leb 0.80 (Float64.overall_score r) = true
                /\ PrimFloat.ltb (Float64.overall_score r) 0.90 = true)
        /\ (Float64.grade r = "C"
            <-> PrimFloat.leb 0.70 (Float64.overall_score r) = true
                /\ PrimFloat.ltb (Float64.overall_score r) 0.80 = true)
        /\ (Float64.grade r = "D"
            <-> PrimFloat.leb 0.60 (Float64.overall_score r) = true
                /\ PrimFloat.ltb (Float64.overall_score r) 0.70 = true)
        /\ (Float64.grade r = "F"
            <-> PrimFloat.ltb (Float64.overall_score r) 0.60 = true)).
Proof.
  eexists. split; [apply float_report|].
  cbn [Float64.principle_scores Float64.overall_score Float64.grade].
  set (turns := _parse_conversation text cg pt).
  set (cts := caregiver_turns_of turns).
  pose proof (totals_in_range _ _ _ _ (ritual_in cts) (emotion_in cts turns)
                (presence_in cts) (brevity_in cts)) as Hrange.
  set (scores := [("ritual_over_stimulation", Float64._score_ritual_consistency cts);
                  ("emotion_over_accuracy",
                   Float64._score_emotional_validation cts turns);
                  ("presence_over_performance", Float64._score_no_pressure cts);
                  ("short_steady_repeatable", Float64._score_brevity_structure cts)]).
  change (total_in_range
            (Float64.score (Float64._score_ritual_consistency cts))
            (Float64.score (Float64._score_emotional_validation cts turns))
            (Float64.score (Float64._score_no_pressure cts))
            (Float64.score (Float64._score_brevity_structure cts)))
    with (let total := weighted_sum scores in
          let k := round_half_even (Binary64.exact total * 100) in
          (0 <=? k)%Z && (k <=? 100)%Z
          && PrimFloat.leb 0 (Binary64.round2 total)
          && PrimFloat.leb (Binary64.round2 total) 1) in Hrange.
  cbv zeta in Hrange.
  set (total := weighted_sum scores) in *.
  apply andb_true_iff in Hrange. destruct Hrange as [Hrange H1].
  apply andb_true_iff in Hrange. destruct Hrange as [Hrange H0].
  apply andb_true_iff in Hrange. destruct Hrange as [Hk0 Hk1].
  apply Z.leb_le in Hk0. apply Z.leb_le in Hk1.
  split; [reflexivity|]. split; [reflexivity|].
  assert (Hround : Binary64.round2 total
                   = hundredths (round_half_even (Binary64.exact total * 100)))
    by reflexivity.
  split.
  { exists (round_half_even (Binary64.exact total * 100)).
    split; [lia|]. split; [exact Hround|].
    destruct (round_half_even_near (Binary64.exact total * 100)) as [Hlo Hhi].
    split; lra. }
  split; [split; assumption|].
  pose proof (grade_of_hundredths _ (conj Hk0 Hk1)) as Hg.
  rewrite <- Hround in Hg. unfold grade_as_documented in Hg.
  apply andb_true_iff in Hg. destruct Hg as [Hg HF].
  apply andb_true_iff in Hg. destruct Hg as [Hg HD].
  apply andb_true_iff in Hg. destruct Hg as [Hg HC].
  apply andb_true_iff in Hg. destruct Hg as [HA HB].
  apply eqb_bool_iff in HA, HB, HC, HD, HF.
  rewrite andb_true_iff in HB, HC, HD.
  exact (conj HA (conj HB (conj HC (conj HD HF)))).
Qed.

(** The tie of the exact sum goes the way of the binary64 sum: the
    products of 0.7, 0.65, 0.9 and 1 with the weights add up to 0.795 on
    paper and to a float below it, which rounds to 0.79. *)
Example ex_overall_score_below_the_tie :
  option_map (fun r => (Float64.overall_score r, Float64.grade r))
    (Float64.analyze_conversation "Ann: Hello Dad." "Ann" "Dad" "moderate")
  = Some (0.79%float, "C").
Proof. vm_compute. reflexivity. Qed.

(** ** The recommendations *)

Lemma low_score_below_06 (scores : list (string * Float64.PrincipleScore))
    (stage : string) :
  forall acc,
    Float64.low_score_recommendations scores stage acc
    = (acc ++ below_06 scores)%list.
Proof.
  induction scores as [|[principle score_data] rest IH]; intros acc.
  - cbn. rewrite app_nil_r. reflexivity.
  - cbn [Float64.low_score_recommendations below_06 flat_map fst snd].
    fold (below_06 rest). rewrite IH.
    unfold canned_for, _get_principle_recommendation.
    destruct (PrimFloat.ltb (Float64.score score_data) 0.6); [|reflexivity].
    destruct (lookup principle recommendations_map); [|reflexivity].
    rewrite <- app_assoc. reflexivity.
Qed.

Lemma float_recommendations_shape
    (turns : list Turn) (scores : list (string * Float64.PrincipleScore))
    (violations : list Violation) (stage : string) :
  let front := if has_high violations then [stop_testing_memory] else [] in
  let body := (front ++ below_06 scores ++ stage_recommendation stage)%list in
  Float64._generate_recommendations turns scores violations stage
  = if is_nil body then [structure_your_visit] else body.
Proof.
  unfold Float64._generate_recommendations, stage_recommendation.
  rewrite low_score_below_06, high_filter_nil. cbn [app].
  set (low := below_06 scores).
  destruct (has_high violations) eqn:Hh.
  - rewrite (has_high_not_nil _ Hh). cbn [negb app].
    destruct (String.eqb stage "early"); [reflexivity|].
    destruct (String.eqb stage "moderate"); [reflexivity|].
    destruct (String.eqb stage "late"); [reflexivity|].
    rewrite app_nil_r. reflexivity.
  - assert (F : (if negb (is_nil violations) then
                   if negb (negb false) then stop_testing_memory :: low else low
                 else low) = low) by (destruct (is_nil violations); reflexivity).
    rewrite F. cbn [app].
    destruct (String.eqb stage "early");
      [destruct low; reflexivity|].
    destruct (String.eqb stage "moderate");
      [destruct low; reflexivity|].
    destruct (String.eqb stage "late");
      [destruct low; reflexivity|].
    rewrite app_nil_r. destruct low; reflexivity.
Qed.

Lemma in_wrapped {A : Type} (x fallback : A) (front mid back : list A) :
  ~ In x front -> ~ In x back -> x <> fallback ->
  (In x (if is_nil (front ++ mid ++ back)%list then [fallback]
         else (front ++ mid ++ back)%list)
   <-> In x mid).
Proof.
  intros Hf Hb Hx.
  destruct (front ++ mid ++ back)%list eqn:E; cbn [is_nil].
  - destruct front; [|discriminate E]. destruct mid; [|discriminate E].
    split; [intros [H|[]]; destruct Hx; symmetry; exact H | intros []].
  - rewrite <- E, !in_app_iff. tauto.
Qed.

Lemma canned_not_around (rec : Recommendation) (violations : list Violation)
    (stage : string) :
  canned rec ->
  ~ In rec (if has_high violations then [stop_testing_memory] else [])
  /\ ~ In rec (stage_recommendation stage)
  /\ rec <> structure_your_visit.
Proof.
  intros Hc. destruct (canned_category rec Hc) as (Hs & Hcr & Hst).
  split; [|split; [|exact Hst]].
  - destruct (has_high violations); [|intros []].
    intros [<-|[]]. discriminate Hcr.
  - destruct (stage_recommendation_cases stage) as [[-> _]|(x & -> & _ & Hx & _)];
      [intros []|].
    intros [<-|[]]. rewrite Hx in Hs. discriminate Hs.
Qed.

Lemma below_06_of_four (p1 p2 p3 p4 : Float64.PrincipleScore)
    (key : string) (rec : Recommendation) :
  let scores := [("ritual_over_stimulation", p1); ("emotion_over_accuracy", p2);
                 ("presence_over_performance", p3);
                 ("short_steady_repeatable", p4)] in
  lookup key recommendations_map = Some rec ->
  (In rec (below_06 scores) <-> PrimFloat.ltb (score_of key scores) 0.6 = true).
Proof.
  intros scores H.
  assert (E : below_06 scores
              = ((if PrimFloat.ltb (Float64.score p1) 0.6
                  then canned_for "ritual_over_stimulation" else [])
                 ++ (if PrimFloat.ltb (Float64.score p2) 0.6
                     then canned_for "emotion_over_accuracy" else [])
                 ++ (if PrimFloat.ltb (Float64.score p3) 0.6
                     then canned_for "presence_over_performance" else [])
                 ++ (if PrimFloat.ltb (Float64.score p4) 0.6
                     then canned_for "short_steady_repeatable" else [])
                 ++ [])%list) by reflexivity.
  rewrite E. clear E.
  cbn [lookup recommendations_map] in H.
  destruct (String.eqb key "ritual_over_stimulation") eqn:K1;
    [apply String.eqb_eq in K1; subst key; injection H as <-
    |destruct (String.eqb key "emotion_over_accuracy") eqn:K2;
      [apply String.eqb_eq in K2; subst key; injection H as <-
      |destruct (String.eqb key "presence_over_performance") eqn:K3;
        [apply String.eqb_eq in K3; subst key; injection H as <-
        |destruct (String.eqb key "short_steady_repeatable") eqn:K4;
          [apply String.eqb_eq in K4; subst key; injection H as <-
          |discriminate H]]]];
    unfold score_of, scores; cbn [lookup String.eqb Ascii.eqb Bool.eqb];
    destruct (PrimFloat.ltb (Float64.score p1) 0.6);
    destruct (PrimFloat.ltb (Float64.score p2) 0.6);
    destruct (PrimFloat.ltb (Float64.score p3) 0.6);
    destruct (PrimFloat.ltb (Float64.score p4) 0.6);
    cbn;
    (split;
     [ intros Hin;
       repeat (destruct Hin as [Hin|Hin]; [try reflexivity; discriminate Hin|]);
       destruct Hin
     | intros Ht; try discriminate Ht;
       repeat first [left; reflexivity | right] ]).
Qed.

(** X9: a report never comes without advice and never with more than six
    recommendations.  The list is the critical recommendation when a
    high-severity violation exists, then the canned recommendation of each
    principle whose binary64 score is below 0.6, in the order of the
    principles, then the stage recommendation when the stage is early,
    moderate or late; the fallback stands alone when all of that is
    empty.  So the canned recommendation of a principle is in the list
    exactly when the score of that principle is below 0.6. *)
Theorem recommendations_between_one_and_six
    (transcript cg pt stage : string) :
  exists r,
    Float64.analyze_conversation transcript cg pt stage = Some r
    /\ (let body :=
          ((if has_high (Float64.violations r) then [stop_testing_memory] else [])
           ++ below_06 (Float64.principle_scores r)
           ++ stage_recommendation stage)%list in
        Float64.recommendations r
        = if is_nil body then [structure_your_visit] else body)
    /\ (forall key rec,
          lookup key recommendations_map = Some rec ->
          (In rec (Float64.recommendations r)
           <-> PrimFloat.ltb (score_of key (Float64.principle_scores r)) 0.6 = true))
    /\ 1 <= List.length (Float64.recommendations r) <= 6.
Proof.
  eexists. split; [apply float_report|].
  cbn [Float64.principle_scores Float64.violations Float64.recommendations].
  set (turns := _parse_conversation transcript cg pt).
  set (cts := caregiver_turns_of turns).
  set (p1 := Float64._score_ritual_consistency cts).
  set (p2 := Float64._score_emotional_validation cts turns).
  set (p3 := Float64._score_no_pressure cts).
  set (p4 := Float64._score_brevity_structure cts).
  set (vs := _detect_violations turns stage).
  pose proof (float_recommendations_shape turns
                [("ritual_over_stimulation", p1); ("emotion_over_accuracy", p2);
                 ("presence_over_performance", p3);
                 ("short_steady_repeatable", p4)] vs stage) as Hs.
  cbv zeta in Hs. split; [exact Hs|]. rewrite Hs. split.
  - intros key rec Hk.
    destruct (canned_not_around rec vs stage (lookup_in key _ rec Hk))
      as (Hf & Hb & Hx).
    rewrite (in_wrapped rec structure_your_visit _ _ _ Hf Hb Hx).
    apply (below_06_of_four p1 p2 p3 p4 key rec Hk).
  - assert (Hst : List.length (stage_recommendation stage) <= 1).
    { unfold stage_recommendation.
      destruct (String.eqb stage "early"); [cbn; lia|].
      destruct (String.eqb stage "moderate"); [cbn; lia|].
      destruct (String.eqb stage "late"); cbn; lia. }
    assert (Hlow : List.length
                     (below_06
                        [("ritual_over_stimulation", p1);
                         ("emotion_over_accuracy", p2);
                         ("presence_over_performance", p3);
                         ("short_steady_repeatable", p4)]) <= 4).
    { unfold below_06. cbn [flat_map fst snd].
      destruct (PrimFloat.ltb (Float64.score p1) 0.6);
        destruct (PrimFloat.ltb (Float64.score p2) 0.6);
        destruct (PrimFloat.ltb (Float64.score p3) 0.6);
        destruct (PrimFloat.ltb (Float64.score p4) 0.6);
        cbn; lia. }
    set (low := below_06 _) in *.
    destruct (has_high vs); cbn [app is_nil].
    + cbn [List.length]. rewrite length_app. lia.
    + destruct (low ++ stage_recommendation stage)%list eqn:E; cbn [is_nil].
      * cbn. lia.
      * rewrite <- E, length_app. split; [|lia].
        rewrite <- length_app, E. cbn. lia.
Qed.

Lemma recommendations_between_one_and_six_witness :
  exists r,
    Float64.analyze_conversation
      ("Ann: I understand, no, actually" ++ String nl
         "Ann: I understand that's wrong")
      "Ann" "Dad" "severe" = Some r
    /\ In (mkRecommendation "immediate" "communication" "Validate Feelings, Not Facts"
             "Correcting their reality creates conflict. Their emotions are always valid, even if facts aren't."
             "When they say something incorrect, respond to the feeling behind it instead of correcting."
             "If they say 'I need to pick up the kids' (who are grown), say: 'You're a caring parent' not 'Your kids are adults now.'")
          (Float64.recommendations r).
Proof.
  destruct (recommendations_between_one_and_six
              ("Ann: I understand, no, actually" ++ String nl
                 "Ann: I understand that's wrong")
              "Ann" "Dad" "severe") as (r & E & _ & H & _).
  exists r. split; [exact E|].
  apply (proj2 (H "emotion_over_accuracy" _ eq_refl)).
  vm_compute in E. injection E as <-. vm_compute. reflexivity.
Defined.

(** Two validation turns and two correction turns: the emotion score is
    0.7 + 0.2 - 0.3, one unit in the last place below 0.6 in binary64, so
    "Validate Feelings, Not Facts" is recommended. *)
Example ex_validate_feelings_below_06 :
  option_map
    (fun r => (PrimFloat.ltb (score_of "emotion_over_accuracy"
                                (Float64.principle_scores r)) 0.6,
               map title (Float64.recommendations r)))
    (Float64.analyze_conversation
       ("Ann: I understand, no, actually" ++ String nl
          "Ann: I understand that's wrong")
       "Ann" "Dad" "severe")
  = Some (true, ["Stop Testing Memory"; "Create Predictable Ritual";
                 "Validate Feelings, Not Facts"]).
Proof. vm_compute. reflexivity. Qed.
